(** * Oracle PDB toolkit: storage parsing, parameter reconciliation and the
      DBMS_PDB.DESCRIBE fallback resolver

    A shallow embedding of the parts of the toolkit that carry logic:

    - [utils/helper_functions.py]: [parse_storage_value], [format_storage_gb],
      [convert_storage_to_gb];
    - [pdb_clone.py]: the MAX_PDB_STORAGE check and the plug-compatibility
      check (the four DBMS_PDB.DESCRIBE calling conventions) of
      [perform_pdb_precheck], and the parameter comparison of
      [perform_pdb_postcheck];
    - [utils/report_generator.py]: the overall status and the two parameter
      tables of [generate_precheck_report].

    Conventions of the embedding.

    - A Python [str] is a [string] of bytes (its UTF-8 encoding); comparing
      two [str] by code point is comparing their encodings byte by byte.
      [upper], [strip] and [float] are modelled on ASCII, which is what
      Oracle storage clauses are written in.
    - A Python [float] is an IEEE 754 binary64 number, [spec_float] with
      [prec = 53] and [emax = 1024]; arithmetic and comparisons are the ones
      of [SpecFloat].
    - A call that may raise returns an [outcome]: [Ok v] or [Raise e].
    - The database driver, the clock and the local files are an interface
      ([Environment]); the code is run against any implementation of it, and
      every call is recorded in a trace.
    - The values of the parameter maps are strings.
    - [emit_progress] only feeds the progress display and is left out. *)

From Stdlib Require Import ZArith List Bool Lia Ascii String SpecFloat.
From stdpp Require Import base option list gmap sets strings sorting.

Local Open Scope Z_scope.

(** ** Python exceptions and outcomes *)

Inductive exn_kind :=
  | Exception_         (* a bare [Exception(...)] *)
  | ValueError
  | AttributeError
  | TypeError
  | IndexError
  | OSError
  | DatabaseError.     (* [oracledb.Error] and its subclasses *)

(** An exception carries its message ([str(e)]) and its [__context__]: the
    exception that was being handled when it was raised. *)
#[warnings="-register-all"]
Inductive py_exn :=
  | PyExn (kind : exn_kind) (msg : string) (context : option py_exn).

Definition exn_kind_of (e : py_exn) : exn_kind := let 'PyExn k _ _ := e in k.
Definition str_exn (e : py_exn) : string := let 'PyExn _ m _ := e in m.
Definition exn_context (e : py_exn) : option py_exn := let 'PyExn _ _ c := e in c.

(** Raising [e] inside [except ... as handled:] chains [handled] to it. *)
Definition raised_while_handling (handled e : py_exn) : py_exn :=
  let 'PyExn k m _ := e in PyExn k m (Some handled).

#[global] Instance exn_kind_eq_dec : EqDecision exn_kind.
Proof. solve_decision. Defined.

Inductive outcome (A : Type) :=
  | Ok (v : A)
  | Raise (e : py_exn).
Arguments Ok {A} v.
Arguments Raise {A} e.

(** ** Python strings *)

(** A text is a string of one-byte characters. On ASCII text the functions
    below are Python's. On other characters [str.upper], [str.strip] and
    [float] follow tables of Unicode (further white space, further decimal
    digits, further letters with an upper case), which are left out: the
    statements about texts that are read say that the text is ASCII. *)

Module PyStr.

Definition code (c : ascii) : N := N_of_ascii c.


(** The separators FS, GS, RS and US: white space for [str.strip] and
    [str.isspace], not for [float]. *)
Definition is_separator (c : ascii) : bool :=
  ((28 <=? code c) && (code c <=? 31))%N.

Definition is_lower (c : ascii) : bool := ((97 <=? code c) && (code c <=? 122))%N.

Definition upper_char (c : ascii) : ascii :=
  if is_lower c then ascii_of_N (code c - 32) else c.

(** [s.upper()] *)
Fixpoint upper (s : string) : string :=
  match s with
  | EmptyString => EmptyString
  | String c r => String (upper_char c) (upper r)
  end.

(** The ASCII characters [str.isspace] accepts: TAB..CR, FS..US, space. *)
Definition is_space (c : ascii) : bool :=
  (((9 <=? code c) && (code c <=? 13)) || ((28 <=? code c) && (code c <=? 32)))%N.

Fixpoint lstrip (s : string) : string :=
  match s with
  | EmptyString => EmptyString
  | String c r => if is_space c then lstrip r else s
  end.

Definition is_empty (s : string) : bool :=
  match s with EmptyString => true | _ => false end.

Fixpoint rstrip (s : string) : string :=
  match s with
  | EmptyString => EmptyString
  | String c r =>
      let r' := rstrip r in
      if is_space c && is_empty r' then EmptyString else String c r'
  end.

(** [s.strip()] *)
Definition strip (s : string) : string := rstrip (lstrip s).

(** [c in s] for a one-character [c] *)
Fixpoint contains (c : ascii) (s : string) : bool :=
  match s with
  | EmptyString => false
  | String d r => Ascii.eqb c d || contains c r
  end.

(** [s.replace(c, '')] for a one-character [c] *)
Fixpoint remove (c : ascii) (s : string) : string :=
  match s with
  | EmptyString => EmptyString
  | String d r => if Ascii.eqb c d then remove c r else String d (remove c r)
  end.

(** [not s]: the empty string is the only falsy string *)
Definition falsy (s : string) : bool := is_empty s.

End PyStr.

(** ** Python floats *)

Module PyFloat.

Definition float := spec_float.
Definition prec : Z := 53.
Definition emax : Z := 1024.

Definition mul : float -> float -> float := SFmul prec emax.
Definition div : float -> float -> float := SFdiv prec emax.

(** [x >= y] *)
Definition ge (x y : float) : bool := SFleb y x.
(** [x == y] *)
Definition eq (x y : float) : bool := SFeqb x y.


Definition is_finite (x : float) : bool :=
  match x with S754_zero _ | S754_finite _ _ _ => true | _ => false end.

(** The float of an integer (rounded to nearest, ties to even). *)
Definition of_Z (n : Z) : float := binary_normalize prec emax n 0 false.

(** The float nearest to [(-1)^s * m * 10^e10]. *)
Definition of_decimal (s : bool) (m : N) (e10 : Z) : float :=
  match m with
  | N0 => S754_zero s
  | Npos p =>
      if 0 <=? e10
      then binary_round prec emax s (p * Z.to_pos (10 ^ e10)) 0
      else SFdiv prec emax (S754_finite s p 0)
                           (S754_finite false (Z.to_pos (10 ^ (- e10))) 0)
  end.

(** *** [float(s)] *)

Definition is_digit (c : ascii) : bool :=
  ((48 <=? PyStr.code c) && (PyStr.code c <=? 57))%N.

Definition digit_val (c : ascii) : N := (PyStr.code c - 48)%N.

Definition starts_with_digit (s : string) : bool :=
  match s with String c _ => is_digit c | EmptyString => false end.

(** A digit part: digits, single underscores allowed between two digits.
    Returns the digits read and the rest of the string. *)
Fixpoint scan_digits (s : string) : list N * string :=
  match s with
  | String c r =>
      if is_digit c then
        let '(ds, rest) :=
          match r with
          | String u r2 =>
              if Ascii.eqb u "_"
              then if starts_with_digit r2 then scan_digits r2 else ([], r)
              else scan_digits r
          | EmptyString => ([], r)
          end in
        (digit_val c :: ds, rest)
      else ([], s)
  | EmptyString => ([], s)
  end.

Definition digits_value (ds : list N) : N :=
  fold_left (fun acc d => acc * 10 + d)%N ds 0%N.

(** An optional sign; [true] is minus. *)
Definition scan_sign (s : string) : bool * string :=
  match s with
  | String c r =>
      if Ascii.eqb c "-" then (true, r)
      else if Ascii.eqb c "+" then (false, r)
      else (false, s)
  | EmptyString => (false, s)
  end.

(** An optional exponent: [e] or [E], an optional sign, a digit part. *)
Definition scan_exponent (s : string) : option (Z * string) :=
  match s with
  | String c r =>
      if Ascii.eqb c "e" || Ascii.eqb c "E" then
        let '(neg, r1) := scan_sign r in
        let '(ds, rest) := scan_digits r1 in
        match ds with
        | [] => None
        | _ => let v := Z.of_N (digits_value ds) in
               Some (if neg then - v else v, rest)
        end
      else Some (0, s)
  | EmptyString => Some (0, s)
  end.

(** A decimal number without its sign, read to the end of the string:
    its digits as one integer and the power of ten that scales them. *)
Definition parse_number (s : string) : option (N * Z) :=
  let '(ip, r1) := scan_digits s in
  let '(fp, r2) :=
    match r1 with
    | String c r => if Ascii.eqb c "." then scan_digits r else ([], r1)
    | EmptyString => ([], r1)
    end in
  match ip ++ fp with
  | [] => None
  | ds =>
      match scan_exponent r2 with
      | Some (e, EmptyString) => Some (digits_value ds, e - Z.of_nat (length fp))
      | _ => None
      end
  end.

(** The white space [float] drops around an ASCII text: TAB..CR and space.
    The separators FS..US, which [str.strip] drops, stay. *)
Definition is_space (c : ascii) : bool :=
  (((9 <=? PyStr.code c) && (PyStr.code c <=? 13)) || (PyStr.code c =? 32))%N.

Fixpoint lstrip (s : string) : string :=
  match s with
  | EmptyString => EmptyString
  | String c r => if is_space c then lstrip r else s
  end.

Fixpoint rstrip (s : string) : string :=
  match s with
  | EmptyString => EmptyString
  | String c r =>
      let r' := rstrip r in
      if is_space c && PyStr.is_empty r' then EmptyString else String c r'
  end.

Definition strip (s : string) : string := rstrip (lstrip s).

(** [float(s)] for an ASCII [str]: surrounding white space is dropped; the
    text is [inf], [infinity] or [nan] in any case, or a decimal number;
    anything else raises [ValueError]. *)
Definition of_string (s : string) : outcome float :=
  let '(neg, r) := scan_sign (strip s) in
  let u := PyStr.upper r in
  if String.eqb u "INF" || String.eqb u "INFINITY" then Ok (S754_infinity neg)
  else if String.eqb u "NAN" then Ok S754_nan
  else
    match parse_number r with
    | Some (m, e10) => Ok (of_decimal neg m e10)
    | None =>
        Raise (PyExn ValueError
                 ("could not convert string to float: '" +:+ s +:+ "'") None)
    end.

(** *** [f"{x:.2f}"] *)

Definition digit_char (d : N) : ascii := ascii_of_N (48 + d).

(** The decimal digits of [n], most significant first; [fuel] bounds their
    number. *)
Fixpoint digits_of (fuel : nat) (n : N) : list N :=
  match fuel with
  | O => []
  | S fuel' =>
      if (n <? 10)%N then [n]
      else digits_of fuel' (n / 10) ++ [(n mod 10)%N]
  end.

Fixpoint string_of_digits (ds : list N) : string :=
  match ds with
  | [] => EmptyString
  | d :: ds' => String (digit_char d) (string_of_digits ds')
  end.

(** [str(n)] for a non-negative integer: [n] has fewer decimal digits than
    binary ones. *)
Definition string_of_N (n : N) : string :=
  string_of_digits (digits_of (S (N.to_nat (N.log2 n))) n).

Definition two_digits (n : N) : string :=
  String (digit_char (n / 10)) (String (digit_char (n mod 10)) EmptyString).

(** [|m * 2^e| * 100] rounded to an integer, ties to even: the exact value
    of the float is rounded, as [format] does. *)
Definition hundredths (m : positive) (e : Z) : N :=
  if 0 <=? e then Z.to_N (Zpos m * 2 ^ e * 100)
  else
    let den := 2 ^ (- e) in
    let num := Zpos m * 100 in
    let q := num / den in
    let r := num mod den in
    Z.to_N (match 2 * r ?= den with
            | Lt => q
            | Gt => q + 1
            | Eq => if Z.even q then q else q + 1
            end).

Definition sign_text (s : bool) : string := if s then "-" else "".

Definition format_2f (x : float) : string :=
  match x with
  | S754_nan => "nan"
  | S754_infinity s => sign_text s +:+ "inf"
  | S754_zero s => sign_text s +:+ "0.00"
  | S754_finite s m e =>
      let h := hundredths m e in
      sign_text s +:+ string_of_N (h / 100) +:+ "." +:+ two_digits (h mod 100)
  end.

End PyFloat.

(** ** [utils/helper_functions.py]: storage values *)

(** [except (ValueError, AttributeError):] *)
Definition is_value_or_attribute_error (e : py_exn) : bool :=
  match exn_kind_of e with
  | ValueError | AttributeError => true
  | _ => false
  end.

Definition float_1024 : PyFloat.float := PyFloat.of_Z 1024.
Definition float_1024_cubed : PyFloat.float := PyFloat.of_Z (1024 ^ 3).

(** The [try] body of [parse_storage_value]. *)
Definition parse_storage_value_body (storage_str_upper : string)
  : outcome (option PyFloat.float) :=
  if PyStr.contains "G" storage_str_upper then
    match PyFloat.of_string (PyStr.remove "G" storage_str_upper) with
    | Ok v => Ok (Some v)
    | Raise e => Raise e
    end
  else if PyStr.contains "M" storage_str_upper then
    match PyFloat.of_string (PyStr.remove "M" storage_str_upper) with
    | Ok mb_val => Ok (Some (PyFloat.div mb_val float_1024))
    | Raise e => Raise e
    end
  else if PyStr.contains "T" storage_str_upper then
    match PyFloat.of_string (PyStr.remove "T" storage_str_upper) with
    | Ok tb_val => Ok (Some (PyFloat.mul tb_val float_1024))
    | Raise e => Raise e
    end
  else
    match PyFloat.of_string storage_str_upper with
    | Ok bytes_val => Ok (Some (PyFloat.div bytes_val float_1024_cubed))
    | Raise e => Raise e
    end.

(** [parse_storage_value(storage_str)]; [None] is the unlimited value. *)
Definition parse_storage_value (storage_str : string)
  : outcome (option PyFloat.float) :=
  if PyStr.falsy storage_str then Ok None
  else
    let storage_str_upper := PyStr.strip (PyStr.upper storage_str) in
    if String.eqb storage_str_upper "UNLIMITED" then Ok None
    else
      match parse_storage_value_body storage_str_upper with
      | Ok v => Ok v
      | Raise e => if is_value_or_attribute_error e then Ok None else Raise e
      end.

(** [format_storage_gb(gb_value, unlimited_text)] *)
Definition format_storage_gb (gb_value : option PyFloat.float)
    (unlimited_text : string) : string :=
  match gb_value with
  | None => unlimited_text
  | Some v => PyFloat.format_2f v +:+ "G"
  end.

(** The value [convert_storage_to_gb] returns: a [str] or a [float]/[None]. *)
Inductive converted :=
  | Displayed (text : string)
  | Measured (gb_value : option PyFloat.float).

(** [convert_storage_to_gb(storage_str, display_format)] *)
Definition convert_storage_to_gb (storage_str : string) (display_format : bool)
  : outcome converted :=
  match parse_storage_value storage_str with
  | Ok gb_value =>
      if display_format
      then Ok (Displayed (format_storage_gb gb_value "UNLIMITED"))
      else Ok (Measured gb_value)
  | Raise e => Raise e
  end.


(** ** Validation results *)

(** A fetched row: the columns as text, [None] for NULL. *)
Definition row : Type := list (option string).

(** One entry of [validation_results]: a dict with the keys ['check'],
    ['status'], ['source_value'], ['target_value'] and, for the plug
    compatibility check, ['violations'] (rows of [pdb_plug_in_violations]). *)
Record validation_result := ValidationResult {
  check : string;
  status : string;
  source_value : string;
  target_value : string;
  violations : option (list row)
}.

(** [str(n)] for a non-negative [int] *)
Definition str_of_nat (n : nat) : string := PyFloat.string_of_N (N.of_nat n).

(** ** [utils/report_generator.py]: [generate_precheck_report] *)

(** [overall_pass = all(r['status'] == 'PASS' for r in validation_results
                        if r['status'] != 'SKIPPED')] *)
Definition overall_pass (validation_results : list validation_result) : bool :=
  forallb (fun r => String.eqb (status r) "PASS")
    (List.filter (fun r => negb (String.eqb (status r) "SKIPPED")) validation_results).

Definition overall_status (validation_results : list validation_result) : string :=
  if overall_pass validation_results then "PASS" else "FAIL".

Definition overall_class (validation_results : list validation_result) : string :=
  if overall_pass validation_results then "pass" else "fail".

(** *** Parameter maps *)

(** A row of [v$parameter]: [(name, value, isdefault)]. *)
Definition parameter_record : Type := string * string * string.

(** [{p[0]: p[1] for p in rows}]: a later row replaces an earlier one. *)
Definition dict_of_rows (rows : list parameter_record) : gmap string string :=
  foldl (fun m p => <[ p.1.1 := p.1.2 ]> m) ∅ rows.

(** [d.get(key, default)] *)
Definition dict_get (d : gmap string string) (key default_value : string) : string :=
  default default_value (d !! key).

(** The order of [str]: code points, that is bytes of the encoding. *)
Definition str_le (a b : string) : Prop := String.leb a b.

#[global] Instance str_le_dec a b : Decision (str_le a b).
Proof. unfold str_le. apply _. Defined.

(** [sorted(set(source.keys()) | set(target.keys()))] *)
Definition sorted_key_union (source target : gmap string string) : list string :=
  merge_sort str_le (elements (dom source ∪ dom target)).

(** A row of a parameter table of the report. *)
Record parameter_row := ParameterRow {
  row_param : string;
  row_source_val : string;
  row_target_val : string;
  row_class : string;
  row_status : string
}.

(** Section 3, the CDB parameter table: one row per key of the union. *)
Definition cdb_parameter_row (source_cdb_params target_cdb_params : gmap string string)
    (param : string) : parameter_row :=
  let source_val := dict_get source_cdb_params param "N/A" in
  let target_val := dict_get target_cdb_params param "N/A" in
  if String.eqb source_val target_val
  then ParameterRow param source_val target_val "match" "SAME"
  else ParameterRow param source_val target_val "diff" "DIFF".

(** The loop over [all_cdb_params]. *)
Definition cdb_parameter_rows (source_cdb_params target_cdb_params : gmap string string)
  : list parameter_row :=
  let all_cdb_params := sorted_key_union source_cdb_params target_cdb_params in
  map (cdb_parameter_row source_cdb_params target_cdb_params) all_cdb_params.

Definition cdb_parameter_table (source_cdb_parameters target_cdb_parameters :
    list parameter_record) : list parameter_row :=
  cdb_parameter_rows (dict_of_rows source_cdb_parameters)
                     (dict_of_rows target_cdb_parameters).

(** Section 4, the PDB parameter table: the body of the loop over
    [all_pdb_params]. *)
Definition pdb_parameter_row (source_pdb_params target_pdb_params : gmap string string)
    (target_pdb_exists : bool) (param : string) : parameter_row :=
  let source_val := dict_get source_pdb_params param "Not Set" in
  let target_val :=
    dict_get target_pdb_params param
      (if target_pdb_exists then "Not Set" else "PDB not created yet") in
  if String.eqb source_val target_val && target_pdb_exists
  then ParameterRow param source_val target_val "match" "SAME"
  else if negb target_pdb_exists
  then ParameterRow param source_val target_val "" "Pending"
  else ParameterRow param source_val target_val "diff" "DIFF".

(** [target_pdb_exists = len(target_pdb_params) > 0] *)
Definition target_pdb_exists_of (target_pdb_params : gmap string string) : bool :=
  bool_decide (0 < size target_pdb_params)%nat.

(** The rows of the PDB parameter table (when [all_pdb_params] is empty the
    report prints one line of text instead of rows). *)
Definition pdb_parameter_rows (source_pdb_params target_pdb_params : gmap string string)
  : list parameter_row :=
  let all_pdb_params := sorted_key_union source_pdb_params target_pdb_params in
  let target_pdb_exists := target_pdb_exists_of target_pdb_params in
  map (pdb_parameter_row source_pdb_params target_pdb_params target_pdb_exists)
      all_pdb_params.

Definition pdb_parameter_table (source_pdb_parameters target_pdb_parameters :
    list parameter_record) : list parameter_row :=
  pdb_parameter_rows (dict_of_rows source_pdb_parameters)
                     (dict_of_rows target_pdb_parameters).

(** ** [pdb_clone.py]: the parameter comparison of [perform_pdb_postcheck] *)

(** The loop over [sorted(all_keys)]: the keys whose values differ, with
    both values. *)
Definition param_differences (source_params target_params : gmap string string)
  : list (string * string * string) :=
  foldl
    (fun diffs key =>
       let source_val := dict_get source_params key "N/A" in
       let target_val := dict_get target_params key "N/A" in
       if negb (String.eqb source_val target_val)
       then diffs ++ [(key, source_val, target_val)]
       else diffs)
    [] (sorted_key_union source_params target_params).

(** [params_match = len(param_differences) == 0] *)
Definition params_match (source_params target_params : gmap string string) : bool :=
  Nat.eqb (length (param_differences source_params target_params)) 0.

(** The ['Oracle DB Parameters Match'] entry of the postcheck. *)
Definition parameters_match_result (source_params target_params : gmap string string)
  : validation_result :=
  ValidationResult "Oracle DB Parameters Match"
    (if params_match source_params target_params then "PASS" else "FAILED")
    (str_of_nat (size source_params) +:+ " parameters")
    (str_of_nat (size target_params) +:+ " parameters ("
       +:+ str_of_nat (length (param_differences source_params target_params))
       +:+ " differences)")
    None.

(** ** [pdb_clone.py]: check 9 of [perform_pdb_precheck], MAX_PDB_STORAGE *)

Section MaxPdbStorage.

(** [str(x)] of a number, as the [f"{...}"] of the display fields prints it.
    Only the texts shown in the report depend on it. *)
Variable repr_number : PyFloat.float -> string.

(** The [try] body that converts the target limit to GB: the value and the
    text shown for it. *)
Definition convert_target_limit_body (storage_str : string)
  : outcome (PyFloat.float * string) :=
  if PyStr.contains "G" storage_str then
    match PyFloat.of_string (PyStr.remove "G" storage_str) with
    | Ok v => Ok (v, PyFloat.format_2f v +:+ "G")
    | Raise e => Raise e
    end
  else if PyStr.contains "M" storage_str then
    match PyFloat.of_string (PyStr.remove "M" storage_str) with
    | Ok v => let max_storage_gb := PyFloat.div v float_1024 in
              Ok (max_storage_gb, PyFloat.format_2f max_storage_gb +:+ "G")
    | Raise e => Raise e
    end
  else if PyStr.contains "T" storage_str then
    match PyFloat.of_string (PyStr.remove "T" storage_str) with
    | Ok v => let max_storage_gb := PyFloat.mul v float_1024 in
              Ok (max_storage_gb, PyFloat.format_2f max_storage_gb +:+ "G")
    | Raise e => Raise e
    end
  else
    match PyFloat.of_string storage_str with
    | Ok v => let max_storage_gb := PyFloat.div v float_1024_cubed in
              Ok (max_storage_gb, PyFloat.format_2f max_storage_gb +:+ "G")
    | Raise e => Raise e
    end.

(** [(target_max_pdb_storage, max_storage_gb)] from the raw property value of
    an existing target PDB. *)
Definition convert_target_limit (target_max_pdb_storage_raw : string)
  : outcome (string * option PyFloat.float) :=
  if String.eqb (PyStr.upper target_max_pdb_storage_raw) "UNLIMITED"
  then Ok ("UNLIMITED", None)
  else
    match convert_target_limit_body (PyStr.upper target_max_pdb_storage_raw) with
    | Ok (max_storage_gb, target_max_pdb_storage) =>
        Ok (target_max_pdb_storage, Some max_storage_gb)
    | Raise e =>
        if is_value_or_attribute_error e
        then Ok (target_max_pdb_storage_raw, None)
        else Raise e
    end.

(** The same for a target PDB that may not exist yet: [None] is no target
    PDB to ask. For an existing PDB the raw value is the property read from
    [database_properties], or 'UNLIMITED' when the property is not set. *)
Definition target_limit (target_max_pdb_storage_raw : option string)
  : outcome (string * option PyFloat.float) :=
  match target_max_pdb_storage_raw with
  | Some raw => convert_target_limit raw
  | None => Ok ("N/A (PDB not created yet)", None)
  end.

(** "Compare with source PDB size": [(storage_ok, storage_status)]. *)
Definition compare_with_source_size (target_max_pdb_storage : string)
    (max_storage_gb : option PyFloat.float) (pdb_size_gb : PyFloat.float)
  : bool * string :=
  if String.eqb target_max_pdb_storage "N/A (PDB not created yet)" then
    (true, target_max_pdb_storage)
  else if String.eqb target_max_pdb_storage "UNLIMITED" then
    (true, "UNLIMITED (sufficient for " +:+ repr_number pdb_size_gb +:+ " GB source PDB)")
  else
    match max_storage_gb with
    | Some limit =>
        let storage_ok := PyFloat.ge limit pdb_size_gb in
        (storage_ok,
         target_max_pdb_storage +:+ " ("
           +:+ (if storage_ok then "sufficient" else "insufficient")
           +:+ " for " +:+ repr_number pdb_size_gb +:+ " GB source PDB)")
    | None =>
        (true, target_max_pdb_storage +:+ " (unable to parse, treating as sufficient)")
    end.

(** The ['MAX_PDB_STORAGE Limit'] entry appended to [validation_results]. *)
Definition max_pdb_storage_result (source_max_pdb_storage : string)
    (pdb_size_gb : PyFloat.float) (storage : bool * string) : validation_result :=
  ValidationResult "MAX_PDB_STORAGE Limit"
    (if storage.1 then "PASS" else "FAILED")
    (repr_number pdb_size_gb +:+ " GB (limit: " +:+ source_max_pdb_storage +:+ ")")
    storage.2
    None.

(** Check 9 from the raw target value on. *)
Definition max_pdb_storage_check (source_max_pdb_storage : string)
    (pdb_size_gb : PyFloat.float) (target_max_pdb_storage_raw : option string)
  : outcome validation_result :=
  match target_limit target_max_pdb_storage_raw with
  | Ok (target_max_pdb_storage, max_storage_gb) =>
      Ok (max_pdb_storage_result source_max_pdb_storage pdb_size_gb
            (compare_with_source_size target_max_pdb_storage max_storage_gb pdb_size_gb))
  | Raise e => Raise e
  end.

End MaxPdbStorage.


(** ** Vocabulary of the statements *)

(** Strictly ascending order of strings. *)
Definition str_lt (a b : string) : Prop := String.ltb a b.

(** Every character of [s] satisfies [p]. *)
Fixpoint all_chars (p : ascii -> bool) (s : string) : bool :=
  match s with
  | EmptyString => true
  | String c r => p c && all_chars p r
  end.

Fixpoint last_char (s : string) : option ascii :=
  match s with
  | EmptyString => None
  | String c EmptyString => Some c
  | String _ r => last_char r
  end.


(** A text with none of the separators FS..US. *)
Definition no_separator (s : string) : bool :=
  all_chars (fun c => negb (PyStr.is_separator c)) s.


(** The characters of a number as [float] reads it once in upper case. *)
Definition is_numeral_char (c : ascii) : bool :=
  PyFloat.is_digit c
  || Ascii.eqb c "." || Ascii.eqb c "+" || Ascii.eqb c "-"
  || Ascii.eqb c "E" || Ascii.eqb c "_".


(** The characters of a formatted number: digits, the point, the sign. *)
Definition is_plain_char (c : ascii) : bool :=
  PyFloat.is_digit c || Ascii.eqb c "." || Ascii.eqb c "-".

(** A float rounded to two decimals and read back: the float nearest to the
    number that [format_2f] prints. Zeros, infinities and NaN are unchanged. *)
Definition two_decimals (q : PyFloat.float) : PyFloat.float :=
  match q with
  | S754_finite s m e => PyFloat.of_decimal s (PyFloat.hundredths m e) (-2)
  | _ => q
  end.

(** What [parse_storage_value] makes of the outcome of [float]: the scaled
    value, or [None] when [float] raised. *)
Definition scaled_or_unlimited (scale : PyFloat.float -> PyFloat.float)
    (r : outcome PyFloat.float) : outcome (option PyFloat.float) :=
  match r with
  | Ok v => Ok (Some (scale v))
  | Raise _ => Ok None
  end.


(** One eighth, [0.125]. *)
Definition float_one_eighth : PyFloat.float :=
  PyFloat.div (PyFloat.of_Z 1) (PyFloat.of_Z 8).


(** ** [pdb_clone.py]: the statements [perform_pdb_precheck] submits *)

(** The texts are the string literals of the source, white space included. *)

(** The query of [all_arguments] for the declared shapes of DBMS_PDB.DESCRIBE. *)
Definition describe_signature_query : string :=
  "
            SELECT argument_name, position, data_type, in_out, data_level, overload
            FROM all_arguments
            WHERE owner = 'SYS'
            AND package_name = 'DBMS_PDB'
            AND object_name = 'DESCRIBE'
            ORDER BY overload NULLS FIRST, position
        ".

(** Method 1: two parameters, by name. *)
Definition plsql_block_method1 : string :=
  "
            DECLARE
                v_pdb_name VARCHAR2(128) := :pdb_name;
            BEGIN
                DBMS_PDB.DESCRIBE(
                    pdb_descr_xml => :xml_output,
                    pdb_name => v_pdb_name
                );
            END;
        ".

(** Method 2: the text of the source is the text of method 1. *)
Definition plsql_block_method2 : string :=
  "
            DECLARE
                v_pdb_name VARCHAR2(128) := :pdb_name;
            BEGIN
                DBMS_PDB.DESCRIBE(
                    pdb_descr_xml => :xml_output,
                    pdb_name => v_pdb_name
                );
            END;
        ".

(** Method 3: two parameters, by position. *)
Definition plsql_block_method3 : string :=
  "
            DECLARE
                v_pdb_name VARCHAR2(128) := :pdb_name;
            BEGIN
                DBMS_PDB.DESCRIBE(:xml_output, v_pdb_name);
            END;
        ".

(** Method 4: DESCRIBE to a file of DATA_PUMP_DIR, read back with UTL_FILE. *)
Definition plsql_block_method4 : string :=
  "
            DECLARE
                v_pdb_name VARCHAR2(128) := :pdb_name;
                v_filename VARCHAR2(100) := 'pdb_describe_' || TO_CHAR(SYSDATE, 'YYYYMMDDHH24MISS') || '.xml';
                v_dir VARCHAR2(30) := 'DATA_PUMP_DIR';
                v_file_handle UTL_FILE.FILE_TYPE;
                v_clob CLOB;
                v_line VARCHAR2(32767);
            BEGIN
                -- Step 1: Generate XML file using DBMS_PDB.DESCRIBE
                DBMS_PDB.DESCRIBE(
                    pdb_descr_file => v_filename,
                    pdb_name => v_pdb_name
                );

                -- Step 2: Read the file into a CLOB
                DBMS_LOB.CREATETEMPORARY(v_clob, TRUE);
                v_file_handle := UTL_FILE.FOPEN(v_dir, v_filename, 'R', 32767);

                BEGIN
                    LOOP
                        UTL_FILE.GET_LINE(v_file_handle, v_line);
                        DBMS_LOB.WRITEAPPEND(v_clob, LENGTH(v_line) + 1, v_line || CHR(10));
                    END LOOP;
                EXCEPTION
                    WHEN NO_DATA_FOUND THEN
                        NULL;  -- End of file reached
                END;

                UTL_FILE.FCLOSE(v_file_handle);

                -- Step 3: Delete the temporary file
                UTL_FILE.FREMOVE(v_dir, v_filename);

                -- Step 4: Return the CLOB
                :xml_output := v_clob;
            END;
        ".

(** The call of DBMS_PDB.CHECK_PLUG_COMPATIBILITY on the target. *)
Definition check_compat_block : string :=
  "
            DECLARE
                v_compatible BOOLEAN;
            BEGIN
                v_compatible := DBMS_PDB.CHECK_PLUG_COMPATIBILITY(
                    pdb_descr_xml => :xml_input
                );
                IF v_compatible THEN
                    :result := 'TRUE';
                ELSE
                    :result := 'FALSE';
                END IF;
            END;
        ".

(** The unresolved rows of [pdb_plug_in_violations]. *)
Definition violations_query : string :=
  "
                SELECT name, cause, type, message, status, action
                FROM pdb_plug_in_violations
                WHERE status != 'RESOLVED'
                ORDER BY time DESC
                FETCH FIRST 20 ROWS ONLY
            ".

(** The non-default parameters, as asked of the two CDBs. *)
Definition cdb_parameters_query : string :=
  "
        SELECT name, value, isdefault
        FROM v$parameter
        WHERE isdefault = 'FALSE'
        ORDER BY name
    ".

(** The same query, as written for the source PDB. *)
Definition source_pdb_parameters_query : string :=
  "
            SELECT name, value, isdefault
            FROM v$parameter
            WHERE isdefault = 'FALSE'
            ORDER BY name
        ".

(** The same query, as written for the target PDB. *)
Definition target_pdb_parameters_query : string :=
  "
                SELECT name, value, isdefault
                FROM v$parameter
                WHERE isdefault = 'FALSE'
                ORDER BY name
            ".

Definition container_query : string :=
  "SELECT sys_context('USERENV', 'CON_NAME') FROM dual".

(** ** The environment of the precheck: driver, clock and local files *)

Inductive connection := SourceConn | TargetConn | SourcePdbConn | TargetPdbConn.
Inductive cursor := SourceCursor | TargetCursor | SourcePdbCursor | TargetPdbCursor.
Inductive handle := OfConnection (c : connection) | OfCursor (c : cursor).

(** A keyword argument of [cursor.execute]: an output variable made by
    [cursor.var], or a value passed in. *)
Inductive bind :=
  | OutVar
  | InValue (v : option string).

(** The calls the code makes on its environment. *)
Inductive call :=
  | Var (c : cursor)                                   (* [c.var(...)] *)
  | Execute (c : cursor) (statement : string) (binds : list (string * bind))
  | Fetchone (c : cursor)
  | Fetchall (c : cursor)
  | Connect (c : connection) (dsn : string)
            (credentials : option (option string * option string))
  | OpenCursor (c : connection) (cur : cursor)         (* [c.cursor()] *)
  | Close (h : handle)
  | Now                                                (* [datetime.now()] *)
  | WriteFile (filename content : string).             (* [open(..., 'w')], [write] *)

(** What a call hands back. For [Execute], the value left in the output
    variable of the statement, if it has one. *)
Inductive reply :=
  | Done
  | Value (v : option string)
  | FetchedRow (r : option row)
  | FetchedRows (rs : list row)
  | Time (stamp : string).

(** An environment: a state and its answer to each call. *)
Class Environment (S : Type) := {
  respond : call -> S -> outcome reply * S
}.

(** The state of a run: the environment, and the calls made so far. *)
Record world (S : Type) := World {
  env : S;
  calls : list call
}.
Arguments World {S} env calls.
Arguments env {S} w.
Arguments calls {S} w.

(** A computation: it knows the exception being handled, if any
    ([handling], for [__context__]), and runs on the world. *)
Definition M (S A : Type) : Type := option py_exn -> world S -> outcome A * world S.

Definition ret {S A} (v : A) : M S A := fun _ w => (Ok v, w).

Definition bind_M {S A B} (m : M S A) (k : A -> M S B) : M S B :=
  fun handling w =>
    match m handling w with
    | (Ok v, w') => k v handling w'
    | (Raise e, w') => (Raise e, w')
    end.

Declare Scope py_scope.
Delimit Scope py_scope with py.
Notation "x <- m ;; k" := (bind_M m (fun x => k))
  (at level 100, m at next level, right associativity) : py_scope.
Notation "m ;;; k" := (bind_M m (fun _ => k))
  (at level 100, right associativity) : py_scope.

Definition with_context (handling : option py_exn) (e : py_exn) : py_exn :=
  match handling with
  | Some handled => raised_while_handling handled e
  | None => e
  end.

(** [raise e] *)
Definition raise {S A} (e : py_exn) : M S A :=
  fun handling w => (Raise (with_context handling e), w).

(** [try: m  except Exception as e: handler e] *)
Definition try_except {S A} (m : M S A) (handler : py_exn -> M S A) : M S A :=
  fun handling w =>
    match m handling w with
    | (Ok v, w') => (Ok v, w')
    | (Raise e, w') => handler e (Some e) w'
    end.

(** A call on the environment: recorded, answered, and an exception it
    raises is chained to the one being handled. *)
Definition perform {S} `{Environment S} (c : call) : M S reply :=
  fun handling w =>
    match respond c (env w) with
    | (Ok r, s') => (Ok r, World s' (calls w ++ [c]))
    | (Raise e, s') => (Raise (with_context handling e), World s' (calls w ++ [c]))
    end.

Definition type_error (msg : string) : py_exn := PyExn TypeError msg None.

(** The typed faces of [perform]. An environment that answers a call with
    a reply of the wrong kind is answered by a [TypeError]. *)
Definition cursor_var {S} `{Environment S} (c : cursor) : M S unit :=
  (r <- perform (Var c) ;;
   match r with
   | Done => ret tt
   | _ => raise (type_error "var")
   end)%py.

Definition cursor_execute {S} `{Environment S} (c : cursor) (statement : string)
    (binds : list (string * bind)) : M S (option string) :=
  (r <- perform (Execute c statement binds) ;;
   match r with
   | Done => ret None
   | Value v => ret v
   | _ => raise (type_error "execute")
   end)%py.

Definition cursor_fetchone {S} `{Environment S} (c : cursor) : M S (option row) :=
  (r <- perform (Fetchone c) ;;
   match r with
   | FetchedRow v => ret v
   | _ => raise (type_error "fetchone")
   end)%py.

Definition cursor_fetchall {S} `{Environment S} (c : cursor) : M S (list row) :=
  (r <- perform (Fetchall c) ;;
   match r with
   | FetchedRows v => ret v
   | _ => raise (type_error "fetchall")
   end)%py.

Definition unit_call {S} `{Environment S} (c : call) : M S unit :=
  (r <- perform c ;;
   match r with
   | Done => ret tt
   | _ => raise (type_error "call")
   end)%py.

Definition clock_now {S} `{Environment S} : M S string :=
  (r <- perform Now ;;
   match r with
   | Time stamp => ret stamp
   | _ => raise (type_error "now")
   end)%py.


(** ** [pdb_clone.py]: check 10 of [perform_pdb_precheck], plug compatibility *)

(** The entries of [params] the modelled code reads. *)
Record clone_params := CloneParams {
  connection_mode : string;
  source_scan : string;
  source_port : string;
  source_cdb : string;
  source_pdb : string;
  target_scan : string;
  target_port : string;
  target_cdb : string;
  target_pdb : string;
  source_username : option string;
  source_password : option string;
  target_username : option string;
  target_password : option string
}.

(** The keys of [source_data] and [target_data] the modelled code reads or
    writes; the other keys are left as they are. *)
Record gathered := Gathered {
  pdb_mode : option string;
  cdb_parameters : list row;
  pdb_parameters : list row
}.

(** [str(v)] of a value that is a [str] or [None] *)
Definition str_of_option (v : option string) : string := default "None" v.

Section Precheck.

Context {S : Type} `{Environment S}.
Variable params : clone_params.

(** [xml_output=xml_var, pdb_name=source_pdb] *)
Definition describe_binds : list (string * bind) :=
  [("xml_output", OutVar); ("pdb_name", InValue (Some (source_pdb params)))].

(** The four nested [try] blocks: [(method_succeeded, xml_var.getvalue())].
    Every method after the first makes a fresh [xml_var] inside its [try]. *)
Definition describe_attempts : M S (bool * option string) :=
  (try_except
     (xml <- cursor_execute SourceCursor plsql_block_method1 describe_binds ;;
      ret (true, xml))
     (fun e1 =>
        try_except
          (cursor_var SourceCursor ;;;
           xml <- cursor_execute SourceCursor plsql_block_method2 describe_binds ;;
           ret (true, xml))
          (fun e2 =>
             try_except
               (cursor_var SourceCursor ;;;
                xml <- cursor_execute SourceCursor plsql_block_method3 describe_binds ;;
                ret (true, xml))
               (fun e3 =>
                  try_except
                    (cursor_var SourceCursor ;;;
                     xml <- cursor_execute SourceCursor plsql_block_method4
                              describe_binds ;;
                     ret (true, xml))
                    (fun e4 =>
                       raise (PyExn Exception_ "ALL_METHODS_FAILED_FILE_BASED_ONLY"
                                    None))))))%py.

(** From "Create CLOB variable for XML output" to [xml_clob =
    xml_var.getvalue()]: the resolver. *)
Definition describe : M S (option string) :=
  (cursor_var SourceCursor ;;;
   r <- describe_attempts ;;
   (if negb r.1
    then raise (PyExn Exception_ "All DBMS_PDB.DESCRIBE methods failed" None)
    else ret tt) ;;;
   ret r.2)%py.

(** [row[0]] of the result of [fetchone()] *)
Definition first_column (r : option row) : M S (option string) :=
  match r with
  | Some (c :: _) => ret c
  | Some [] => raise (PyExn IndexError "tuple index out of range" None)
  | None => raise (type_error "'NoneType' object is not subscriptable")
  end.

(** The start of the [try] block: the container and the declared
    signatures are read (and only shown). *)
Definition before_describe : M S unit :=
  (cursor_execute SourceCursor container_query [] ;;;
   current <- cursor_fetchone SourceCursor ;;
   first_column current ;;;
   cursor_execute SourceCursor describe_signature_query [] ;;;
   cursor_fetchall SourceCursor ;;;
   ret tt)%py.

Definition xml_filename (timestamp : string) : string :=
  source_cdb params +:+ "_" +:+ source_pdb params +:+ "_pdb_describe_"
    +:+ timestamp +:+ ".xml".

(** The end of the [try] block: the XML is saved, and checked on the
    target. *)
Definition after_describe (xml_clob : option string) : M S validation_result :=
  (timestamp <- clock_now ;;
   match xml_clob with
   | Some xml_content => unit_call (WriteFile (xml_filename timestamp) xml_content)
   | None => ret tt
   end ;;;
   cursor_var TargetCursor ;;;
   compatibility_result <-
     cursor_execute TargetCursor check_compat_block
       [("xml_input", InValue xml_clob); ("result", OutVar)] ;;
   found <-
     (if bool_decide (compatibility_result = Some "FALSE")
      then cursor_execute TargetCursor violations_query [] ;;;
           cursor_fetchall TargetCursor
      else ret []) ;;
   ret (ValidationResult "DBMS_PDB Plug Compatibility"
          (if bool_decide (compatibility_result = Some "TRUE") then "PASS" else "FAILED")
          "XML generated (CLOB)"
          (str_of_option compatibility_result)
          (Some found)))%py.

(** [except Exception as e:] of check 10 *)
Definition plug_compatibility_handler (e : py_exn) : M S validation_result :=
  if String.eqb (str_exn e) "SKIP_FILE_BASED_CHECK"
     || String.eqb (str_exn e) "ALL_METHODS_FAILED_FILE_BASED_ONLY"
  then ret (ValidationResult "DBMS_PDB Plug Compatibility" "SKIPPED" "N/A"
              "File-based only (requires manual check)" None)
  else ret (ValidationResult "DBMS_PDB Plug Compatibility" "SKIPPED" "Check failed"
              ("Error: " +:+ str_exn e) (Some [])).

(** Check 10: the entry it appends to [validation_results]. *)
Definition plug_compatibility_check : M S validation_result :=
  try_except
    (before_describe ;;; xml_clob <- describe ;; after_describe xml_clob)%py
    plug_compatibility_handler.

(** *** After check 10: the parameters are gathered *)

Definition credentials (user password : option string)
  : option (option string * option string) :=
  if String.eqb (connection_mode params) "external_auth"
  then None
  else Some (user, password).

Definition source_pdb_dsn : string :=
  source_scan params +:+ ":" +:+ source_port params +:+ "/" +:+ source_pdb params.

Definition target_pdb_dsn : string :=
  target_scan params +:+ ":" +:+ target_port params +:+ "/" +:+ target_pdb params.

Definition gather_source_pdb_parameters : M S (list row) :=
  try_except
    (unit_call (Connect SourcePdbConn source_pdb_dsn
                  (credentials (source_username params) (source_password params))) ;;;
     unit_call (OpenCursor SourcePdbConn SourcePdbCursor) ;;;
     cursor_execute SourcePdbCursor source_pdb_parameters_query [] ;;;
     rows <- cursor_fetchall SourcePdbCursor ;;
     unit_call (Close (OfCursor SourcePdbCursor)) ;;;
     unit_call (Close (OfConnection SourcePdbConn)) ;;;
     ret rows)%py
    (fun _ => ret []).

Definition gather_target_pdb_parameters : M S (list row) :=
  try_except
    (unit_call (Connect TargetPdbConn target_pdb_dsn
                  (credentials (target_username params) (target_password params))) ;;;
     unit_call (OpenCursor TargetPdbConn TargetPdbCursor) ;;;
     cursor_execute TargetPdbCursor target_pdb_parameters_query [] ;;;
     rows <- cursor_fetchall TargetPdbCursor ;;
     unit_call (Close (OfCursor TargetPdbCursor)) ;;;
     unit_call (Close (OfConnection TargetPdbConn)) ;;;
     ret rows)%py
    (fun _ => ret []).

(** [target_data.get('pdb_mode') and target_data['pdb_mode'] != 'Does not exist'] *)
Definition target_pdb_exists (target_data : gathered) : bool :=
  match pdb_mode target_data with
  | Some mode => negb (PyStr.falsy mode) && negb (String.eqb mode "Does not exist")
  | None => false
  end.

(** From "Gather Oracle CDB parameters" to the [return]. *)
Definition gather_parameters (validation_results : list validation_result)
    (source_data target_data : gathered)
  : M S (list validation_result * gathered * gathered) :=
  (cursor_execute SourceCursor cdb_parameters_query [] ;;;
   source_cdb_parameters <- cursor_fetchall SourceCursor ;;
   cursor_execute TargetCursor cdb_parameters_query [] ;;;
   target_cdb_parameters <- cursor_fetchall TargetCursor ;;
   source_pdb_parameters <- gather_source_pdb_parameters ;;
   target_pdb_parameters <-
     (if target_pdb_exists target_data
      then gather_target_pdb_parameters
      else ret []) ;;
   unit_call (Close (OfCursor SourceCursor)) ;;;
   unit_call (Close (OfCursor TargetCursor)) ;;;
   unit_call (Close (OfConnection SourceConn)) ;;;
   unit_call (Close (OfConnection TargetConn)) ;;;
   ret (validation_results,
        Gathered (pdb_mode source_data) source_cdb_parameters source_pdb_parameters,
        Gathered (pdb_mode target_data) target_cdb_parameters target_pdb_parameters))%py.

(** [perform_pdb_precheck] from check 10 to its [return], given what the
    checks before it left in [validation_results], [source_data] and
    [target_data]. *)
Definition perform_pdb_precheck_from_check_10
    (validation_results : list validation_result)
    (source_data target_data : gathered)
  : M S (list validation_result * gathered * gathered) :=
  (r <- plug_compatibility_check ;;
   gather_parameters (validation_results ++ [r]) source_data target_data)%py.

(** *** The strategies one by one *)

Definition describe_blocks : list string :=
  [plsql_block_method1; plsql_block_method2; plsql_block_method3; plsql_block_method4].

(** Strategy [i] (from 0) run on its own: the statement of the method, on
    a fresh output variable for every method after the first. *)
Definition attempt (i : nat) : M S (option string) :=
  match i with
  | O => cursor_execute SourceCursor (nth 0 describe_blocks "") describe_binds
  | _ => (cursor_var SourceCursor ;;;
          cursor_execute SourceCursor (nth i describe_blocks "") describe_binds)%py
  end.

(** Strategies [first], ..., [first + k - 1] run one after the other and all
    fail: the last exception and the world they leave. [None] if one of
    them succeeds. *)
Fixpoint failed_attempts (k first : nat) (handling : option py_exn) (w : world S)
  : option (option py_exn * world S) :=
  match k with
  | O => Some (handling, w)
  | Datatypes.S k' =>
      match attempt first handling w with
      | (Raise e, w') => failed_attempts k' (Datatypes.S first) (Some e) w'
      | (Ok _, _) => None
      end
  end.

End Precheck.

(** The statements executed on the source cursor, in order. *)
Definition source_statements (cs : list call) : list string :=
  omap (fun c => match c with
                 | Execute SourceCursor statement _ => Some statement
                 | _ => None
                 end) cs.


(** ** The server side of method 4, and a database to run the code against *)

Module Oracle.

(** The built-ins that the PL/SQL block of method 4 calls. *)
Inductive builtin :=
  | DBMS_PDB_DESCRIBE
  | DBMS_LOB_CREATETEMPORARY
  | UTL_FILE_FOPEN
  | UTL_FILE_GET_LINE
  | DBMS_LOB_WRITEAPPEND
  | UTL_FILE_FCLOSE
  | UTL_FILE_FREMOVE.

#[global] Instance builtin_eq_dec : EqDecision builtin.
Proof. solve_decision. Defined.

(** A database server: which calling conventions of DBMS_PDB.DESCRIBE it
    accepts, which built-ins fail on it (with their error), the files of
    DATA_PUMP_DIR, and the files the client wrote locally. *)
Record server := Server {
  accepts_named_clob : bool;
  accepts_positional_clob : bool;
  failing : builtin -> option string;
  sysdate : string;                  (* [TO_CHAR(SYSDATE, 'YYYYMMDDHH24MISS')] *)
  description : list string;         (* the lines of the XML description *)
  data_pump_dir : list string;       (* the names of the files of the directory *)
  local_files : list (string * string)
}.

Definition ora_error (msg : string) : py_exn := PyExn DatabaseError msg None.

Definition with_data_pump_dir (sv : server) (files : list string) : server :=
  Server (accepts_named_clob sv) (accepts_positional_clob sv) (failing sv)
         (sysdate sv) (description sv) files (local_files sv).

Definition with_local_file (sv : server) (name content : string) : server :=
  Server (accepts_named_clob sv) (accepts_positional_clob sv) (failing sv)
         (sysdate sv) (description sv) (data_pump_dir sv)
         (local_files sv ++ [(name, content)]).

Definition newline : string := String "010" EmptyString.

(** [v_filename] of the block *)
Definition describe_filename (sv : server) : string :=
  "pdb_describe_" +:+ sysdate sv +:+ ".xml".

(** The loop of step 2: [GET_LINE] then [WRITEAPPEND] for each line, until
    [NO_DATA_FOUND], which the block handles. Any other error leaves the
    loop and the block. *)
Fixpoint read_lines (sv : server) (lines : list string) (v_clob : string)
  : outcome string :=
  match lines with
  | [] => Ok v_clob
  | v_line :: rest =>
      match failing sv UTL_FILE_GET_LINE with
      | Some err => Raise (ora_error err)
      | None =>
          match failing sv DBMS_LOB_WRITEAPPEND with
          | Some err => Raise (ora_error err)
          | None => read_lines sv rest (v_clob +:+ v_line +:+ newline)
          end
      end
  end.

(** The block of method 4, statement by statement. The block has no handler
    but the one of the loop: an error of a built-in ends it there. *)
Definition run_method4_block (sv : server) : outcome reply * server :=
  let v_filename := describe_filename sv in
  (* Step 1: DBMS_PDB.DESCRIBE(pdb_descr_file => v_filename, ...) *)
  match failing sv DBMS_PDB_DESCRIBE with
  | Some err => (Raise (ora_error err), sv)
  | None =>
      let sv := with_data_pump_dir sv (data_pump_dir sv ++ [v_filename]) in
      (* Step 2: DBMS_LOB.CREATETEMPORARY, UTL_FILE.FOPEN, the loop, FCLOSE *)
      match failing sv DBMS_LOB_CREATETEMPORARY with
      | Some err => (Raise (ora_error err), sv)
      | None =>
          match failing sv UTL_FILE_FOPEN with
          | Some err => (Raise (ora_error err), sv)
          | None =>
              match read_lines sv (description sv) "" with
              | Raise e => (Raise e, sv)
              | Ok v_clob =>
                  match failing sv UTL_FILE_FCLOSE with
                  | Some err => (Raise (ora_error err), sv)
                  | None =>
                      (* Step 3: UTL_FILE.FREMOVE(v_dir, v_filename) *)
                      match failing sv UTL_FILE_FREMOVE with
                      | Some err => (Raise (ora_error err), sv)
                      | None =>
                          (* Step 4: :xml_output := v_clob *)
                          (Ok (Value (Some v_clob)),
                           with_data_pump_dir sv
                             (List.filter
                                (fun f => negb (String.eqb f v_filename))
                                (data_pump_dir sv)))
                      end
                  end
              end
          end
      end
  end.

Definition wrong_arguments : py_exn :=
  ora_error "PLS-00306: wrong number or types of arguments in call to 'DESCRIBE'".

Definition description_text (sv : server) : string :=
  foldl (fun text line => text +:+ line +:+ newline) "" (description sv).

(** The answers of the server. A CLOB form of DESCRIBE is accepted or
    rejected as the server is configured; the file form runs the block;
    the check on the target finds the description compatible; queries
    return one row naming the root container. *)
Definition answer (c : call) (sv : server) : outcome reply * server :=
  match c with
  | Execute SourceCursor statement _ =>
      if String.eqb statement plsql_block_method1 then
        if accepts_named_clob sv
        then (Ok (Value (Some (description_text sv))), sv)
        else (Raise wrong_arguments, sv)
      else if String.eqb statement plsql_block_method3 then
        if accepts_positional_clob sv
        then (Ok (Value (Some (description_text sv))), sv)
        else (Raise wrong_arguments, sv)
      else if String.eqb statement plsql_block_method4 then run_method4_block sv
      else (Ok Done, sv)
  | Execute TargetCursor statement _ =>
      if String.eqb statement check_compat_block
      then (Ok (Value (Some "TRUE")), sv)
      else (Ok Done, sv)
  | Execute _ _ _ => (Ok Done, sv)
  | Fetchone _ => (Ok (FetchedRow (Some [Some "CDB$ROOT"])), sv)
  | Fetchall _ => (Ok (FetchedRows []), sv)
  | Now => (Ok (Time "20240101_120000"), sv)
  | WriteFile name content => (Ok Done, with_local_file sv name content)
  | Var _ | Connect _ _ _ | OpenCursor _ _ | Close _ => (Ok Done, sv)
  end.

#[global] Instance server_environment : Environment server := {
  respond := answer
}.

(** An Oracle 12.1 server: DESCRIBE has only its file form, and the session
    may not open the file in DATA_PUMP_DIR. *)
Definition file_only_server : server :=
  Server false false
    (fun b => if decide (b = UTL_FILE_FOPEN)
              then Some "ORA-29283: invalid file operation"
              else None)
    "20240101120000"
    ["<?xml version='1.0'?>"; "<PDB><pdbname>SALES</pdbname></PDB>"]
    [] [].


(** A server on which every built-in of the file form works. *)
Definition file_form_server : server :=
  Server false false (fun _ => None) "20240101120000"
    ["<PDB><pdbname>SALES</pdbname></PDB>"] [] [].

Definition sales_clone : clone_params :=
  CloneParams "external_auth" "src-scan" "1521" "CDB1" "SALES"
              "tgt-scan" "1521" "CDB2" "SALES_COPY" None None None None.

End Oracle.


(** ** [pdb_clone.py]: the statements of the checks before check 10 and of the postcheck *)

(** The instances of the database, for the report. *)
Definition instances_query : string :=
  "
        SELECT inst_id, instance_name, host_name
        FROM gv$instance
        ORDER BY inst_id
    ".

(** The size in GB of the datafiles of a PDB, by name. *)
Definition pdb_size_query : string :=
  "
        SELECT ROUND(SUM(bytes)/1024/1024/1024, 2) as size_gb
        FROM v$datafile
        WHERE con_id = (SELECT con_id FROM v$pdbs WHERE UPPER(name) = UPPER(:pdb_name))
    ".

(** Check 1. *)
Definition version_query : string :=
  "SELECT version, version_full FROM v$instance".

(** Check 2. *)
Definition charset_query : string :=
  "SELECT value FROM nls_database_parameters WHERE parameter = 'NLS_CHARACTERSET'".

(** Check 3. *)
Definition registry_query : string :=
  "SELECT comp_name, status FROM dba_registry ORDER BY comp_name".

(** Checks 4 and 4b. *)
Definition open_mode_query : string :=
  "
        SELECT open_mode
        FROM v$pdbs
        WHERE UPPER(name) = UPPER(:pdb_name)
    ".

(** Check 5. *)
Definition tde_query : string :=
  "SELECT wrl_type FROM v$encryption_wallet".

(** Check 6. *)
Definition undo_query : string :=
  "SELECT property_value FROM database_properties WHERE property_name = 'LOCAL_UNDO_ENABLED'".

(** Check 7. *)
Definition max_string_size_query : string :=
  "SELECT value FROM v$parameter WHERE name = 'max_string_size'".

(** Check 8. *)
Definition timezone_query : string :=
  "SELECT DBTIMEZONE FROM dual".

(** Check 9, on the source PDB. *)
Definition source_max_pdb_storage_query : string :=
  "
            SELECT property_value
            FROM database_properties
            WHERE property_name = 'MAX_PDB_STORAGE'
        ".

(** Check 9, on the target PDB. *)
Definition target_max_pdb_storage_query : string :=
  "
                SELECT property_value
                FROM database_properties
                WHERE property_name = 'MAX_PDB_STORAGE'
            ".

(** Postcheck: all the parameters of a PDB. *)
Definition postcheck_parameters_query : string :=
  "
        SELECT name, value, isdefault
        FROM v$parameter
        ORDER BY name
    ".

(** Postcheck: the services of a PDB. *)
Definition services_query : string :=
  "
        SELECT name, pdb
        FROM cdb_services
        WHERE UPPER(pdb) = UPPER(:pdb_name)
        ORDER BY name
    ".

(** ** [pdb_clone.py]: [perform_pdb_precheck] as a whole *)

(** The keys of [source_data] and [target_data] that are written before
    check 10, ['pdb_mode'] apart (it is in [gathered]). A dict of the
    function is a [database_facts] with a [gathered]. *)
Record database_facts := DatabaseFacts {
  instances : list row;
  pdb_size_gb : PyFloat.float;
  version : option string;
  version_full : option string;
  charset : option string;
  registry : list row;
  tde : option string;
  undo_mode : option string;
  max_string_size : option string;
  timezone : option string;
  max_pdb_storage : option string    (* set by check 9, in [target_data] only *)
}.

(** A pure computation run inside the function. *)
Definition lift {S A} (r : outcome A) : M S A :=
  match r with
  | Ok v => ret v
  | Raise e => raise e
  end.

(** [r[i]] of the result of [fetchone()] *)
Definition subscript {S} (r : option row) (i : nat) : M S (option string) :=
  match r with
  | Some cells =>
      match cells !! i with
      | Some c => ret c
      | None => raise (PyExn IndexError "tuple index out of range" None)
      end
  | None => raise (type_error "'NoneType' object is not subscriptable")
  end.

(** [r[0] if r else default_value] *)
Definition first_column_or (default_value : string) (r : option row) : option string :=
  match r with
  | Some (c :: _) => c
  | _ => Some default_value
  end.

(** [r[0] if r and r[0] else 'UNLIMITED'] for a column of text *)
Definition property_or_unlimited (r : option row) : string :=
  match r with
  | Some (Some value :: _) => if PyStr.falsy value then "UNLIMITED" else value
  | _ => "UNLIMITED"
  end.

(** [x] is [0.0] or [-0.0]: the falsy floats *)
Definition float_falsy (x : PyFloat.float) : bool :=
  match x with S754_zero _ => true | _ => false end.

(** [r[0] if r and r[0] else 0] for a NUMBER column. The driver hands a
    number over as a number; a row carries it as its decimal text. A cell
    that is no number is answered by a [TypeError], as a reply of the
    wrong kind is. *)
Definition size_or_zero {S} (r : option row) : M S PyFloat.float :=
  match r with
  | Some (Some text :: _) =>
      match PyFloat.of_string text with
      | Ok v => ret (if float_falsy v then PyFloat.of_Z 0 else v)
      | Raise _ => raise (type_error "size_gb")
      end
  | _ => ret (PyFloat.of_Z 0)
  end.

(** [[r[0] for r in rows]] *)
Fixpoint first_columns {S} (rows : list row) : M S (list (option string)) :=
  match rows with
  | [] => ret []
  | r :: rest =>
      match r with
      | c :: _ => (cs <- first_columns rest ;; ret (c :: cs))%py
      | [] => raise (PyExn IndexError "tuple index out of range" None)
      end
  end.

(** The [try] body that converts the source limit to the text shown: a
    value in G is shown as it was read. *)
Definition convert_source_limit_body (source_max_pdb_storage_raw storage_str : string)
  : outcome string :=
  if PyStr.contains "G" storage_str then Ok source_max_pdb_storage_raw
  else if PyStr.contains "M" storage_str then
    match PyFloat.of_string (PyStr.remove "M" storage_str) with
    | Ok v => Ok (PyFloat.format_2f (PyFloat.div v float_1024) +:+ "G")
    | Raise e => Raise e
    end
  else if PyStr.contains "T" storage_str then
    match PyFloat.of_string (PyStr.remove "T" storage_str) with
    | Ok v => Ok (PyFloat.format_2f (PyFloat.mul v float_1024) +:+ "G")
    | Raise e => Raise e
    end
  else
    match PyFloat.of_string storage_str with
    | Ok v => Ok (PyFloat.format_2f (PyFloat.div v float_1024_cubed) +:+ "G")
    | Raise e => Raise e
    end.

(** [source_max_pdb_storage] from the raw property value. *)
Definition convert_source_limit (source_max_pdb_storage_raw : string) : outcome string :=
  if String.eqb (PyStr.upper source_max_pdb_storage_raw) "UNLIMITED"
  then Ok "UNLIMITED"
  else
    match convert_source_limit_body source_max_pdb_storage_raw
            (PyStr.upper source_max_pdb_storage_raw) with
    | Ok source_max_pdb_storage => Ok source_max_pdb_storage
    | Raise e =>
        if is_value_or_attribute_error e
        then Ok source_max_pdb_storage_raw
        else Raise e
    end.

Section PrecheckChecks.

Context {S : Type} `{Environment S}.
Variable params : clone_params.
Variable repr_number : PyFloat.float -> string.

Definition source_cdb_dsn : string :=
  source_scan params +:+ ":" +:+ source_port params +:+ "/" +:+ source_cdb params.

Definition target_cdb_dsn : string :=
  target_scan params +:+ ":" +:+ target_port params +:+ "/" +:+ target_cdb params.

(** "Connect to both CDBs" *)
Definition connect_to_both_cdbs : M S unit :=
  (unit_call (Connect SourceConn source_cdb_dsn
                (credentials params (source_username params) (source_password params))) ;;;
   unit_call (Connect TargetConn target_cdb_dsn
                (credentials params (target_username params) (target_password params))))%py.

(** [pdb_name=...] *)
Definition pdb_name_bind (pdb_name : string) : list (string * bind) :=
  [("pdb_name", InValue (Some pdb_name))].

(** "Gather instance and host information": the two cursors are opened
    here. *)
Definition gather_instances : M S (list row * list row) :=
  (unit_call (OpenCursor SourceConn SourceCursor) ;;;
   unit_call (OpenCursor TargetConn TargetCursor) ;;;
   cursor_execute SourceCursor instances_query [] ;;;
   source_instances <- cursor_fetchall SourceCursor ;;
   cursor_execute TargetCursor instances_query [] ;;;
   target_instances <- cursor_fetchall TargetCursor ;;
   ret (source_instances, target_instances))%py.

(** "Gather PDB size information" *)
Definition gather_pdb_sizes : M S (PyFloat.float * PyFloat.float) :=
  (cursor_execute SourceCursor pdb_size_query (pdb_name_bind (source_pdb params)) ;;;
   source_size_result <- cursor_fetchone SourceCursor ;;
   source_size <- size_or_zero source_size_result ;;
   cursor_execute TargetCursor pdb_size_query (pdb_name_bind (target_pdb params)) ;;;
   target_size_result <- cursor_fetchone TargetCursor ;;
   target_size <- size_or_zero target_size_result ;;
   ret (source_size, target_size))%py.

(** [cursor.execute(statement)] then [cursor.fetchone()] *)
Definition query_one (c : cursor) (statement : string) : M S (option row) :=
  (cursor_execute c statement [] ;;; cursor_fetchone c)%py.

(** Check 1: the entry, and [(version, version_full)] of each side. *)
Definition check_version
  : M S (validation_result * (option string * option string)
                           * (option string * option string)) :=
  (source_version <- query_one SourceCursor version_query ;;
   source_0 <- first_column source_version ;;
   source_1 <- subscript source_version 1 ;;
   target_version <- query_one TargetCursor version_query ;;
   target_0 <- first_column target_version ;;
   target_1 <- subscript target_version 1 ;;
   let version_match := bool_decide (source_1 = target_1) in
   ret (ValidationResult "Database Version and Patch Level"
          (if version_match then "PASS" else "FAILED")
          (str_of_option source_1) (str_of_option target_1) None,
        (source_0, source_1), (target_0, target_1)))%py.

(** Check 2: the entry, and the character set of each side. *)
Definition check_charset : M S (validation_result * option string * option string) :=
  (source_row <- query_one SourceCursor charset_query ;;
   source_charset <- first_column source_row ;;
   target_row <- query_one TargetCursor charset_query ;;
   target_charset <- first_column target_row ;;
   let charset_ok := bool_decide (source_charset = target_charset) in
   ret (ValidationResult "Character Set Compatibility"
          (if charset_ok then "PASS" else "FAILED")
          (str_of_option source_charset) (str_of_option target_charset) None,
        source_charset, target_charset))%py.

(** The entry of check 3 from the component names of the two sides. *)
Definition registry_result (source_names target_names : list (option string))
  : validation_result :=
  let source_comps : gset (option string) := list_to_set source_names in
  let target_comps : gset (option string) := list_to_set target_names in
  let registry_ok := bool_decide (source_comps ⊆ target_comps) in
  ValidationResult "DB Registry Components"
    (if registry_ok then "PASS" else "FAILED")
    (str_of_nat (size source_comps) +:+ " components")
    (str_of_nat (size target_comps) +:+ " components")
    None.

(** Check 3: the entry, and the registry of each side. *)
Definition check_registry : M S (validation_result * list row * list row) :=
  (cursor_execute SourceCursor registry_query [] ;;;
   source_registry <- cursor_fetchall SourceCursor ;;
   cursor_execute TargetCursor registry_query [] ;;;
   target_registry <- cursor_fetchall TargetCursor ;;
   source_names <- first_columns source_registry ;;
   target_names <- first_columns target_registry ;;
   ret (registry_result source_names target_names,
        source_registry, target_registry))%py.

(** Check 4: the entry, and [source_data.get('pdb_mode')]. *)
Definition check_source_pdb_status : M S (validation_result * option string) :=
  (cursor_execute SourceCursor open_mode_query (pdb_name_bind (source_pdb params)) ;;;
   result <- cursor_fetchone SourceCursor ;;
   match result with
   | Some (source_pdb_mode :: _) =>
       let pdb_open := negb (bool_decide (source_pdb_mode = Some "MOUNTED")) in
       ret (ValidationResult "Source PDB Open Status"
              (if pdb_open then "PASS" else "FAILED")
              (str_of_option source_pdb_mode) "N/A" None,
            source_pdb_mode)
   | _ =>
       ret (ValidationResult "Source PDB Open Status" "FAILED" "PDB not found" "N/A"
              None,
            None)
   end)%py.

(** Check 4b: the entry, and [target_data['pdb_mode']]. *)
Definition check_target_pdb_status : M S (validation_result * option string) :=
  (cursor_execute TargetCursor open_mode_query (pdb_name_bind (target_pdb params)) ;;;
   target_result <- cursor_fetchone TargetCursor ;;
   match target_result with
   | Some (target_pdb_mode :: _) =>
       ret (ValidationResult "Target PDB Does Exist" "PASS" "N/A"
              ("PDB already exists (" +:+ str_of_option target_pdb_mode +:+ ")") None,
            target_pdb_mode)
   | _ =>
       ret (ValidationResult "Target PDB Does Exist" "PASS" "N/A"
              "PDB does not exist (ready for clone)" None,
            Some "Does not exist")
   end)%py.

(** The two reads that checks 5 to 8 start with: the first column of the
    single row of [statement] on each side, or [default_value]. *)
Definition read_both (statement default_value : string)
  : M S (option string * option string) :=
  (source_row <- query_one SourceCursor statement ;;
   target_row <- query_one TargetCursor statement ;;
   ret (first_column_or default_value source_row,
        first_column_or default_value target_row))%py.

(** Check 5 *)
Definition check_tde : M S (validation_result * option string * option string) :=
  (r <- read_both tde_query "NONE" ;;
   let tde_match := bool_decide (r.1 = r.2) in
   ret (ValidationResult "TDE Configuration Method"
          (if tde_match then "PASS" else "FAILED")
          (str_of_option r.1) (str_of_option r.2) None,
        r.1, r.2))%py.

(** Check 6 *)
Definition check_undo_mode : M S (validation_result * option string * option string) :=
  (r <- read_both undo_query "FALSE" ;;
   let undo_ok := bool_decide (r.1 = Some "TRUE") && bool_decide (r.2 = Some "TRUE") in
   ret (ValidationResult "Local Undo Mode"
          (if undo_ok then "PASS" else "FAILED")
          (str_of_option r.1) (str_of_option r.2) None,
        r.1, r.2))%py.

(** Check 7 *)
Definition check_max_string_size
  : M S (validation_result * option string * option string) :=
  (r <- read_both max_string_size_query "STANDARD" ;;
   let max_string_ok := bool_decide (r.1 = r.2) in
   ret (ValidationResult "MAX_STRING_SIZE Compatibility"
          (if max_string_ok then "PASS" else "FAILED")
          (str_of_option r.1) (str_of_option r.2) None,
        r.1, r.2))%py.

(** Check 8 *)
Definition check_timezone : M S (validation_result * option string * option string) :=
  (r <- read_both timezone_query "Unknown" ;;
   let timezone_ok := bool_decide (r.1 = r.2) in
   ret (ValidationResult "Timezone Setting Compatibility"
          (if timezone_ok then "PASS" else "FAILED")
          (str_of_option r.1) (str_of_option r.2) None,
        r.1, r.2))%py.

(** Check 9, first half: the limit of the source PDB is read over a
    connection of its own. *)
Definition read_source_limit : M S string :=
  (unit_call (Connect SourcePdbConn (source_pdb_dsn params)
                (credentials params (source_username params) (source_password params))) ;;;
   unit_call (OpenCursor SourcePdbConn SourcePdbCursor) ;;;
   source_max_pdb_result <- query_one SourcePdbCursor source_max_pdb_storage_query ;;
   source_max_pdb_storage <-
     lift (convert_source_limit (property_or_unlimited source_max_pdb_result)) ;;
   unit_call (Close (OfCursor SourcePdbCursor)) ;;;
   unit_call (Close (OfConnection SourcePdbConn)) ;;;
   ret source_max_pdb_storage)%py.

(** Check 9, second half: the limit of the target PDB, if there is one. *)
Definition read_target_limit (target_pdb_mode : option string)
  : M S (string * option PyFloat.float) :=
  if target_pdb_exists (Gathered target_pdb_mode [] []) then
    (unit_call (Connect TargetPdbConn (target_pdb_dsn params)
                  (credentials params (target_username params)
                     (target_password params))) ;;;
     unit_call (OpenCursor TargetPdbConn TargetPdbCursor) ;;;
     target_max_pdb_result <- query_one TargetPdbCursor target_max_pdb_storage_query ;;
     limit <- lift (convert_target_limit (property_or_unlimited target_max_pdb_result)) ;;
     unit_call (Close (OfCursor TargetPdbCursor)) ;;;
     unit_call (Close (OfConnection TargetPdbConn)) ;;;
     ret limit)%py
  else ret ("N/A (PDB not created yet)", None).

(** Check 9: the entry, and [target_data.get('max_pdb_storage')]. *)
Definition check_max_pdb_storage (source_pdb_size_gb : PyFloat.float)
    (target_pdb_mode : option string) : M S (validation_result * option string) :=
  try_except
    (source_max_pdb_storage <- read_source_limit ;;
     limit <- read_target_limit target_pdb_mode ;;
     ret (max_pdb_storage_result repr_number source_max_pdb_storage source_pdb_size_gb
            (compare_with_source_size repr_number limit.1 limit.2 source_pdb_size_gb),
          Some limit.1))%py
    (fun e =>
       ret (ValidationResult "MAX_PDB_STORAGE Limit" "SKIPPED"
              (repr_number source_pdb_size_gb +:+ " GB")
              "Could not verify (connection issue)" None,
            None)).

(** [perform_pdb_precheck(params)]: [(validation_results, source_data,
    target_data)]. The progress messages, which go to a callback of the
    caller, are left out. *)
Definition perform_pdb_precheck
  : M S (list validation_result * (database_facts * gathered)
                                * (database_facts * gathered)) :=
  (connect_to_both_cdbs ;;;
   inst <- gather_instances ;;
   sizes <- gather_pdb_sizes ;;
   c1 <- check_version ;;
   c2 <- check_charset ;;
   c3 <- check_registry ;;
   c4 <- check_source_pdb_status ;;
   c4b <- check_target_pdb_status ;;
   c5 <- check_tde ;;
   c6 <- check_undo_mode ;;
   c7 <- check_max_string_size ;;
   c8 <- check_timezone ;;
   c9 <- check_max_pdb_storage sizes.1 c4b.2 ;;
   r <- perform_pdb_precheck_from_check_10 params
          [c1.1.1; c2.1.1; c3.1.1; c4.1; c4b.1; c5.1.1; c6.1.1; c7.1.1; c8.1.1; c9.1]
          (Gathered c4.2 [] []) (Gathered c4b.2 [] []) ;;
   ret (r.1.1,
        (DatabaseFacts inst.1 sizes.1 c1.1.2.1 c1.1.2.2 c2.1.2 c3.1.2
           c5.1.2 c6.1.2 c7.1.2 c8.1.2 None, r.1.2),
        (DatabaseFacts inst.2 sizes.2 c1.2.1 c1.2.2 c2.2 c3.2
           c5.2 c6.2 c7.2 c8.2 c9.2, r.2)))%py.

End PrecheckChecks.


(** ** Two databases to run the precheck against *)

Module Scripted.

#[global] Instance cursor_eq_dec : EqDecision cursor.
Proof. solve_decision. Defined.

(** A pair of databases seen through the driver: what each statement
    selects on each cursor, what a block leaves in its output variable,
    which calls fail (and how), the clock, and the rows of each cursor
    that are not fetched yet. *)
Record databases := Databases {
  result_set : cursor -> string -> list row;
  out_value : cursor -> string -> option string;
  refused : call -> option py_exn;
  clock : string;
  pending : cursor -> list row
}.

Definition with_pending (db : databases) (cur : cursor) (rows : list row) : databases :=
  Databases (result_set db) (out_value db) (refused db) (clock db)
    (fun c => if decide (c = cur) then rows else pending db c).

Definition answer (c : call) (db : databases) : outcome reply * databases :=
  match refused db c with
  | Some e => (Raise e, db)
  | None =>
      match c with
      | Execute cur statement _ =>
          (Ok (Value (out_value db cur statement)),
           with_pending db cur (result_set db cur statement))
      | Fetchone cur =>
          match pending db cur with
          | [] => (Ok (FetchedRow None), db)
          | r :: rest => (Ok (FetchedRow (Some r)), with_pending db cur rest)
          end
      | Fetchall cur => (Ok (FetchedRows (pending db cur)), with_pending db cur [])
      | Now => (Ok (Time (clock db)), db)
      | Var _ | Connect _ _ _ | OpenCursor _ _ | Close _ | WriteFile _ _ => (Ok Done, db)
      end
  end.

#[global] Instance databases_environment : Environment databases := {
  respond := answer
}.

(** The first statement of [table] that is [statement]. *)
Fixpoint select (table : list (string * list row)) (statement : string) : list row :=
  match table with
  | [] => []
  | (s, rows) :: rest => if String.eqb s statement then rows else select rest statement
  end.

(** What every CDB of the example answers. *)
Definition cdb_rows : list (string * list row) :=
  [ (instances_query, [[Some "1"; Some "cdb1"; Some "host1"]]);
    (version_query, [[Some "19.0.0.0.0"; Some "19.21.0.0.0"]]);
    (charset_query, [[Some "AL32UTF8"]]);
    (registry_query, [[Some "Oracle Database Catalog Views"; Some "VALID"]]);
    (tde_query, [[Some "FILE"]]);
    (undo_query, [[Some "TRUE"]]);
    (max_string_size_query, [[Some "STANDARD"]]);
    (timezone_query, [[Some "+00:00"]]);
    (container_query, [[Some "CDB$ROOT"]]);
    (cdb_parameters_query, [[Some "processes"; Some "300"; Some "FALSE"]]) ].

(** SALES (80.5 GB, open) is cloned to SALES_COPY; the target PDB is there
    already, or not. *)
Definition sales_rows (target_pdb_there : bool) (cur : cursor) (statement : string)
  : list row :=
  match cur with
  | SourceCursor =>
      select ((pdb_size_query, [[Some "80.5"]])
              :: (open_mode_query, [[Some "READ WRITE"]]) :: cdb_rows) statement
  | TargetCursor =>
      select ((pdb_size_query, [[if target_pdb_there then Some "80.5" else None]])
              :: (open_mode_query,
                  if target_pdb_there then [[Some "MOUNTED"]] else [])
              :: cdb_rows) statement
  | SourcePdbCursor =>
      select [(source_max_pdb_storage_query, [[Some "100G"]]);
              (source_pdb_parameters_query,
               [[Some "open_cursors"; Some "300"; Some "FALSE"]])] statement
  | TargetPdbCursor =>
      select [(target_max_pdb_storage_query, [[Some "204800M"]]);
              (target_pdb_parameters_query,
               [[Some "open_cursors"; Some "500"; Some "FALSE"]])] statement
  end.

Definition sales_out (cur : cursor) (statement : string) : option string :=
  if String.eqb statement plsql_block_method1
  then Some "<PDB><pdbname>SALES</pdbname></PDB>"
  else if String.eqb statement check_compat_block then Some "TRUE"
  else None.

Definition sales (target_pdb_there : bool) (refused : call -> option py_exn)
  : databases :=
  Databases (sales_rows target_pdb_there) sales_out refused "20240101_120000"
    (fun _ => []).

(** Nothing fails. *)
Definition nothing (c : call) : option py_exn := None.

(** The listener does not know the service of the source PDB. *)
Definition no_source_pdb_service (c : call) : option py_exn :=
  match c with
  | Connect SourcePdbConn _ _ =>
      Some (PyExn DatabaseError "ORA-12514: TNS:listener does not currently know of service"
              None)
  | _ => None
  end.

(** The account may not read [v$instance] on the source. *)
Definition no_access_to_instance_view (c : call) : option py_exn :=
  match c with
  | Execute SourceCursor statement _ =>
      if String.eqb statement version_query
      then Some (PyExn DatabaseError "ORA-00942: table or view does not exist" None)
      else None
  | _ => None
  end.

Definition start (db : databases) : world databases := World db [].

End Scripted.


(** ** Vocabulary of the runs *)

(** The run ended with a [return]. *)
Definition returned {A} (r : outcome A) : bool :=
  match r with
  | Ok _ => true
  | Raise _ => false
  end.

Section Runs.

Context {S : Type} `{Environment S}.

(** Every call [m] makes satisfies [P], however the run ends. *)
Definition makes_only {A} (P : call -> Prop) (m : M S A) : Prop :=
  forall handling w r w', m handling w = (r, w') ->
  exists new, calls w' = calls w ++ new /\ Forall P new.

(** What [m] returns, when it returns, satisfies [Q]. *)
Definition returns {A} (Q : A -> Prop) (m : M S A) : Prop :=
  forall handling w v w', m handling w = (Ok v, w') -> Q v.

(** Every call [m] makes satisfies [P], in the runs that return a value
    satisfying [C]. *)
Definition makes_only_when {A} (C : A -> Prop) (P : call -> Prop) (m : M S A) : Prop :=
  forall handling w v w', m handling w = (Ok v, w') -> C v ->
  exists new, calls w' = calls w ++ new /\ Forall P new.

(** The calls of a run of [m], in order, satisfy [Q]; [Q] is told if the
    run returned. *)
Definition traces {A} (Q : bool -> list call -> Prop) (m : M S A) : Prop :=
  forall handling w r w', m handling w = (r, w') ->
  exists new, calls w' = calls w ++ new /\ Q (returned r) new.

End Runs.

(** The calls that release the cursors and the connections of the two
    CDBs, as the functions end with them. *)
Definition cdb_closes : list call :=
  [ Close (OfCursor SourceCursor); Close (OfCursor TargetCursor);
    Close (OfConnection SourceConn); Close (OfConnection TargetConn) ].

(** The two CDBs are released at the end and only there. A run that
    returned ends with [cdb_closes], and made none of them before. In a run
    that raised, the calls before the last (the ones that came back) do not
    close the target CDB connection, and they close the source CDB
    connection only if the last call is the closing of the target one. *)
Definition released_at_the_end (returned : bool) (new : list call) : Prop :=
  if returned
  then exists before, new = before ++ cdb_closes
                      /\ Forall (fun c => c ∉ cdb_closes) before
  else (Close (OfConnection TargetConn) ∉ removelast new)
       /\ (Close (OfConnection SourceConn) ∈ removelast new ->
           last new = Some (Close (OfConnection TargetConn))).

(** The connection a cursor is opened on. *)
Definition connection_of_cursor (cur : cursor) : connection :=
  match cur with
  | SourceCursor => SourceConn
  | TargetCursor => TargetConn
  | SourcePdbCursor => SourcePdbConn
  | TargetPdbCursor => TargetPdbConn
  end.

(** The connection a call goes over, if any. *)
Definition connection_of (c : call) : option connection :=
  match c with
  | Var cur | Execute cur _ _ | Fetchone cur | Fetchall cur | Close (OfCursor cur) =>
      Some (connection_of_cursor cur)
  | Connect conn _ _ | OpenCursor conn _ | Close (OfConnection conn) => Some conn
  | Now | WriteFile _ _ => None
  end.

(** The checklist of the precheck, in the order of the report. *)
Definition precheck_checklist : list string :=
  [ "Database Version and Patch Level";
    "Character Set Compatibility";
    "DB Registry Components";
    "Source PDB Open Status";
    "Target PDB Does Exist";
    "TDE Configuration Method";
    "Local Undo Mode";
    "MAX_STRING_SIZE Compatibility";
    "Timezone Setting Compatibility";
    "MAX_PDB_STORAGE Limit";
    "DBMS_PDB Plug Compatibility" ].

(** The statements of the precheck: literals of the source, none of them
    built from [params]. *)
Definition precheck_statements : list string :=
  [ instances_query; pdb_size_query; version_query; charset_query; registry_query;
    open_mode_query; tde_query; undo_query; max_string_size_query; timezone_query;
    source_max_pdb_storage_query; target_max_pdb_storage_query;
    container_query; describe_signature_query;
    plsql_block_method1; plsql_block_method2; plsql_block_method3; plsql_block_method4;
    check_compat_block; violations_query;
    cdb_parameters_query; source_pdb_parameters_query; target_pdb_parameters_query ].

(** The names under which [params] gives a value to a statement. *)
Definition bound_names (binds : list (string * bind)) : list string :=
  omap (fun b => match b.2 with InValue _ => Some b.1 | OutVar => None end) binds.

(** A call that executes a literal of the source, with values passed by
    name only; or a call that executes nothing. *)
Definition executes_a_literal (c : call) : Prop :=
  match c with
  | Execute _ statement binds =>
      statement ∈ precheck_statements
      /\ bound_names binds ⊆ ["pdb_name"; "xml_input"]
  | _ => True
  end.


(** ** [utils/db_connection.py] *)

(** [params]: a dict whose values are texts or [None]. *)
Definition connection_params : Type := gmap string (option string).

(** [params.get(key, default_value)]; [params.get(key)] has the default
    [None]. *)
Definition params_get (params : connection_params) (key : string)
    (default_value : option string) : option string :=
  default default_value (params !! key).

(** The truth value of a text or [None]. *)
Definition truthy (v : option string) : bool :=
  match v with
  | Some s => negb (PyStr.falsy s)
  | None => false
  end.

(** [f"{hostname}:{port}/{service}"] *)
Definition build_dsn_string (hostname port service : option string) : string :=
  str_of_option hostname +:+ ":" +:+ str_of_option port +:+ "/" +:+ str_of_option service.

Definition get_connection_string (params : connection_params) : option string :=
  let connection_mode := params_get params "connection_mode" (Some "external_auth") in
  if bool_decide (connection_mode = Some "external_auth") then
    let db_name := params_get params "db_name" (Some "") in
    let hostname := params_get params "hostname" None in
    if truthy hostname then
      let port := params_get params "port" (Some "1521") in
      let service := params_get params "service" db_name in
      Some (build_dsn_string hostname port service)
    else db_name
  else
    let hostname := params_get params "hostname" (Some "") in
    let port := params_get params "port" (Some "1521") in
    let service := params_get params "service" (Some "") in
    Some (build_dsn_string hostname port service).

Definition test_statement : string := "SELECT 'Connection successful' FROM dual".

Section DbConnection.

Context {S : Type} `{Environment S}.

(** The connection [oracledb.connect] hands back, and the cursor it gives. *)
Variable conn : connection.
Variable cur : cursor.

(** [create_connection(params)]: the connection it wraps is [conn]. *)
Definition create_connection (params : connection_params) : M S unit :=
  let connection_mode := params_get params "connection_mode" (Some "external_auth") in
  if bool_decide (connection_mode = Some "external_auth") then
    let db_name := params_get params "db_name" None in
    match db_name with
    | Some alias =>
        if PyStr.falsy alias
        then raise (PyExn ValueError "db_name is required for external authentication"
                      None)
        else
          let hostname := params_get params "hostname" None in
          if truthy hostname then
            let port := params_get params "port" (Some "1521") in
            let service := params_get params "service" db_name in
            unit_call (Connect conn (build_dsn_string hostname port service) None)
          else unit_call (Connect conn alias None)
    | None =>
        raise (PyExn ValueError "db_name is required for external authentication" None)
    end
  else
    let hostname := params_get params "hostname" None in
    let port := params_get params "port" (Some "1521") in
    let service := params_get params "service" None in
    let username := params_get params "username" None in
    let password := params_get params "password" None in
    if negb (forallb truthy [hostname; service; username; password])
    then raise (PyExn ValueError
                  "hostname, service, username, and password are required for username/password authentication"
                  None)
    else unit_call (Connect conn (build_dsn_string hostname port service)
                      (Some (username, password))).

(** [DatabaseConnection.get_cursor] *)
Definition get_cursor : M S unit := unit_call (OpenCursor conn cur).

(** [DatabaseConnection.close]: an error of the driver is ignored. *)
Definition DatabaseConnection_close : M S unit :=
  try_except (unit_call (Close (OfConnection conn))) (fun _ => ret tt).

(** [with ... as db_conn: body]: [__exit__] closes the connection, after a
    [return] as after an exception, and does not swallow the exception. *)
Definition with_connection {A} (body : M S A) : M S A :=
  fun handling w =>
    match body handling w with
    | (Ok v, w1) =>
        match DatabaseConnection_close handling w1 with
        | (Ok _, w2) => (Ok v, w2)
        | (Raise e', w2) => (Raise e', w2)
        end
    | (Raise e, w1) =>
        match DatabaseConnection_close (Some e) w1 with
        | (Ok _, w2) => (Raise e, w2)
        | (Raise e', w2) => (Raise e', w2)
        end
    end.

(** [test_connection(params)]: [(success, message)]. *)
Definition test_connection (params : connection_params) : M S (bool * option string) :=
  try_except
    (create_connection params ;;;
     with_connection
       (get_cursor ;;;
        cursor_execute cur test_statement [] ;;;
        result <- cursor_fetchone cur ;;
        unit_call (Close (OfCursor cur)) ;;;
        ret (true, first_column_or "Connection successful" result)))%py
    (fun e => ret (false, Some ("Connection failed: " +:+ str_exn e))).

(** The calls of a test that goes all the way, before the connection is
    closed. *)
Definition test_calls (dsn : string) (credentials : option (option string * option string))
  : list call :=
  [ Connect conn dsn credentials; OpenCursor conn cur; Execute cur test_statement [];
    Fetchone cur; Close (OfCursor cur) ].

End DbConnection.

(** ** Other services: the clone, the client library, the worker *)

(** A service answers the calls [C] with replies [R]; [S] is its state. *)
Class Service (C R S : Type) := {
  serve : C -> S -> outcome R * S
}.

(** A computation on a service: it runs on the state of the service and
    the calls made so far. *)
Definition prog (C S A : Type) : Type := S * list C -> outcome A * (S * list C).

Definition pure {C S A} (v : A) : prog C S A := fun st => (Ok v, st).

Definition fail {C S A} (e : py_exn) : prog C S A := fun st => (Raise e, st).

Definition bind_prog {C S A B} (m : prog C S A) (k : A -> prog C S B) : prog C S B :=
  fun st =>
    match m st with
    | (Ok v, st') => k v st'
    | (Raise e, st') => (Raise e, st')
    end.

(** [try: m  except Exception as e: handler e] *)
Definition catch {C S A} (m : prog C S A) (handler : py_exn -> prog C S A) : prog C S A :=
  fun st =>
    match m st with
    | (Ok v, st') => (Ok v, st')
    | (Raise e, st') => handler e st'
    end.

(** A call on the service: recorded, and answered. *)
Definition invoke {C R S} `{Service C R S} (c : C) : prog C S R :=
  fun st =>
    match serve c st.1 with
    | (r, s') => (r, (s', st.2 ++ [c]))
    end.

Declare Scope prog_scope.
Delimit Scope prog_scope with prog.
Notation "x <- m ;; k" := (bind_prog m (fun x => k))
  (at level 100, m at next level, right associativity) : prog_scope.
Notation "m ;;; k" := (bind_prog m (fun _ => k))
  (at level 100, right associativity) : prog_scope.

(** *** [pdb_clone.py]: [perform_pdb_clone] *)

(** The calls of the clone, all on the target CDB. *)
Inductive clone_call :=
  | CloneConnect (dsn : string) (credentials : option (option string * option string))
  | CloneCursor                         (* [target_conn.cursor()] *)
  | CloneExecute (statement : string)   (* [target_cursor.execute(...)] *)
  | CloneCommit                         (* [target_conn.commit()] *)
  | CloneCursorClose
  | CloneConnectionClose.

Definition newline : string := String "010" EmptyString.

Section Clone.

Context {S : Type} `{Service clone_call unit S}.
Variable params : clone_params.

Definition link_name : string := "CLONE_LINK_" +:+ source_pdb params.

Definition tns_descriptor : string :=
  "(DESCRIPTION=(ADDRESS=(PROTOCOL=TCP)(HOST=" +:+ source_scan params
    +:+ ")(PORT=" +:+ source_port params
    +:+ "))(CONNECT_DATA=(SERVICE_NAME=" +:+ source_cdb params +:+ ")))".

Definition drop_link_statement : string := "DROP DATABASE LINK " +:+ link_name.

Definition create_link_statement : string :=
  newline +:+ "        CREATE PUBLIC DATABASE LINK " +:+ link_name
    +:+ newline +:+ "        CONNECT TO CURRENT_USER"
    +:+ newline +:+ "        USING '" +:+ tns_descriptor +:+ "'"
    +:+ newline +:+ "    ".

Definition create_pdb_statement : string :=
  newline +:+ "        CREATE PLUGGABLE DATABASE " +:+ target_pdb params
    +:+ newline +:+ "        FROM " +:+ source_pdb params +:+ "@" +:+ link_name
    +:+ newline +:+ "        FILE_NAME_CONVERT = ('/" +:+ source_pdb params
    +:+ "/', '/" +:+ target_pdb params +:+ "/')"
    +:+ newline +:+ "    ".

Definition open_pdb_statement : string :=
  "ALTER PLUGGABLE DATABASE " +:+ target_pdb params +:+ " OPEN READ WRITE".

Definition save_state_statement : string :=
  "ALTER PLUGGABLE DATABASE " +:+ target_pdb params +:+ " SAVE STATE".

Definition clone_message : string :=
  "PDB clone operation completed successfully." +:+ newline +:+ "New PDB '"
    +:+ target_pdb params +:+ "' is now open and running.".

(** [perform_pdb_clone(params)]. The first DROP stands in a [try] whose
    handler is [pass]; nothing else is protected. The progress messages,
    which go to a callback of the caller, are left out. *)
Definition perform_pdb_clone : prog clone_call S string :=
  (invoke (CloneConnect (target_cdb_dsn params)
             (credentials params (target_username params) (target_password params))) ;;;
   invoke CloneCursor ;;;
   catch (invoke (CloneExecute drop_link_statement)) (fun _ => pure tt) ;;;
   invoke (CloneExecute create_link_statement) ;;;
   invoke CloneCommit ;;;
   invoke (CloneExecute create_pdb_statement) ;;;
   invoke CloneCommit ;;;
   invoke (CloneExecute open_pdb_statement) ;;;
   invoke CloneCommit ;;;
   invoke (CloneExecute save_state_statement) ;;;
   invoke CloneCommit ;;;
   invoke (CloneExecute drop_link_statement) ;;;
   invoke CloneCommit ;;;
   invoke CloneCursorClose ;;;
   invoke CloneConnectionClose ;;;
   pure clone_message)%prog.

(** The calls of a clone that goes all the way. *)
Definition clone_calls : list clone_call :=
  [ CloneConnect (target_cdb_dsn params)
      (credentials params (target_username params) (target_password params));
    CloneCursor;
    CloneExecute drop_link_statement;
    CloneExecute create_link_statement; CloneCommit;
    CloneExecute create_pdb_statement; CloneCommit;
    CloneExecute open_pdb_statement; CloneCommit;
    CloneExecute save_state_statement; CloneCommit;
    CloneExecute drop_link_statement; CloneCommit;
    CloneCursorClose; CloneConnectionClose ].

End Clone.

(** *** [utils/helper_functions.py]: the client library *)

Inductive client_call :=
  | InitOracleClient (lib_dir : option string).  (* [None]: no [lib_dir] argument *)

Section OracleClient.

Context {S : Type} `{Service client_call unit S}.

(** What the functions read of their host: [platform.system()],
    [os.environ.get('ORACLE_HOME')], and [os.path.join]. *)
Variable system : string.
Variable oracle_home : option string.
Variable path_join : string -> string -> string.

Definition _init_oracle_client_unix : prog client_call S (bool * string) :=
  catch
    (invoke (InitOracleClient None) ;;;
     pure (true, "Oracle Client initialized in Thick Mode"))%prog
    (fun e => pure (false, "Oracle Client initialization failed: " +:+ str_exn e)).

(** [possible_paths], as the loop finds it. *)
Definition possible_paths : list (option string) :=
  (if truthy oracle_home
   then [oracle_home; Some (path_join (str_of_option oracle_home) "bin")]
   else [])
  ++ [ Some "C:\oracle\instantclient_19_8";
       Some "C:\oracle\instantclient_21_3";
       Some "C:\oracle\instantclient_23_3";
       Some "C:\instantclient_19_8";
       Some "C:\instantclient_21_3";
       Some "C:\instantclient_23_3";
       Some "C:\Users\user\Downloads\WINDOWS.X64_213000_client_home";
       Some "C:\Users\user\Downloads\WINDOWS.X64_213000_client_home\bin" ]
  ++ [None].

(** [str(last_error)] *)
Definition str_of_error (last_error : option py_exn) : string :=
  match last_error with
  | Some e => str_exn e
  | None => "None"
  end.

(** The [for] loop over the paths left, and what follows it. *)
Fixpoint try_paths (paths : list (option string)) (last_error : option py_exn)
  : prog client_call S (bool * string) :=
  match paths with
  | [] =>
      let oracle_home_status := if truthy oracle_home then str_of_option oracle_home
                                else "Not Set" in
      pure (false,
            "Could not initialize Oracle Client. Last error: " +:+ str_of_error last_error
              +:+ newline +:+ "ORACLE_HOME is set to: " +:+ oracle_home_status
              +:+ newline +:+ "Please ensure Oracle Client libraries are accessible.")
  | lib_dir :: rest =>
      catch
        (if truthy lib_dir
         then (invoke (InitOracleClient lib_dir) ;;;
               pure (true, "Oracle Client initialized in Thick Mode: "
                             +:+ str_of_option lib_dir))%prog
         else (invoke (InitOracleClient None) ;;;
               pure (true, "Oracle Client initialized in Thick Mode: auto-detected"))%prog)
        (fun e => try_paths rest (Some e))
  end.

Definition _init_oracle_client_windows : prog client_call S (bool * string) :=
  try_paths possible_paths None.

Definition init_oracle_client_thick_mode (lib_dir : option string)
  : prog client_call S (bool * string) :=
  catch
    (if truthy lib_dir then
       catch
         (invoke (InitOracleClient lib_dir) ;;;
          pure (true, "Oracle Client initialized in Thick Mode: "
                        +:+ str_of_option lib_dir))%prog
         (fun e => pure (false, "Failed to initialize with provided path: "
                                  +:+ str_exn e))
     else if String.eqb system "Windows"
     then _init_oracle_client_windows
     else _init_oracle_client_unix)
    (fun e => pure (false, "Oracle Client initialization failed: " +:+ str_exn e)).

End OracleClient.

(** *** [utils/helper_functions.py]: [DatabaseWorker.run] *)

(** The methods the worker calls and the signal it emits. *)
Inductive worker_call :=
  | PerformHealthCheck
  | PerformPdbPrecheck
  | PerformPdbClone
  | PerformPdbPostcheck
  | EmitFinished (success : bool) (message : string).

Inductive worker_reply :=
  | Result (text : string)    (* what a [perform_...] method returns *)
  | Emitted.

Section DatabaseWorker.

Context {S : Type} `{Service worker_call worker_reply S}.

(** [traceback.format_exc()] in the handler of [e] *)
Variable format_exc : py_exn -> string.

(** The method an operation is routed to. *)
Definition route (operation : string) : option worker_call :=
  if String.eqb operation "health_check" then Some PerformHealthCheck
  else if String.eqb operation "pdb_precheck" then Some PerformPdbPrecheck
  else if String.eqb operation "pdb_clone" then Some PerformPdbClone
  else if String.eqb operation "pdb_postcheck" then Some PerformPdbPostcheck
  else None.

Definition emit_finished (success : bool) (message : string)
  : prog worker_call S unit :=
  (invoke (EmitFinished success message) ;;; pure tt)%prog.

(** [DatabaseWorker.run] *)
Definition run (operation : string) : prog worker_call S unit :=
  catch
    (match route operation with
     | Some method =>
         (reply <- invoke method ;;
          match reply with
          | Result result => emit_finished true result
          | Emitted => fail (type_error "result")
          end)%prog
     | None => emit_finished false ("Unknown operation: " +:+ operation)
     end)
    (fun e => emit_finished false
                ("Error: " +:+ str_exn e +:+ newline +:+ format_exc e)).

End DatabaseWorker.

(** *** Vocabulary and examples for these services *)

(** The calls of a run of [m], in order, satisfy [Q]; [Q] is told if the
    run returned. *)
Definition prog_traces {C S A} (Q : bool -> list C -> Prop) (m : prog C S A) : Prop :=
  forall st r st', m st = (r, st') ->
  exists new, st'.2 = st.2 ++ new /\ Q (returned r) new.

(** The call the loop of [_init_oracle_client_windows] makes for a path. *)
Definition client_call_of (lib_dir : option string) : client_call :=
  InitOracleClient (if truthy lib_dir then lib_dir else None).

(** The calls for the paths up to and including the first that works. *)
Fixpoint attempts (works : client_call -> bool) (paths : list (option string))
  : list client_call :=
  match paths with
  | [] => []
  | lib_dir :: rest =>
      if works (client_call_of lib_dir)
      then [client_call_of lib_dir]
      else client_call_of lib_dir :: attempts works rest
  end.

(** A service that keeps no state: each call has its answer. *)
#[global] Instance answers (C R : Type) : Service C R (C -> outcome R) := {
  serve c answer := (answer c, answer)
}.

(** A target CDB on which the clone of SALES fails for lack of space;
    there was no link to drop at the start either. *)
Definition no_space_on_target (c : clone_call) : outcome unit :=
  match c with
  | CloneExecute statement =>
      if String.eqb statement (drop_link_statement Oracle.sales_clone)
      then Raise (PyExn DatabaseError "ORA-02024: database link not found" None)
      else if String.eqb statement (create_pdb_statement Oracle.sales_clone)
      then Raise (PyExn DatabaseError "ORA-01119: error in creating database file" None)
      else Ok tt
  | _ => Ok tt
  end.

(** A host with an instant client in its second fixed place only. *)
Definition instant_client_21_3 (c : client_call) : outcome unit :=
  match c with
  | InitOracleClient (Some "C:\oracle\instantclient_21_3") => Ok tt
  | InitOracleClient _ =>
      Raise (PyExn DatabaseError "DPI-1047: Cannot locate a 64-bit Oracle Client library"
               None)
  end.

(** The same host as a service without state. *)
Inductive windows_host := HostWithInstantClient_21_3.

#[global] Instance windows_host_service : Service client_call unit windows_host := {
  serve c host := (instant_client_21_3 c, host)
}.

(** A worker whose precheck returns its report and whose clone fails. *)
Definition precheck_only_worker (c : worker_call) : outcome worker_reply :=
  match c with
  | PerformPdbPrecheck => Ok (Result "Precheck completed: PASS")
  | EmitFinished _ _ => Ok Emitted
  | _ => Raise (PyExn DatabaseError "ORA-12541: TNS:no listener" None)
  end.

(** The same worker as a service without state. *)
Inductive worker_host := HostOfWorker.

#[global] Instance worker_host_service : Service worker_call worker_reply worker_host := {
  serve c host := (precheck_only_worker c, host)
}.

(** ** [db_healthcheck.py]: metric 5 of [perform_health_check], MAX_PDB_STORAGE *)

Definition is_cdb_query : string :=
  "SELECT cdb FROM v$database".

Definition first_pdb_query : string :=
  "SELECT name FROM v$pdbs WHERE name != 'PDB$SEED' AND rownum = 1".

Definition health_max_pdb_storage_query : string :=
  "
                    SELECT property_value
                    FROM database_properties
                    WHERE property_name = 'MAX_PDB_STORAGE'
                ".

Definition container_root_statement : string :=
  "ALTER SESSION SET CONTAINER = CDB$ROOT".

(** [x == 'YES' if r else False] on the first column of [r] *)
Definition first_column_is (expected : string) (r : option row) : bool :=
  match r with
  | Some (c :: _) => bool_decide (c = Some expected)
  | _ => false
  end.

Section HealthCheckStorage.

Context {S : Type} `{Environment S}.

(** The cursor of the health check. *)
Variable cur : cursor.

(** [round(x, 2)] *)
Variable round_2 : PyFloat.float -> PyFloat.float.

(** [f"ALTER SESSION SET CONTAINER = {first_pdb[0]}"] *)
Definition container_statement (name : option string) : string :=
  "ALTER SESSION SET CONTAINER = " +:+ str_of_option name.

(** [health_data['storage_pct']] from the value of the property. The limit
    is compared with 'UNLIMITED' as it was read; a limit that is no number
    ([ValueError]) or is zero ([ZeroDivisionError]) gives [None]. *)
Definition storage_pct_of (db_size_gb : PyFloat.float) (max_pdb_storage : string)
  : outcome (option PyFloat.float) :=
  if String.eqb max_pdb_storage "UNLIMITED" then Ok None
  else
    match convert_target_limit_body (PyStr.upper max_pdb_storage) with
    | Ok (max_storage_gb, _) =>
        if float_falsy max_storage_gb
        then Ok None
        else Ok (Some (round_2 (PyFloat.mul (PyFloat.div db_size_gb max_storage_gb)
                                  (PyFloat.of_Z 100))))
    | Raise e =>
        if bool_decide (exn_kind_of e = ValueError) then Ok None else Raise e
    end.

(** Metric 5: [(health_data['max_pdb_storage'], health_data['storage_pct'])]. *)
Definition gather_max_pdb_storage (db_size_gb : PyFloat.float)
  : M S (string * option PyFloat.float) :=
  try_except
    (cursor_execute cur is_cdb_query [] ;;;
     is_cdb_result <- cursor_fetchone cur ;;
     if first_column_is "YES" is_cdb_result then
       (cursor_execute cur first_pdb_query [] ;;;
        first_pdb <- cursor_fetchone cur ;;
        match first_pdb with
        | Some (name :: _) =>
            (cursor_execute cur (container_statement name) [] ;;;
             cursor_execute cur health_max_pdb_storage_query [] ;;;
             max_pdb_result <- cursor_fetchone cur ;;
             let max_pdb_storage := property_or_unlimited max_pdb_result in
             storage_pct <- lift (storage_pct_of db_size_gb max_pdb_storage) ;;
             cursor_execute cur container_root_statement [] ;;;
             ret (max_pdb_storage, storage_pct))
        | _ => ret ("N/A (No PDBs)", None)
        end)
     else ret ("N/A (Non-CDB)", None))%py
    (fun _ => ret ("Unable to query", None)).

(** The calls of the metric when it goes all the way, through the PDB
    [name]. *)
Definition container_calls (name : option string) : list call :=
  [ Execute cur is_cdb_query []; Fetchone cur;
    Execute cur first_pdb_query []; Fetchone cur;
    Execute cur (container_statement name) [];
    Execute cur health_max_pdb_storage_query []; Fetchone cur;
    Execute cur container_root_statement [] ].

End HealthCheckStorage.

(** ** [pdb_clone.py]: the services check of [perform_pdb_postcheck] *)

(** The ['DB Service Names Match'] entry, from the names of the services of
    the two PDBs. *)
Definition services_result (source_names target_names : list (option string))
  : validation_result :=
  let source_service_names : gset (option string) := list_to_set source_names in
  let target_service_names : gset (option string) := list_to_set target_names in
  let services_match :=
    bool_decide (size source_service_names = size target_service_names) in
  ValidationResult "DB Service Names Match"
    (if services_match then "PASS" else "FAILED")
    (str_of_nat (size source_service_names) +:+ " services")
    (str_of_nat (size target_service_names) +:+ " services")
    None.

(** ** [utils/report_generator.py]: the rows of the checks *)

(** [status_class] of a row of Section 2, in the precheck and the postcheck
    report. *)
Definition status_class (r : validation_result) : string :=
  if String.eqb (status r) "PASS" then "pass" else "fail".

(** ** Vocabulary of the readers of numbers *)


(** ** Vocabulary of the runs, with their results *)

(** The calls of a run of [m], in order, and its outcome satisfy [Q]. *)
Definition ensures {S} `{Environment S} {A} (Q : outcome A -> list call -> Prop)
    (m : M S A) : Prop :=
  forall handling w r w', m handling w = (r, w') ->
  exists new, calls w' = calls w ++ new /\ Q r new.

(** A login with a password, by host and service. *)
Definition sales_login : connection_params :=
  {[ "connection_mode" := Some "user_pass";
     "hostname" := Some "src-scan";
     "service" := Some "SALES";
     "username" := Some "system";
     "password" := Some "manager" ]}.


(** * Properties *)

Example parse_50G : parse_storage_value "50G" = Ok (Some (PyFloat.of_Z 50)).
Proof. vm_compute. reflexivity. Qed.
Example parse_2048M : parse_storage_value "2048M" = Ok (Some (PyFloat.of_Z 2)).
Proof. vm_compute. reflexivity. Qed.
Example parse_1T : parse_storage_value "1T" = Ok (Some (PyFloat.of_Z 1024)).
Proof. vm_compute. reflexivity. Qed.
Example parse_bytes : parse_storage_value "5368709120" = Ok (Some (PyFloat.of_Z 5)).
Proof. vm_compute. reflexivity. Qed.
Example parse_unlimited : parse_storage_value "unlimited" = Ok None.
Proof. vm_compute. reflexivity. Qed.
Example format_50 : format_storage_gb (Some (PyFloat.of_Z 50)) "UNLIMITED" = "50.00G".
Proof. vm_compute. reflexivity. Qed.
Example format_1024 : format_storage_gb (Some (PyFloat.of_Z 1024)) "UNLIMITED" = "1024.00G".
Proof. vm_compute. reflexivity. Qed.
Example convert_2048M : convert_storage_to_gb "2048M" true = Ok (Displayed "2.00G").
Proof. vm_compute. reflexivity. Qed.

(** ** The order of strings *)

Lemma ascii_compare_N a b : Ascii.compare a b = N.compare (N_of_ascii a) (N_of_ascii b).
Proof. reflexivity. Qed.

Lemma string_compare_refl s : String.compare s s = Eq.
Proof.
  induction s as [|a s IH]; simpl; [reflexivity|].
  rewrite ascii_compare_N, N.compare_refl. exact IH.
Qed.

Lemma string_compare_trans c s1 s2 s3 :
  String.compare s1 s2 = c -> String.compare s2 s3 = c -> String.compare s1 s3 = c.
Proof.
  revert s2 s3. induction s1 as [|a s1 IH]; intros [|b s2] [|d s3]; simpl;
    try congruence.
  rewrite !ascii_compare_N.
  destruct (N.compare_spec (N_of_ascii a) (N_of_ascii b)) as [Hab|Hab|Hab],
           (N.compare_spec (N_of_ascii b) (N_of_ascii d)) as [Hbd|Hbd|Hbd];
    intros H1 H2; subst; try congruence.
  - rewrite Hab, Hbd, N.compare_refl. eauto.
  - rewrite Hab. apply N.compare_lt_iff in Hbd. now rewrite Hbd.
  - rewrite Hab. apply N.compare_gt_iff in Hbd. now rewrite Hbd.
  - rewrite <- Hbd. apply N.compare_lt_iff in Hab. now rewrite Hab.
  - assert (H : (N_of_ascii a < N_of_ascii d)%N) by lia.
    apply N.compare_lt_iff in H. now rewrite H.
  - rewrite <- Hbd. apply N.compare_gt_iff in Hab. now rewrite Hab.
  - assert (H : (N_of_ascii d < N_of_ascii a)%N) by lia.
    apply N.compare_gt_iff in H. now rewrite H.
Qed.

Lemma string_compare_eq s1 s2 : String.compare s1 s2 = Eq <-> s1 = s2.
Proof.
  split; [apply String.compare_eq_iff|]. intros ->. apply string_compare_refl.
Qed.

#[global] Instance str_le_total : Total str_le.
Proof.
  intros a b. unfold str_le.
  destruct (String.leb_total a b) as [H|H]; rewrite H; simpl; auto.
Qed.

#[global] Instance str_le_trans : Transitive str_le.
Proof.
  intros a b c. unfold str_le, String.leb.
  destruct (String.compare a b) eqn:Hab; simpl; try tauto;
    destruct (String.compare b c) eqn:Hbc; simpl; try tauto; intros _ _.
  - now rewrite (string_compare_trans Eq a b c).
  - apply string_compare_eq in Hab. subst. now rewrite Hbc.
  - apply string_compare_eq in Hbc. subst. now rewrite Hab.
  - now rewrite (string_compare_trans Lt a b c).
Qed.

#[global] Instance str_le_antisym : AntiSymm eq str_le.
Proof.
  intros a b Hab Hba. unfold str_le in *.
  apply String.leb_antisym; now apply Is_true_true.
Qed.

(** ** The sorted union of the keys *)

Lemma elem_of_sorted_key_union (source target : gmap string string) key :
  key ∈ sorted_key_union source target <->
  is_Some (source !! key) \/ is_Some (target !! key).
Proof.
  unfold sorted_key_union.
  rewrite (merge_sort_Permutation str_le), elem_of_elements, elem_of_union,
    !elem_of_dom.
  reflexivity.
Qed.

Lemma NoDup_sorted_key_union (source target : gmap string string) :
  NoDup (sorted_key_union source target).
Proof.
  unfold sorted_key_union. rewrite (merge_sort_Permutation str_le).
  apply NoDup_elements.
Qed.

Lemma StronglySorted_sorted_key_union (source target : gmap string string) :
  StronglySorted str_le (sorted_key_union source target).
Proof. apply StronglySorted_merge_sort; apply _. Qed.

Lemma str_le_ne_lt a b : str_le a b -> a <> b -> str_lt a b.
Proof.
  unfold str_le, str_lt, String.leb, String.ltb.
  destruct (String.compare a b) eqn:H; simpl; try tauto.
  apply string_compare_eq in H. tauto.
Qed.

Lemma StronglySorted_NoDup_strict (l : list string) :
  StronglySorted str_le l -> NoDup l -> StronglySorted str_lt l.
Proof.
  induction 1 as [|a l Hl IH Ha]; intros Hnd; constructor.
  - apply IH. now apply NoDup_cons in Hnd.
  - apply NoDup_cons in Hnd as [Hnotin _].
    rewrite Forall_forall in *. intros x Hx.
    apply str_le_ne_lt; [now apply Ha|]. intros ->. now apply Hnotin.
Qed.

Lemma ascending_sorted_key_union (source target : gmap string string) :
  StronglySorted str_lt (sorted_key_union source target).
Proof.
  apply StronglySorted_NoDup_strict.
  - apply StronglySorted_sorted_key_union.
  - apply NoDup_sorted_key_union.
Qed.

Lemma sorted_key_union_empty : sorted_key_union ∅ ∅ = [].
Proof. reflexivity. Qed.

(** ** The overall status of the precheck report *)

Lemma overall_pass_iff (validation_results : list validation_result) :
  overall_pass validation_results = true <->
  forall r, In r validation_results -> status r <> "SKIPPED" -> status r = "PASS".
Proof.
  unfold overall_pass. rewrite forallb_forall. split.
  - intros H r Hin Hns. apply String.eqb_eq, H, filter_In. split; [exact Hin|].
    apply negb_true_iff, String.eqb_neq, Hns.
  - intros H r Hr. apply filter_In in Hr as [Hin Hns].
    apply String.eqb_eq, H; [exact Hin|].
    now apply String.eqb_neq, negb_true_iff.
Qed.

(** C9. The overall status of the precheck report is PASS exactly when every
    result that is not SKIPPED is PASS; in particular results that are each
    PASS or SKIPPED give PASS, whatever the number of SKIPPED ones, and a
    result that is neither PASS nor SKIPPED (FAILED) gives FAIL. *)
Theorem overall_status_ignores_skipped (validation_results : list validation_result) :
  (overall_status validation_results = "PASS" <->
   forall r, In r validation_results -> status r <> "SKIPPED" -> status r = "PASS")
  /\ ((forall r, In r validation_results -> status r = "PASS" \/ status r = "SKIPPED") ->
      overall_status validation_results = "PASS")
  /\ ((exists r, In r validation_results /\ status r = "FAILED") ->
      overall_status validation_results = "FAIL").
Proof.
  assert (Hst : overall_status validation_results = "PASS" <->
                overall_pass validation_results = true).
  { unfold overall_status. destruct (overall_pass validation_results);
      split; congruence. }
  split; [|split].
  - rewrite Hst. apply overall_pass_iff.
  - intros H. apply Hst, overall_pass_iff. intros r Hin Hns.
    destruct (H r Hin); congruence.
  - intros (r & Hin & Hf). unfold overall_status.
    destruct (overall_pass validation_results) eqn:Hp; [|reflexivity].
    rewrite overall_pass_iff in Hp. specialize (Hp r Hin). rewrite Hf in Hp.
    discriminate Hp. discriminate.
Qed.

(** ** The parameter tables of the precheck report *)

Lemma dict_get_lookup (d : gmap string string) key dflt v :
  d !! key = Some v -> dict_get d key dflt = v.
Proof. unfold dict_get. now intros ->. Qed.

Lemma dict_get_missing (d : gmap string string) key dflt :
  d !! key = None -> dict_get d key dflt = dflt.
Proof. unfold dict_get. now intros ->. Qed.

Lemma target_pdb_exists_of_empty : target_pdb_exists_of ∅ = false.
Proof. reflexivity. Qed.

Lemma target_pdb_exists_of_true (target : gmap string string) :
  target_pdb_exists_of target = true <-> target <> ∅.
Proof.
  unfold target_pdb_exists_of. rewrite bool_decide_eq_true.
  rewrite <- map_size_non_empty_iff. lia.
Qed.

(** C1. The status of a row of the PDB parameter table is a function of the
    two values and of the flag [target_pdb_exists]: Pending whenever the
    target PDB does not exist, whatever the values; otherwise SAME exactly
    when the source value equals the target value as strings (a key missing
    on a side reads as the sentinel 'Not Set', so two sentinels are SAME),
    and DIFF otherwise. The table has one such row per key of the union, with
    the flag the report derives from the target map. *)
Theorem pdb_parameter_row_classification
    (source target : gmap string string) (target_pdb_exists : bool) (param : string) :
  let row := pdb_parameter_row source target target_pdb_exists param in
  let source_val := dict_get source param "Not Set" in
  let target_val := dict_get target param "Not Set" in
  row_param row = param
  /\ (target_pdb_exists = false -> row_status row = "Pending")
  /\ (target_pdb_exists = true ->
      row_source_val row = source_val /\ row_target_val row = target_val
      /\ (row_status row = "SAME" <-> source_val = target_val)
      /\ (row_status row = "DIFF" <-> source_val <> target_val)
      /\ (source !! param = None -> target !! param = None -> row_status row = "SAME"))
  /\ pdb_parameter_rows source target =
       map (pdb_parameter_row source target (target_pdb_exists_of target))
           (sorted_key_union source target).
Proof.
  cbv zeta. unfold pdb_parameter_row.
  destruct target_pdb_exists; simpl.
  - rewrite andb_true_r.
    destruct (String.eqb_spec (dict_get source param "Not Set")
                              (dict_get target param "Not Set")) as [He|Hne]; simpl.
    + repeat split; try congruence; try tauto; discriminate.
    + repeat split; try congruence; try tauto; try discriminate.
      intros Hs Ht. rewrite !dict_get_missing in Hne by assumption. congruence.
  - rewrite andb_false_r. simpl. repeat split; congruence.
Qed.

(** ** The parameter comparison of the postcheck *)

(** The loop of the postcheck keeps, in order, the keys whose values differ. *)
Lemma param_differences_filter (source target : gmap string string) :
  param_differences source target =
  map (fun key => (key, dict_get source key "N/A", dict_get target key "N/A"))
      (List.filter
         (fun key => negb (String.eqb (dict_get source key "N/A")
                                      (dict_get target key "N/A")))
         (sorted_key_union source target)).
Proof.
  unfold param_differences.
  generalize (sorted_key_union source target) as keys.
  assert (H : forall keys acc,
    foldl (fun diffs key =>
             if negb (String.eqb (dict_get source key "N/A") (dict_get target key "N/A"))
             then diffs ++ [(key, dict_get source key "N/A", dict_get target key "N/A")]
             else diffs) acc keys =
    acc ++ map (fun key => (key, dict_get source key "N/A", dict_get target key "N/A"))
               (List.filter
                  (fun key => negb (String.eqb (dict_get source key "N/A")
                                               (dict_get target key "N/A"))) keys)).
  { induction keys as [|k keys IH]; intros acc; simpl.
    - now rewrite app_nil_r.
    - rewrite IH.
      destruct (negb (String.eqb (dict_get source k "N/A") (dict_get target k "N/A")));
        simpl; [now rewrite <- app_assoc|reflexivity]. }
  intros keys. apply (H keys []).
Qed.

Lemma elem_of_param_differences (source target : gmap string string) key :
  key ∈ (param_differences source target).*1.*1 <->
  key ∈ sorted_key_union source target
  /\ dict_get source key "N/A" <> dict_get target key "N/A".
Proof.
  rewrite param_differences_filter, <- !list_fmap_compose.
  rewrite list_elem_of_fmap. split.
  - intros (k & -> & Hk). simpl. apply list_elem_of_In, filter_In in Hk as [Hin Hne].
    split; [now apply list_elem_of_In|].
    now apply String.eqb_neq, negb_true_iff.
  - intros [Hin Hne]. exists key. split; [reflexivity|].
    apply list_elem_of_In, filter_In. split; [now apply list_elem_of_In|].
    now apply negb_true_iff, String.eqb_neq.
Qed.

Lemma params_match_iff (source target : gmap string string) :
  params_match source target = true <->
  forall key, key ∈ sorted_key_union source target ->
              dict_get source key "N/A" = dict_get target key "N/A".
Proof.
  unfold params_match. rewrite Nat.eqb_eq, length_zero_iff_nil. split.
  - intros Hnil key Hin.
    destruct (decide (dict_get source key "N/A" = dict_get target key "N/A"))
      as [|Hne]; [assumption|].
    assert (Hk : key ∈ (param_differences source target).*1.*1)
      by now apply elem_of_param_differences.
    rewrite Hnil in Hk. now apply elem_of_nil in Hk.
  - intros H. destruct (param_differences source target) as [|[[k sv] tv] l] eqn:Hd;
      [reflexivity|exfalso].
    assert (Hk : k ∈ (param_differences source target).*1.*1)
      by (rewrite Hd; simpl; apply list_elem_of_here).
    apply elem_of_param_differences in Hk as [Hin Hne]. now apply Hne, H.
Qed.

Lemma cdb_parameter_row_status (source target : gmap string string) key :
  row_param (cdb_parameter_row source target key) = key
  /\ (row_status (cdb_parameter_row source target key) = "SAME" <->
      dict_get source key "N/A" = dict_get target key "N/A")
  /\ (row_status (cdb_parameter_row source target key) = "DIFF" <->
      dict_get source key "N/A" <> dict_get target key "N/A").
Proof.
  unfold cdb_parameter_row.
  destruct (String.eqb_spec (dict_get source key "N/A") (dict_get target key "N/A"));
    simpl; repeat split; try congruence; try tauto; discriminate.
Qed.

Lemma cdb_parameter_rows_params (source target : gmap string string) :
  map row_param (cdb_parameter_rows source target) = sorted_key_union source target.
Proof.
  unfold cdb_parameter_rows. rewrite map_map.
  rewrite <- (map_id (sorted_key_union source target)) at 2.
  apply map_ext. intros key. apply cdb_parameter_row_status.
Qed.

Lemma pdb_parameter_rows_params (source target : gmap string string) :
  map row_param (pdb_parameter_rows source target) = sorted_key_union source target.
Proof.
  unfold pdb_parameter_rows. rewrite map_map.
  rewrite <- (map_id (sorted_key_union source target)) at 2.
  apply map_ext. intros key. unfold pdb_parameter_row.
  destruct (_ && _); [reflexivity|]. now destruct (negb _).
Qed.

(** C2. The rows of a parameter table of the report cover exactly the keys
    present in either map, in strictly ascending order of the keys; the
    postcheck walks the same sorted union, lists the keys whose values
    differ, and its [params_match] is true exactly when every key of the
    union is classified SAME; for two empty maps there is no row, no
    difference, and [params_match] is true. *)
Theorem reconciliation_covers_sorted_union (source target : gmap string string) :
  (forall key, key ∈ map row_param (cdb_parameter_rows source target) <->
               is_Some (source !! key) \/ is_Some (target !! key))
  /\ (forall key, key ∈ map row_param (pdb_parameter_rows source target) <->
                  is_Some (source !! key) \/ is_Some (target !! key))
  /\ StronglySorted str_lt (map row_param (cdb_parameter_rows source target))
  /\ StronglySorted str_lt (map row_param (pdb_parameter_rows source target))
  /\ (param_differences source target).*1.*1 =
       map row_param
         (List.filter (fun row => String.eqb (row_status row) "DIFF")
                      (cdb_parameter_rows source target))
  /\ (params_match source target = true <->
      Forall (fun row => row_status row = "SAME") (cdb_parameter_rows source target))
  /\ cdb_parameter_rows ∅ ∅ = []
  /\ pdb_parameter_rows ∅ ∅ = []
  /\ param_differences ∅ ∅ = []
  /\ params_match ∅ ∅ = true.
Proof.
  rewrite cdb_parameter_rows_params, pdb_parameter_rows_params.
  repeat match goal with |- _ /\ _ => split end; try reflexivity.
  - apply elem_of_sorted_key_union.
  - apply elem_of_sorted_key_union.
  - apply ascending_sorted_key_union.
  - apply ascending_sorted_key_union.
  - rewrite param_differences_filter, <- !list_fmap_compose.
    unfold cdb_parameter_rows.
    induction (sorted_key_union source target) as [|k keys IH]; [reflexivity|].
    simpl. unfold cdb_parameter_row at 1.
    destruct (String.eqb (dict_get source k "N/A") (dict_get target k "N/A"));
      simpl; [exact IH|]. f_equal; [|exact IH].
    symmetry. apply cdb_parameter_row_status.
  - rewrite params_match_iff. unfold cdb_parameter_rows.
    rewrite Forall_map, Forall_forall. split.
    + intros H key Hin. now apply cdb_parameter_row_status, H.
    + intros H key Hin. now apply cdb_parameter_row_status, H.
Qed.

(** The examples of the specification, on the code. *)
Example cdb_table_A_B :
  cdb_parameter_table [("A", "1", "FALSE"); ("B", "2", "FALSE")]
                      [("A", "1", "FALSE"); ("B", "3", "FALSE")]
  = [ParameterRow "A" "1" "1" "match" "SAME"; ParameterRow "B" "2" "3" "diff" "DIFF"].
Proof. vm_compute. reflexivity. Qed.

Example postcheck_A_B :
  let source := dict_of_rows [("A", "1", "FALSE"); ("B", "2", "FALSE")] in
  let target := dict_of_rows [("B", "3", "FALSE"); ("A", "1", "FALSE")] in
  param_differences source target = [("B", "2", "3")]
  /\ params_match source target = false.
Proof. vm_compute. split; reflexivity. Qed.

Example pdb_table_target_not_created :
  pdb_parameter_table [("A", "1", "FALSE")] []
  = [ParameterRow "A" "1" "PDB not created yet" "" "Pending"].
Proof. vm_compute. reflexivity. Qed.

Example pdb_table_key_order :
  map row_param
    (pdb_parameter_table [("sga_target", "4G", "FALSE"); ("open_cursors", "300", "FALSE")]
                         [("processes", "500", "FALSE"); ("open_cursors", "300", "FALSE")])
  = ["open_cursors"; "processes"; "sga_target"].
Proof. vm_compute. reflexivity. Qed.

(** C10. The postcheck reads a key missing from one map as the string 'N/A'.
    So when the side that has the key holds exactly 'N/A', the two values
    compare equal, the key is not in the list of differences, the two key
    sets differ, and if the maps agree on every other key the check
    'Oracle DB Parameters Match' is PASS. *)
Theorem postcheck_na_hides_missing_key (source target : gmap string string) (key : string) :
  ((source !! key = Some "N/A" /\ target !! key = None)
   \/ (source !! key = None /\ target !! key = Some "N/A")) ->
  dict_get source key "N/A" = dict_get target key "N/A"
  /\ (key ∉ (param_differences source target).*1.*1)
  /\ dom source <> dom target
  /\ ((forall other, other <> key -> source !! other = target !! other) ->
      param_differences source target = []
      /\ status (parameters_match_result source target) = "PASS").
Proof.
  intros Hkey.
  assert (Heq : dict_get source key "N/A" = dict_get target key "N/A").
  { unfold dict_get. destruct Hkey as [[-> ->]|[-> ->]]; reflexivity. }
  split; [exact Heq|]. split; [|split].
  - rewrite elem_of_param_differences. tauto.
  - intros Hdom.
    assert (Hiff : is_Some (source !! key) <-> is_Some (target !! key))
      by (rewrite <- !elem_of_dom, Hdom; reflexivity).
    destruct Hkey as [[Hs Ht]|[Hs Ht]]; rewrite Hs, Ht in Hiff;
      destruct Hiff as [H1 H2].
    + destruct H1 as [? ?]; [eauto|discriminate].
    + destruct H2 as [? ?]; [eauto|discriminate].
  - intros Hother.
    assert (Hm : params_match source target = true).
    { apply params_match_iff. intros k _.
      destruct (decide (k = key)) as [->|Hne]; [exact Heq|].
      unfold dict_get. now rewrite (Hother k Hne). }
    split.
    + unfold params_match in Hm. apply Nat.eqb_eq in Hm.
      now apply length_zero_iff_nil.
    + unfold parameters_match_result. simpl. now rewrite Hm.
Qed.

Lemma postcheck_na_hides_missing_key_witness :
  let source : gmap string string := {[ "db_domain" := "N/A"; "open_cursors" := "300" ]} in
  let target : gmap string string := {[ "open_cursors" := "300" ]} in
  dom source <> dom target
  /\ param_differences source target = []
  /\ status (parameters_match_result source target) = "PASS".
Proof.
  intros source target.
  destruct (postcheck_na_hides_missing_key source target "db_domain")
    as (_ & _ & Hdom & Hpass).
  - left. split; reflexivity.
  - split; [exact Hdom|]. apply Hpass. intros other Hne.
    subst source target. rewrite lookup_insert_ne by congruence. reflexivity.
Defined.

(** ** Storage values: parsing never raises *)

Lemma of_string_raises_ValueError s e :
  PyFloat.of_string s = Raise e -> exn_kind_of e = ValueError.
Proof.
  unfold PyFloat.of_string.
  destruct (PyFloat.scan_sign (PyFloat.strip s)) as [neg r].
  destruct (_ || _); [discriminate|].
  destruct (String.eqb _ "NAN"); [discriminate|].
  destruct (PyFloat.parse_number r) as [[m e10]|]; [discriminate|].
  intros [= <-]. reflexivity.
Qed.

Lemma parse_storage_value_body_raises_ValueError u e :
  parse_storage_value_body u = Raise e -> exn_kind_of e = ValueError.
Proof.
  unfold parse_storage_value_body.
  repeat match goal with
         | |- context [if ?b then _ else _] => destruct b
         | |- context [PyFloat.of_string ?x] =>
             let H := fresh "Hf" in
             destruct (PyFloat.of_string x) eqn:H;
             [discriminate | apply of_string_raises_ValueError in H]
         end;
    intros [= <-]; assumption.
Qed.






Example parse_minus_5G : parse_storage_value "-5G" = Ok (Some (PyFloat.of_Z (-5))).
Proof. vm_compute. reflexivity. Qed.

Example parse_1e400 : parse_storage_value "1e400" = Ok (Some (S754_infinity false)).
Proof. vm_compute. reflexivity. Qed.

Example parse_junk : parse_storage_value "12 apples" = Ok None.
Proof. vm_compute. reflexivity. Qed.

(** [str.strip] drops a separator in front of the text; one that is left
    next to the number is not read by [float]. *)
Example parse_separator_in_front :
  parse_storage_value (String "031" "50G") = Ok (Some (PyFloat.of_Z 50)).
Proof. vm_compute. reflexivity. Qed.

Example parse_separator_inside :
  parse_storage_value ("50" +:+ String "028" "G") = Ok None.
Proof. vm_compute. reflexivity. Qed.

(** ** The MAX_PDB_STORAGE check *)













Example storage_80_nan repr_number :
  exists r, max_pdb_storage_check repr_number "UNLIMITED" (PyFloat.of_Z 80) (Some "nan") = Ok r
            /\ status r = "FAILED"
            /\ target_value r
               = "nanG (insufficient for " +:+ repr_number (PyFloat.of_Z 80)
                   +:+ " GB source PDB)".
Proof. eexists. repeat split. Qed.

(** [float] does not read the number behind a separator: the limit is shown
    as it was read and taken as sufficient. *)
Example storage_80_separator_50G repr_number :
  exists r, max_pdb_storage_check repr_number "UNLIMITED" (PyFloat.of_Z 80)
              (Some (String "031" "50G")) = Ok r
            /\ status r = "PASS"
            /\ target_value r
               = String "031" "50G (unable to parse, treating as sufficient)".
Proof. eexists. repeat split. Qed.

Example storage_80_unlimited :
  exists r, max_pdb_storage_check PyFloat.format_2f "UNLIMITED" (PyFloat.of_Z 80) (Some "UNLIMITED") = Ok r
            /\ status r = "PASS".
Proof. eexists. split; vm_compute; reflexivity. Qed.

Example storage_80_50G :
  exists r, max_pdb_storage_check PyFloat.format_2f "UNLIMITED" (PyFloat.of_Z 80) (Some "50G") = Ok r
            /\ status r = "FAILED".
Proof. eexists. split; vm_compute; reflexivity. Qed.

Example storage_50_50G :
  exists r, max_pdb_storage_check PyFloat.format_2f "UNLIMITED" (PyFloat.of_Z 50) (Some "50G") = Ok r
            /\ status r = "PASS".
Proof. eexists. split; vm_compute; reflexivity. Qed.

Example storage_no_target_yet :
  exists r, max_pdb_storage_check PyFloat.format_2f "UNLIMITED" (PyFloat.of_Z 50) None = Ok r
            /\ status r = "PASS".
Proof. eexists. split; vm_compute; reflexivity. Qed.

(** ** Strings made of plain characters *)

Lemma all_chars_app p a b :
  all_chars p (a +:+ b) = all_chars p a && all_chars p b.
Proof.
  induction a as [|c a IH]; [reflexivity|].
  change (String c a +:+ b) with (String c (a +:+ b)). simpl.
  now rewrite IH, andb_assoc.
Qed.

Lemma all_chars_impl (p q : ascii -> bool) s :
  (forall c, p c = true -> q c = true) -> all_chars p s = true -> all_chars q s = true.
Proof.
  intros Hpq. induction s as [|c s IH]; simpl; [reflexivity|].
  intros [Hc Hs]%andb_true_iff. rewrite (Hpq c Hc). now apply IH.
Qed.

Ltac each_char c :=
  destruct c as [[] [] [] [] [] [] [] []]; try discriminate; try reflexivity.

Lemma numeral_char_upper c : is_numeral_char c = true -> PyStr.upper_char c = c.
Proof. each_char c. Qed.

Lemma numeral_char_not_space c : is_numeral_char c = true -> PyStr.is_space c = false.
Proof. each_char c. Qed.

Lemma numeral_char_not_unit c :
  is_numeral_char c = true ->
  Ascii.eqb "G" c = false /\ Ascii.eqb "M" c = false /\ Ascii.eqb "T" c = false.
Proof. each_char c; intros _; repeat split. Qed.

Lemma plain_char_numeral c : is_plain_char c = true -> is_numeral_char c = true.
Proof. each_char c. Qed.

Lemma upper_unchanged s :
  all_chars is_numeral_char s = true -> PyStr.upper s = s.
Proof.
  induction s as [|c s IH]; simpl; [reflexivity|].
  intros [Hc Hs]%andb_true_iff. now rewrite (numeral_char_upper c Hc), IH.
Qed.

Lemma lstrip_unchanged s :
  all_chars (fun c => negb (PyStr.is_space c)) s = true -> PyStr.lstrip s = s.
Proof.
  destruct s as [|c s]; simpl; [reflexivity|].
  intros [Hc _]%andb_true_iff. apply negb_true_iff in Hc. now rewrite Hc.
Qed.

Lemma rstrip_unchanged s :
  all_chars (fun c => negb (PyStr.is_space c)) s = true -> PyStr.rstrip s = s.
Proof.
  induction s as [|c s IH]; simpl; [reflexivity|].
  intros [Hc Hs]%andb_true_iff. apply negb_true_iff in Hc.
  now rewrite Hc, (IH Hs).
Qed.

Lemma strip_unchanged s :
  all_chars (fun c => negb (PyStr.is_space c)) s = true -> PyStr.strip s = s.
Proof.
  intros H. unfold PyStr.strip. rewrite (lstrip_unchanged s H).
  now apply rstrip_unchanged.
Qed.

Lemma numeral_no_space s :
  all_chars is_numeral_char s = true ->
  all_chars (fun c => negb (PyStr.is_space c)) s = true.
Proof.
  apply all_chars_impl. intros c Hc. now rewrite (numeral_char_not_space c Hc).
Qed.

(** [float] drops no more than [str.strip] does, and as much where the text
    has none of the separators FS..US. *)
Lemma float_space_is_space c : PyStr.is_space c = false -> PyFloat.is_space c = false.
Proof. each_char c. Qed.

Lemma float_space_no_separator c :
  PyStr.is_separator c = false -> PyFloat.is_space c = PyStr.is_space c.
Proof. each_char c. Qed.

Lemma float_lstrip_no_separator s :
  no_separator s = true -> PyFloat.lstrip s = PyStr.lstrip s.
Proof.
  unfold no_separator. induction s as [|c s IH]; simpl; [reflexivity|].
  intros [Hc Hs]%andb_true_iff. apply negb_true_iff in Hc.
  rewrite (float_space_no_separator c Hc), (IH Hs). reflexivity.
Qed.

Lemma float_rstrip_no_separator s :
  no_separator s = true -> PyFloat.rstrip s = PyStr.rstrip s.
Proof.
  unfold no_separator. induction s as [|c s IH]; simpl; [reflexivity|].
  intros [Hc Hs]%andb_true_iff. apply negb_true_iff in Hc.
  rewrite (float_space_no_separator c Hc), (IH Hs). reflexivity.
Qed.

Lemma all_chars_lstrip p s : all_chars p s = true -> all_chars p (PyStr.lstrip s) = true.
Proof.
  induction s as [|c s IH]; simpl; [reflexivity|].
  intros [Hc Hs]%andb_true_iff. destruct (PyStr.is_space c); [now apply IH|].
  simpl. now rewrite Hc, Hs.
Qed.




Lemma float_strip_no_separator s :
  no_separator s = true -> PyFloat.strip s = PyStr.strip s.
Proof.
  intros H. unfold PyFloat.strip, PyStr.strip.
  rewrite (float_lstrip_no_separator s H).
  apply float_rstrip_no_separator, all_chars_lstrip, H.
Qed.

Lemma float_strip_unchanged s :
  all_chars (fun c => negb (PyStr.is_space c)) s = true -> PyFloat.strip s = s.
Proof.
  intros H. rewrite float_strip_no_separator, (strip_unchanged s H); [reflexivity|].
  revert H. apply all_chars_impl. intros c Hc. apply negb_true_iff in Hc.
  apply negb_true_iff. revert Hc. each_char c.
Qed.

Lemma contains_absent u s :
  all_chars (fun c => negb (Ascii.eqb u c)) s = true ->
  PyStr.contains u s = false /\ PyStr.remove u s = s.
Proof.
  induction s as [|c s IH]; simpl; [split; reflexivity|].
  intros [Hc Hs]%andb_true_iff. apply negb_true_iff in Hc. rewrite Hc.
  destruct (IH Hs) as [-> ->]. split; reflexivity.
Qed.

Lemma contains_suffix u s :
  all_chars (fun c => negb (Ascii.eqb u c)) s = true ->
  PyStr.contains u (s +:+ String u "") = true
  /\ PyStr.remove u (s +:+ String u "") = s.
Proof.
  induction s as [|c s IH]; simpl.
  - intros _. rewrite Ascii.eqb_refl. split; reflexivity.
  - intros [Hc Hs]%andb_true_iff. apply negb_true_iff in Hc.
    change (String c s +:+ String u "") with (String c (s +:+ String u "")).
    simpl. rewrite Hc. destruct (IH Hs) as [-> ->]. split; reflexivity.
Qed.

Lemma numeral_without u s :
  (u = "G" \/ u = "M" \/ u = "T")%char ->
  all_chars is_numeral_char s = true ->
  all_chars (fun c => negb (Ascii.eqb u c)) s = true.
Proof.
  intros Hu. apply all_chars_impl. intros c Hc.
  destruct (numeral_char_not_unit c Hc) as (HG & HM & HT).
  destruct Hu as [->|[->| ->]]; apply negb_true_iff; assumption.
Qed.

(** ** Storage values: what is read *)

Lemma last_char_suffix s u : last_char (s +:+ String u "") = Some u.
Proof.
  induction s as [|c s IH]; [reflexivity|].
  change (String c s +:+ String u "") with (String c (s +:+ String u "")).
  simpl. destruct (s +:+ String u "") eqn:Hs; [|exact IH].
  destruct s; discriminate.
Qed.

(** On a text that [upper] and [strip] leave alone, [parse_storage_value]
    is its [try] body with every exception turned into [None]. *)
Lemma parse_storage_value_clean t :
  PyStr.upper t = t -> PyStr.strip t = t -> t <> "" -> t <> "UNLIMITED" ->
  parse_storage_value t =
  match parse_storage_value_body t with
  | Ok v => Ok v
  | Raise _ => Ok None
  end.
Proof.
  intros Hu Hs Hne Hnu. unfold parse_storage_value.
  destruct t as [|c t]; [congruence|]. cbn [PyStr.falsy PyStr.is_empty].
  rewrite Hu, Hs.
  destruct (String.eqb_spec (String c t) "UNLIMITED") as [|_]; [congruence|].
  destruct (parse_storage_value_body (String c t)) as [v|e] eqn:Hb; [reflexivity|].
  apply parse_storage_value_body_raises_ValueError in Hb.
  unfold is_value_or_attribute_error. now rewrite Hb.
Qed.

Lemma numeral_with_unit_clean n u :
  (u = "G" \/ u = "M" \/ u = "T")%char ->
  all_chars is_numeral_char n = true ->
  let t := n +:+ String u "" in
  PyStr.upper t = t /\ PyStr.strip t = t /\ t <> "" /\ t <> "UNLIMITED".
Proof.
  intros Hu Hn t.
  assert (Hup : PyStr.upper t = t).
  { subst t. revert Hn. induction n as [|c n IH]; simpl.
    - intros _. destruct Hu as [->|[->| ->]]; reflexivity.
    - intros [Hc Hs]%andb_true_iff.
      change (String c n +:+ String u "") with (String c (n +:+ String u "")).
      simpl. now rewrite (numeral_char_upper c Hc), IH. }
  split; [exact Hup|]. split; [|split].
  - apply strip_unchanged. subst t. rewrite all_chars_app, (numeral_no_space n Hn).
    destruct Hu as [->|[->| ->]]; reflexivity.
  - subst t. destruct n; discriminate.
  - intros H. apply (f_equal last_char) in H. subst t.
    rewrite last_char_suffix in H.
    destruct Hu as [->|[->| ->]]; discriminate.
Qed.

(** A number followed by G is read unchanged, by M divided by 1024, by T
    multiplied by 1024; a bare number is a count of bytes, divided by
    1024 cubed. A text that [float] rejects gives [None]. *)
Lemma parse_storage_value_units n :
  all_chars is_numeral_char n = true ->
  parse_storage_value (n +:+ "G")
    = scaled_or_unlimited (fun v => v) (PyFloat.of_string n)
  /\ parse_storage_value (n +:+ "M")
    = scaled_or_unlimited (fun v => PyFloat.div v float_1024) (PyFloat.of_string n)
  /\ parse_storage_value (n +:+ "T")
    = scaled_or_unlimited (fun v => PyFloat.mul v float_1024) (PyFloat.of_string n)
  /\ (n <> "" ->
      parse_storage_value n
      = scaled_or_unlimited (fun v => PyFloat.div v float_1024_cubed)
                            (PyFloat.of_string n)).
Proof.
  intros Hn.
  pose proof (numeral_without "G" n (or_introl eq_refl) Hn) as HG.
  pose proof (numeral_without "M" n (or_intror (or_introl eq_refl)) Hn) as HM.
  pose proof (numeral_without "T" n (or_intror (or_intror eq_refl)) Hn) as HT.
  split; [|split; [|split]].
  - destruct (numeral_with_unit_clean n "G" (or_introl eq_refl) Hn) as (H1 & H2 & H3 & H4).
    rewrite (parse_storage_value_clean _ H1 H2 H3 H4).
    unfold parse_storage_value_body.
    destruct (contains_suffix "G" n HG) as [-> ->].
    now destruct (PyFloat.of_string n).
  - destruct (numeral_with_unit_clean n "M" (or_intror (or_introl eq_refl)) Hn)
      as (H1 & H2 & H3 & H4).
    rewrite (parse_storage_value_clean _ H1 H2 H3 H4).
    unfold parse_storage_value_body.
    assert (HG' : all_chars (fun c => negb (Ascii.eqb "G" c)) (n +:+ "M") = true)
      by now rewrite all_chars_app, HG.
    destruct (contains_absent "G" _ HG') as [-> _].
    destruct (contains_suffix "M" n HM) as [-> ->].
    now destruct (PyFloat.of_string n).
  - destruct (numeral_with_unit_clean n "T" (or_intror (or_intror eq_refl)) Hn)
      as (H1 & H2 & H3 & H4).
    rewrite (parse_storage_value_clean _ H1 H2 H3 H4).
    unfold parse_storage_value_body.
    assert (HG' : all_chars (fun c => negb (Ascii.eqb "G" c)) (n +:+ "T") = true)
      by now rewrite all_chars_app, HG.
    assert (HM' : all_chars (fun c => negb (Ascii.eqb "M" c)) (n +:+ "T") = true)
      by now rewrite all_chars_app, HM.
    destruct (contains_absent "G" _ HG') as [-> _].
    destruct (contains_absent "M" _ HM') as [-> _].
    destruct (contains_suffix "T" n HT) as [-> ->].
    now destruct (PyFloat.of_string n).
  - intros Hne.
    rewrite parse_storage_value_clean; try assumption.
    + unfold parse_storage_value_body.
      destruct (contains_absent "G" _ HG) as [-> _].
      destruct (contains_absent "M" _ HM) as [-> _].
      destruct (contains_absent "T" _ HT) as [-> _].
      now destruct (PyFloat.of_string n).
    + now apply upper_unchanged.
    + now apply strip_unchanged, numeral_no_space.
    + intros ->. discriminate Hn.
Qed.

(** ** Decimal digits *)

Lemma digits_value_snoc ds d :
  PyFloat.digits_value (ds ++ [d]) = (PyFloat.digits_value ds * 10 + d)%N.
Proof. unfold PyFloat.digits_value. now rewrite fold_left_app. Qed.

Lemma digits_of_spec fuel : forall n,
  (n < 2 ^ N.of_nat fuel)%N ->
  PyFloat.digits_value (PyFloat.digits_of fuel n) = n
  /\ Forall (fun d => (d < 10)%N) (PyFloat.digits_of fuel n).
Proof.
  induction fuel as [|fuel IH]; intros n Hn.
  - simpl in *. assert (n = 0%N) by lia. subst. split; [reflexivity|constructor].
  - cbn [PyFloat.digits_of]. destruct (N.ltb_spec n 10) as [Hlt|Hge].
    + split; [|repeat constructor; assumption].
      unfold PyFloat.digits_value. simpl. lia.
    + assert (Hdiv : (n / 10 < 2 ^ N.of_nat fuel)%N).
      { rewrite Nat2N.inj_succ, N.pow_succ_r' in Hn.
        apply N.Div0.div_lt_upper_bound. lia. }
      destruct (IH _ Hdiv) as [Hv Hf]. split.
      * rewrite digits_value_snoc, Hv.
        pose proof (N.div_mod n 10 ltac:(lia)). lia.
      * apply Forall_app. split; [exact Hf|].
        repeat constructor. apply N.mod_lt. lia.
Qed.

Lemma digits_of_nonempty fuel n : PyFloat.digits_of (S fuel) n <> [].
Proof.
  cbn [PyFloat.digits_of]. destruct (n <? 10)%N; [discriminate|].
  intros H. apply app_eq_nil in H as [_ H]. discriminate.
Qed.

Lemma digits_of_N n :
  let ds := PyFloat.digits_of (S (N.to_nat (N.log2 n))) n in
  PyFloat.digits_value ds = n /\ Forall (fun d => (d < 10)%N) ds /\ ds <> [].
Proof.
  cbv zeta. split; [|split].
  - apply digits_of_spec. rewrite Nat2N.inj_succ, N2Nat.id.
    destruct n as [|p]; [reflexivity|]. apply N.log2_spec. lia.
  - apply digits_of_spec. rewrite Nat2N.inj_succ, N2Nat.id.
    destruct n as [|p]; [reflexivity|]. apply N.log2_spec. lia.
  - apply digits_of_nonempty.
Qed.

Lemma small_digit d :
  (d < 10)%N ->
  (d = 0 \/ d = 1 \/ d = 2 \/ d = 3 \/ d = 4 \/ d = 5 \/ d = 6 \/ d = 7 \/ d = 8 \/ d = 9)%N.
Proof. lia. Qed.

Ltac each_digit d H :=
  apply small_digit in H;
  repeat (destruct H as [H|H]; [subst d|]); try subst d.

Lemma digit_char_facts d :
  (d < 10)%N ->
  PyFloat.is_digit (PyFloat.digit_char d) = true
  /\ PyFloat.digit_val (PyFloat.digit_char d) = d
  /\ is_plain_char (PyFloat.digit_char d) = true
  /\ Ascii.eqb (PyFloat.digit_char d) "_" = false
  /\ Ascii.eqb (PyFloat.digit_char d) "-" = false
  /\ Ascii.eqb (PyFloat.digit_char d) "+" = false.
Proof. intros H. each_digit d H; repeat split. Qed.

Lemma string_of_digits_plain ds :
  Forall (fun d => (d < 10)%N) ds ->
  all_chars is_plain_char (PyFloat.string_of_digits ds) = true.
Proof.
  induction 1 as [|d ds Hd _ IH]; simpl; [reflexivity|].
  destruct (digit_char_facts d Hd) as (_ & _ & -> & _). exact IH.
Qed.

Lemma scan_digits_cons c r :
  PyFloat.scan_digits (String c r) =
  if PyFloat.is_digit c then
    let '(ds, rest) :=
      match r with
      | String u r2 =>
          if Ascii.eqb u "_"
          then if PyFloat.starts_with_digit r2 then PyFloat.scan_digits r2 else ([], r)
          else PyFloat.scan_digits r
      | EmptyString => ([], r)
      end in
    (PyFloat.digit_val c :: ds, rest)
  else ([], String c r).
Proof. reflexivity. Qed.

(** Reading back digits that were printed, up to a character that is
    neither a digit nor an underscore. *)
Lemma scan_digits_printed ds rest :
  Forall (fun d => (d < 10)%N) ds ->
  match rest with
  | EmptyString => True
  | String c _ => PyFloat.is_digit c = false /\ Ascii.eqb c "_" = false
  end ->
  PyFloat.scan_digits (PyFloat.string_of_digits ds +:+ rest) = (ds, rest).
Proof.
  intros Hds Hrest. induction Hds as [|d ds Hd Hds IH].
  - change (PyFloat.string_of_digits [] +:+ rest) with rest.
    destruct rest as [|c r]; [reflexivity|].
    rewrite scan_digits_cons. destruct Hrest as [-> _]. reflexivity.
  - change (PyFloat.string_of_digits (d :: ds) +:+ rest)
      with (String (PyFloat.digit_char d) (PyFloat.string_of_digits ds +:+ rest)).
    rewrite scan_digits_cons.
    destruct (digit_char_facts d Hd) as (-> & -> & _).
    destruct Hds as [|d2 ds Hd2 Hds].
    + change (PyFloat.string_of_digits [] +:+ rest) with rest in *.
      destruct rest as [|c r]; [reflexivity|].
      destruct Hrest as [Hc Hu]. rewrite Hu, IH. reflexivity.
    + change (PyFloat.string_of_digits (d2 :: ds) +:+ rest)
        with (String (PyFloat.digit_char d2) (PyFloat.string_of_digits ds +:+ rest))
        in *.
      destruct (digit_char_facts d2 Hd2) as (_ & _ & _ & -> & _).
      now rewrite IH.
Qed.

Lemma upper_digit_first d t :
  (d < 10)%N ->
  (String.eqb (PyStr.upper (String (PyFloat.digit_char d) t)) "INF"
   || String.eqb (PyStr.upper (String (PyFloat.digit_char d) t)) "INFINITY") = false
  /\ String.eqb (PyStr.upper (String (PyFloat.digit_char d) t)) "NAN" = false.
Proof. intros H. each_digit d H; split; reflexivity. Qed.

Lemma two_decimals_text_plain s a b :
  (b < 100)%N ->
  all_chars is_plain_char
    (PyFloat.sign_text s +:+ PyFloat.string_of_N a +:+ "." +:+ PyFloat.two_digits b)
  = true.
Proof.
  intros Hb. destruct (digits_of_N a) as (_ & Hsmall & _).
  assert (Hx : (b / 10 < 10)%N) by (apply N.Div0.div_lt_upper_bound; lia).
  assert (Hy : (b mod 10 < 10)%N) by (apply N.mod_lt; lia).
  change (PyFloat.two_digits b)
    with (PyFloat.string_of_digits [(b / 10)%N; (b mod 10)%N]).
  unfold PyFloat.string_of_N.
  rewrite !all_chars_app, !string_of_digits_plain
    by (assumption || (repeat constructor; assumption)).
  now destruct s.
Qed.

(** [float] of a printed number with two decimals. *)
Lemma of_string_two_decimals s a b :
  (b < 100)%N ->
  PyFloat.of_string
    (PyFloat.sign_text s +:+ PyFloat.string_of_N a +:+ "." +:+ PyFloat.two_digits b)
  = Ok (PyFloat.of_decimal s (a * 100 + b) (-2)).
Proof.
  intros Hb.
  destruct (digits_of_N a) as (Hval & Hsmall & Hne).
  fold (PyFloat.string_of_N a) in *.
  set (ds := PyFloat.digits_of (S (N.to_nat (N.log2 a))) a) in *.
  assert (Hx : (b / 10 < 10)%N) by (apply N.Div0.div_lt_upper_bound; lia).
  assert (Hy : (b mod 10 < 10)%N) by (apply N.mod_lt; lia).
  assert (Hfrac : PyFloat.two_digits b
                  = PyFloat.string_of_digits [(b / 10)%N; (b mod 10)%N] +:+ "")
    by reflexivity.
  pose proof (two_decimals_text_plain s a b Hb) as Hall.
  unfold PyFloat.of_string.
  rewrite float_strip_unchanged
    by (apply numeral_no_space; revert Hall; apply all_chars_impl, plain_char_numeral).
  assert (Hsign : PyFloat.scan_sign
            (PyFloat.sign_text s +:+ PyFloat.string_of_N a +:+ "."
               +:+ PyFloat.two_digits b)
          = (s, PyFloat.string_of_N a +:+ "." +:+ PyFloat.two_digits b)).
  { destruct s; [reflexivity|].
    change (PyFloat.sign_text false +:+ ?x) with x.
    unfold PyFloat.string_of_N. fold ds.
    destruct ds as [|d ds']; [congruence|].
    apply Forall_cons in Hsmall as [Hd _].
    change (PyFloat.string_of_digits (d :: ds') +:+ ?x)
      with (String (PyFloat.digit_char d) (PyFloat.string_of_digits ds' +:+ x)).
    unfold PyFloat.scan_sign.
    now destruct (digit_char_facts d Hd) as (_ & _ & _ & _ & -> & ->). }
  rewrite Hsign.
  assert (Hword :
    (String.eqb (PyStr.upper (PyFloat.string_of_N a +:+ "." +:+ PyFloat.two_digits b)) "INF"
     || String.eqb (PyStr.upper (PyFloat.string_of_N a +:+ "." +:+ PyFloat.two_digits b))
          "INFINITY") = false
    /\ String.eqb (PyStr.upper (PyFloat.string_of_N a +:+ "." +:+ PyFloat.two_digits b))
         "NAN" = false).
  { unfold PyFloat.string_of_N. fold ds.
    destruct ds as [|d ds']; [congruence|].
    apply Forall_cons in Hsmall as [Hd _].
    apply (upper_digit_first d _ Hd). }
  destruct Hword as [-> ->].
  assert (Hnum : PyFloat.parse_number
            (PyFloat.string_of_N a +:+ "." +:+ PyFloat.two_digits b)
          = Some ((a * 100 + b)%N, -2)).
  { unfold PyFloat.parse_number, PyFloat.string_of_N. fold ds.
    rewrite (scan_digits_printed ds _ Hsmall) by (split; reflexivity).
    change ("." +:+ PyFloat.two_digits b) with (String "." (PyFloat.two_digits b)).
    cbn [Ascii.eqb Bool.eqb]. rewrite Hfrac.
    rewrite scan_digits_printed by (repeat constructor; assumption || exact I).
    destruct (ds ++ [(b / 10)%N; (b mod 10)%N]) as [|d0 l0] eqn:Happ.
    { apply app_eq_nil in Happ as [_ Happ]. discriminate. }
    rewrite <- Happ. cbn [PyFloat.scan_exponent length]. f_equal. f_equal.
    change [(b / 10)%N; (b mod 10)%N] with ([(b / 10)%N] ++ [(b mod 10)%N]).
    rewrite app_assoc, !digits_value_snoc, Hval.
    pose proof (N.div_mod b 10 ltac:(lia)). lia. }
  now rewrite Hnum.
Qed.

Lemma hundredths_split h : ((h / 100) * 100 + h mod 100 = h)%N /\ (h mod 100 < 100)%N.
Proof.
  split; [|apply N.mod_lt; lia].
  pose proof (N.div_mod h 100 ltac:(lia)). lia.
Qed.

(** Formatting a value and parsing the text gives the value rounded to two
    decimals. *)
Lemma parse_format_two_decimals q :
  parse_storage_value (format_storage_gb (Some q) "UNLIMITED") = Ok (Some (two_decimals q)).
Proof.
  destruct q as [[]|[]| |s m e];
    [vm_compute; reflexivity | vm_compute; reflexivity | vm_compute; reflexivity
    |vm_compute; reflexivity | vm_compute; reflexivity | ].
  unfold format_storage_gb, PyFloat.format_2f, two_decimals.
  destruct (hundredths_split (PyFloat.hundredths m e)) as [Hh Hb].
  set (h := PyFloat.hundredths m e) in *.
  pose proof (two_decimals_text_plain s (h / 100) (h mod 100) Hb) as Hplain.
  apply (all_chars_impl _ _ _ plain_char_numeral) in Hplain.
  destruct (parse_storage_value_units _ Hplain) as [-> _].
  rewrite (of_string_two_decimals s (h / 100) (h mod 100) Hb), Hh.
  reflexivity.
Qed.

(** C6 (as amended). The unlimited value formats to 'UNLIMITED', which parses
    back to the unlimited value. A value [q] formats to its two-decimal text
    followed by G, and that text parses to [q] rounded to two decimals: the
    round trip gives back [q] exactly when [q] is unchanged by that rounding
    (as 50.0, 2.0 and 1024.0 are). When parsing, a number followed by G is
    taken unchanged, by M is divided by 1024, by T is multiplied by 1024, and
    a bare number is a byte count divided by 1024 cubed. *)
Theorem parse_format_round_trip (q : PyFloat.float) :
  format_storage_gb None "UNLIMITED" = "UNLIMITED"
  /\ parse_storage_value (format_storage_gb None "UNLIMITED") = Ok None
  /\ format_storage_gb (Some q) "UNLIMITED" = PyFloat.format_2f q +:+ "G"
  /\ parse_storage_value (format_storage_gb (Some q) "UNLIMITED")
     = Ok (Some (two_decimals q))
  /\ (parse_storage_value (format_storage_gb (Some q) "UNLIMITED") = Ok (Some q)
      <-> two_decimals q = q)
  /\ two_decimals (PyFloat.of_Z 50) = PyFloat.of_Z 50
  /\ two_decimals (PyFloat.of_Z 2) = PyFloat.of_Z 2
  /\ two_decimals (PyFloat.of_Z 1024) = PyFloat.of_Z 1024
  /\ (forall n, all_chars is_numeral_char n = true ->
        parse_storage_value (n +:+ "G")
          = scaled_or_unlimited (fun v => v) (PyFloat.of_string n)
        /\ parse_storage_value (n +:+ "M")
          = scaled_or_unlimited (fun v => PyFloat.div v float_1024) (PyFloat.of_string n)
        /\ parse_storage_value (n +:+ "T")
          = scaled_or_unlimited (fun v => PyFloat.mul v float_1024) (PyFloat.of_string n)
        /\ (n <> "" ->
            parse_storage_value n
            = scaled_or_unlimited (fun v => PyFloat.div v float_1024_cubed)
                                  (PyFloat.of_string n))).
Proof.
  split; [reflexivity|]. split; [reflexivity|]. split; [reflexivity|].
  split; [apply parse_format_two_decimals|].
  split.
  { rewrite parse_format_two_decimals. split; [intros [= H]; exact H|now intros ->]. }
  split; [vm_compute; reflexivity|].
  split; [vm_compute; reflexivity|].
  split; [vm_compute; reflexivity|].
  intros n Hn. apply parse_storage_value_units, Hn.
Qed.

(** C6 as stated fails: one eighth, 0.125, formats to '0.12G', which parses
    to 0.12. *)
Lemma parse_format_not_inverse :
  ~ (forall q, PyFloat.is_finite q = true ->
       parse_storage_value (format_storage_gb (Some q) "UNLIMITED") = Ok (Some q)).
Proof.
  intros H. specialize (H float_one_eighth eq_refl).
  vm_compute in H. discriminate H.
Qed.

Example format_one_eighth : format_storage_gb (Some float_one_eighth) "UNLIMITED" = "0.12G".
Proof. vm_compute. reflexivity. Qed.

Example method2_text_is_method1 : plsql_block_method2 = plsql_block_method1.
Proof. reflexivity. Qed.

(** ** The resolver of DBMS_PDB.DESCRIBE *)

Section Resolver.

Context {S : Type} `{Environment S}.
Variable params : clone_params.


Lemma perform_trace (c : call) handling (w : world S) r w' :
  perform c handling w = (r, w') -> calls w' = calls w ++ [c].
Proof.
  unfold perform. destruct (respond c (env w)) as [[rep|e] s']; now intros [= <- <-].
Qed.


Lemma cursor_execute_trace (c : cursor) statement binds handling (w : world S) r w' :
  cursor_execute c statement binds handling w = (r, w') ->
  calls w' = calls w ++ [Execute c statement binds].
Proof.
  unfold cursor_execute, bind_M.
  destruct (perform (Execute c statement binds) handling w) as [[rep|e] w1] eqn:Hp;
    apply perform_trace in Hp.
  - destruct rep; unfold ret, raise; intros [= <- <-]; exact Hp.
  - intros [= <- <-]. exact Hp.
Qed.



(** The nested [try] blocks, read as the strategies in order. *)
Lemma try_attempt i handling (w : world S) :
  (1 <= i)%nat ->
  bind_M (cursor_var SourceCursor)
    (fun _ => bind_M (cursor_execute SourceCursor (nth i describe_blocks "")
                        (describe_binds params))
                     (fun xml => ret (true, xml))) handling w
  = match attempt params i handling w with
    | (Ok xml, w') => (Ok (true, xml), w')
    | (Raise e, w') => (Raise e, w')
    end.
Proof.
  intros Hi. destruct i as [|i]; [lia|]. cbn [attempt]. unfold bind_M.
  destruct (cursor_var SourceCursor handling w) as [[[]|e] w1]; [|reflexivity].
  destruct (cursor_execute _ _ _ handling w1) as [[xml|e] w2]; reflexivity.
Qed.

Lemma describe_attempts_unfold handling (w : world S) :
  describe_attempts params handling w =
  match attempt params 0 handling w with
  | (Ok xml, w') => (Ok (true, xml), w')
  | (Raise e1, w1) =>
      match attempt params 1 (Some e1) w1 with
      | (Ok xml, w') => (Ok (true, xml), w')
      | (Raise e2, w2) =>
          match attempt params 2 (Some e2) w2 with
          | (Ok xml, w') => (Ok (true, xml), w')
          | (Raise e3, w3) =>
              match attempt params 3 (Some e3) w3 with
              | (Ok xml, w') => (Ok (true, xml), w')
              | (Raise e4, w4) =>
                  (Raise (PyExn Exception_ "ALL_METHODS_FAILED_FILE_BASED_ONLY"
                                (Some e4)), w4)
              end
          end
      end
  end.
Proof.
  unfold describe_attempts, try_except.
  change plsql_block_method4 with (nth 3 describe_blocks "").
  change plsql_block_method3 with (nth 2 describe_blocks "").
  change plsql_block_method2 with (nth 1 describe_blocks "") at 1.
  change (attempt params 0 handling w)
    with (cursor_execute SourceCursor plsql_block_method1 (describe_binds params)
            handling w).
  unfold bind_M at 1.
  destruct (cursor_execute SourceCursor plsql_block_method1
              (describe_binds params) handling w) as [[xml|e1] w1]; [reflexivity|].
  rewrite try_attempt by lia.
  destruct (attempt params 1 (Some e1) w1) as [[xml|e2] w2]; [reflexivity|].
  rewrite try_attempt by lia.
  destruct (attempt params 2 (Some e2) w2) as [[xml|e3] w3]; [reflexivity|].
  rewrite try_attempt by lia.
  destruct (attempt params 3 (Some e3) w3) as [[xml|e4] w4]; reflexivity.
Qed.

Lemma describe_after_var handling (w w0 : world S) :
  cursor_var SourceCursor handling w = (Ok tt, w0) ->
  describe params handling w =
  match describe_attempts params handling w0 with
  | (Ok (true, xml), w') => (Ok xml, w')
  | (Ok (false, _), w') =>
      (Raise (with_context handling
                (PyExn Exception_ "All DBMS_PDB.DESCRIBE methods failed" None)), w')
  | (Raise e, w') => (Raise e, w')
  end.
Proof.
  intros Hv. unfold describe, bind_M. rewrite Hv.
  destruct (describe_attempts params handling w0) as [[[[] xml]|e] w']; reflexivity.
Qed.


(** The nested [try] blocks end in one of two ways. *)
Lemma describe_attempts_outcome handling (w0 : world S) :
  (exists xml w', describe_attempts params handling w0 = (Ok (true, xml), w')
                  /\ failed_attempts params 4 0 handling w0 = None)
  \/ (exists last w4,
        failed_attempts params 4 0 handling w0 = Some (Some last, w4)
        /\ describe_attempts params handling w0
           = (Raise (PyExn Exception_ "ALL_METHODS_FAILED_FILE_BASED_ONLY" (Some last)),
              w4)).
Proof.
  rewrite describe_attempts_unfold. cbn [failed_attempts].
  destruct (attempt params 0 handling w0) as [[?|e1] w1]; [left; eauto|].
  destruct (attempt params 1 (Some e1) w1) as [[?|e2] w2]; [left; eauto|].
  destruct (attempt params 2 (Some e2) w2) as [[?|e3] w3]; [left; eauto|].
  destruct (attempt params 3 (Some e3) w3) as [[?|e4] w4]; [left; eauto|].
  right. eauto.
Qed.

Lemma bind_M_Ok {A B} (m : M S A) (k : A -> M S B) handling (w : world S) r w' :
  bind_M m k handling w = (Ok r, w') ->
  exists v w1, m handling w = (Ok v, w1) /\ k v handling w1 = (Ok r, w').
Proof.
  unfold bind_M. destruct (m handling w) as [[v|e] w1]; [eauto|discriminate].
Qed.

Lemma plug_compatibility_check_total handling (w : world S) :
  exists r w', plug_compatibility_check params handling w = (Ok r, w')
               /\ check r = "DBMS_PDB Plug Compatibility".
Proof.
  unfold plug_compatibility_check, try_except.
  destruct ((before_describe;;; xml_clob <- describe params;;
             after_describe params xml_clob)%py handling w) as [[r|e] w'] eqn:Hbody.
  - exists r, w'. split; [reflexivity|].
    unfold after_describe in Hbody.
    repeat (apply bind_M_Ok in Hbody as (? & ? & _ & Hbody)).
    unfold ret in Hbody. now injection Hbody as <- <-.
  - unfold plug_compatibility_handler.
    destruct (_ || _); unfold ret; eexists _, _; split; reflexivity.
Qed.

(** C4. Given that the check reaches the resolver, the resolver raises
    when and only when its four strategies all fail; what it raises then is
    the exception ALL_METHODS_FAILED_FILE_BASED_ONLY, with the failure of
    the last strategy as its context; the precheck catches it, records the
    plug compatibility check as SKIPPED and goes on with the gathering of
    the parameters, from which it returns as that gathering does. Whatever
    happens in the check, it ends with one entry and never raises. *)
Theorem describe_unavailable_is_skipped
    (validation_results : list validation_result) (source_data target_data : gathered)
    handling (w w1 w0 : world S) :
  before_describe handling w = (Ok tt, w1) ->
  cursor_var SourceCursor handling w1 = (Ok tt, w0) ->
  let unavailable last :=
    PyExn Exception_ "ALL_METHODS_FAILED_FILE_BASED_ONLY" (Some last) in
  let skipped :=
    ValidationResult "DBMS_PDB Plug Compatibility" "SKIPPED" "N/A"
      "File-based only (requires manual check)" None in
  ((exists e w2, describe params handling w1 = (Raise e, w2))
   <-> (exists last w4, failed_attempts params 4 0 handling w0 = Some (Some last, w4)))
  /\ (forall last w4,
        failed_attempts params 4 0 handling w0 = Some (Some last, w4) ->
        describe params handling w1 = (Raise (unavailable last), w4)
        /\ plug_compatibility_check params handling w = (Ok skipped, w4)
        /\ perform_pdb_precheck_from_check_10 params validation_results
             source_data target_data handling w
           = gather_parameters params (validation_results ++ [skipped])
               source_data target_data handling w4)
  /\ (forall handling2 (w2 : world S),
        exists r w3, plug_compatibility_check params handling2 w2 = (Ok r, w3)
                     /\ check r = "DBMS_PDB Plug Compatibility").
Proof.
  intros Hbefore Hv unavailable skipped.
  assert (Hall : forall last w4,
    failed_attempts params 4 0 handling w0 = Some (Some last, w4) ->
    describe params handling w1 = (Raise (unavailable last), w4)).
  { intros last w4 Hfail. rewrite (describe_after_var _ _ _ Hv).
    destruct (describe_attempts_outcome handling w0)
      as [(xml & w' & _ & Hnone)|(last' & w4' & Hfail' & ->)]; [congruence|].
    rewrite Hfail in Hfail'. now injection Hfail' as <- <-. }
  split; [|split].
  - split.
    + intros (e & w' & Hraise). rewrite (describe_after_var _ _ _ Hv) in Hraise.
      destruct (describe_attempts_outcome handling w0)
        as [(xml & w2 & Hok & _)|(last & w4 & Hfail & _)]; [|eauto].
      rewrite Hok in Hraise. discriminate.
    + intros (last & w4 & Hfail). eauto.
  - intros last w4 Hfail. pose proof (Hall last w4 Hfail) as Hd.
    assert (Hcheck : plug_compatibility_check params handling w = (Ok skipped, w4)).
    { unfold plug_compatibility_check, try_except, bind_M.
      rewrite Hbefore, Hd. reflexivity. }
    split; [exact Hd|]. split; [exact Hcheck|].
    unfold perform_pdb_precheck_from_check_10, bind_M. now rewrite Hcheck.
  - intros handling2 w2. apply plug_compatibility_check_total.
Qed.

End Resolver.


(** On a server that has only the file form of DESCRIBE, and on which the
    file cannot be opened, the four methods fail and the precheck goes on. *)
Lemma describe_unavailable_is_skipped_witness :
  let w := World Oracle.file_only_server [] in
  exists results source_data target_data w',
    perform_pdb_precheck_from_check_10 Oracle.sales_clone []
      (Gathered None [] []) (Gathered (Some "READ WRITE") [] []) None w
    = (Ok (results, source_data, target_data), w')
    /\ map status results = ["SKIPPED"].
Proof.
  intros w.
  edestruct (describe_unavailable_is_skipped Oracle.sales_clone []
               (Gathered None [] []) (Gathered (Some "READ WRITE") [] []) None w)
    as (_ & Hskip & _).
  - vm_compute. reflexivity.
  - vm_compute. reflexivity.
  - edestruct Hskip as (_ & _ & ->); [vm_compute; reflexivity|].
    eexists _, _, _, _. split; vm_compute; reflexivity.
Defined.

(** ** The temporary file of method 4 *)

(** When the block of method 4 ends normally, the file is gone. *)
Lemma method4_success_removes_file sv r sv' :
  Oracle.run_method4_block sv = (Ok r, sv') ->
  Oracle.describe_filename sv ∉ Oracle.data_pump_dir sv'.
Proof.
  unfold Oracle.run_method4_block. cbn.
  repeat match goal with
         | |- context [Oracle.failing sv ?b] => destruct (Oracle.failing sv b)
         | |- context [Oracle.read_lines ?a ?b ?c] => destruct (Oracle.read_lines a b c)
         end; try discriminate.
  intros [= _ <-]. cbn. rewrite list_elem_of_In, filter_In.
  intros [_ Hne]. apply negb_true_iff, String.eqb_neq in Hne. now apply Hne.
Qed.

(** When DESCRIBE itself fails, no file was made. *)
Lemma method4_describe_failure_makes_no_file sv err :
  Oracle.failing sv Oracle.DBMS_PDB_DESCRIBE = Some err ->
  Oracle.run_method4_block sv = (Raise (Oracle.ora_error err), sv).
Proof. unfold Oracle.run_method4_block. now intros ->. Qed.

(** When DESCRIBE has written the file and a later built-in fails, the
    block ends before UTL_FILE.FREMOVE and the file stays. *)
Lemma method4_late_failure_leaves_file sv e sv' :
  Oracle.failing sv Oracle.DBMS_PDB_DESCRIBE = None ->
  Oracle.run_method4_block sv = (Raise e, sv') ->
  Oracle.describe_filename sv ∈ Oracle.data_pump_dir sv'.
Proof.
  unfold Oracle.run_method4_block. cbn. intros ->.
  repeat match goal with
         | |- context [Oracle.failing sv ?b] => destruct (Oracle.failing sv b)
         | |- context [Oracle.read_lines ?a ?b ?c] => destruct (Oracle.read_lines a b c)
         end; try discriminate;
    intros [= _ <-]; cbn; apply elem_of_app; right; apply list_elem_of_here.
Qed.

(** C8, on the code. A server that offers only the file form of DESCRIBE
    and refuses to open the file: the four methods fail, the resolver raises
    ALL_METHODS_FAILED_FILE_BASED_ONLY, and the file that DESCRIBE wrote is
    still in DATA_PUMP_DIR when the resolver, and the whole precheck, have
    returned. *)
Theorem describe_leaves_file_behind :
  let w := World Oracle.file_only_server [] in
  Oracle.data_pump_dir (env w) = []
  /\ (exists e w',
        describe Oracle.sales_clone None w = (Raise e, w')
        /\ str_exn e = "ALL_METHODS_FAILED_FILE_BASED_ONLY"
        /\ Oracle.data_pump_dir (env w') = ["pdb_describe_20240101120000.xml"])
  /\ (exists results w',
        perform_pdb_precheck_from_check_10 Oracle.sales_clone []
          (Gathered None [] []) (Gathered (Some "READ WRITE") [] []) None w
        = (Ok results, w')
        /\ Oracle.data_pump_dir (env w') = ["pdb_describe_20240101120000.xml"]).
Proof.
  split; [reflexivity|]. split.
  - eexists _, _. split; [vm_compute; reflexivity|]. split; reflexivity.
  - eexists _, _. split; [vm_compute; reflexivity|]. reflexivity.
Qed.

(** On a server where every built-in of the file form works, method 4
    gives the description and leaves no file. *)
Example describe_by_file_cleans_up :
  let w := World Oracle.file_form_server [] in
  exists xml w',
    describe Oracle.sales_clone None w = (Ok (Some xml), w')
    /\ Oracle.data_pump_dir (env w') = []
    /\ source_statements (calls w') = describe_blocks.
Proof. eexists _, _. split; [vm_compute; reflexivity|]. split; reflexivity. Qed.

(** ** Runs: what a computation calls and what it returns *)

Section RunLemmas.

Context {S : Type} `{Environment S}.

Lemma makes_only_ret {A} (P : call -> Prop) (v : A) : makes_only P (ret v : M S A).
Proof.
  intros handling w r w' [= <- <-]. exists []. now rewrite app_nil_r.
Qed.

Lemma makes_only_raise {A} (P : call -> Prop) e : makes_only P (raise e : M S A).
Proof.
  intros handling w r w' [= <- <-]. exists []. now rewrite app_nil_r.
Qed.

Lemma makes_only_lift {A} (P : call -> Prop) (r : outcome A) :
  makes_only P (lift r : M S A).
Proof. destruct r; [apply makes_only_ret|apply makes_only_raise]. Qed.

Lemma makes_only_perform (P : call -> Prop) c : P c -> makes_only P (perform c).
Proof.
  intros Hc handling w r w' Hrun. apply perform_trace in Hrun.
  exists [c]. split; [exact Hrun|]. now constructor.
Qed.

Lemma makes_only_bind {A B} (P : call -> Prop) (m : M S A) (k : A -> M S B) :
  makes_only P m -> (forall v, makes_only P (k v)) -> makes_only P (bind_M m k).
Proof.
  intros Hm Hk handling w r w'. unfold bind_M.
  destruct (m handling w) as [[v|e] w1] eqn:Hrun;
    destruct (Hm _ _ _ _ Hrun) as (new1 & Hc1 & HP1).
  - intros Hrest. destruct (Hk v _ _ _ _ Hrest) as (new2 & Hc2 & HP2).
    exists (new1 ++ new2). split.
    + now rewrite Hc2, Hc1, <- app_assoc.
    + now apply Forall_app.
  - intros [= <- <-]. now exists new1.
Qed.

Lemma makes_only_try {A} (P : call -> Prop) (m : M S A) (handler : py_exn -> M S A) :
  makes_only P m -> (forall e, makes_only P (handler e)) ->
  makes_only P (try_except m handler).
Proof.
  intros Hm Hh handling w r w'. unfold try_except.
  destruct (m handling w) as [[v|e] w1] eqn:Hrun;
    destruct (Hm _ _ _ _ Hrun) as (new1 & Hc1 & HP1).
  - intros [= <- <-]. now exists new1.
  - intros Hrest. destruct (Hh e _ _ _ _ Hrest) as (new2 & Hc2 & HP2).
    exists (new1 ++ new2). split.
    + now rewrite Hc2, Hc1, <- app_assoc.
    + now apply Forall_app.
Qed.

Lemma makes_only_weaken {A} (P Q : call -> Prop) (m : M S A) :
  (forall c, P c -> Q c) -> makes_only P m -> makes_only Q m.
Proof.
  intros HPQ Hm handling w r w' Hrun.
  destruct (Hm _ _ _ _ Hrun) as (new & Hc & HP).
  exists new. split; [exact Hc|]. eapply Forall_impl; eauto.
Qed.

Lemma makes_only_first_columns (P : call -> Prop) rows :
  makes_only P (first_columns rows : M S _).
Proof.
  induction rows as [|[|c r] rows IH]; cbn [first_columns].
  - apply makes_only_ret.
  - apply makes_only_raise.
  - apply makes_only_bind; [exact IH|]. intros cs. apply makes_only_ret.
Qed.

Lemma returns_ret {A} (Q : A -> Prop) (v : A) : Q v -> returns Q (ret v : M S A).
Proof. now intros HQ handling w v' w' [= <- <-]. Qed.

Lemma returns_raise {A} (Q : A -> Prop) e : returns Q (raise e : M S A).
Proof. intros handling w v' w'. discriminate. Qed.

Lemma returns_bind {A B} (Q1 : A -> Prop) (Q : B -> Prop) (m : M S A) (k : A -> M S B) :
  returns Q1 m -> (forall v, Q1 v -> returns Q (k v)) -> returns Q (bind_M m k).
Proof.
  intros Hm Hk handling w r w' Hrun.
  apply bind_M_Ok in Hrun as (v & w1 & Hrun1 & Hrun2).
  eapply Hk; [|exact Hrun2]. eapply Hm, Hrun1.
Qed.

Lemma returns_anything {A} (m : M S A) : returns (fun _ => True) m.
Proof. now intros handling w v w' _. Qed.

Lemma returns_try {A} (Q : A -> Prop) (m : M S A) (handler : py_exn -> M S A) :
  returns Q m -> (forall e, returns Q (handler e)) -> returns Q (try_except m handler).
Proof.
  intros Hm Hh handling w v w'. unfold try_except.
  destruct (m handling w) as [[v1|e] w1] eqn:Hrun.
  - intros [= <- <-]. eapply Hm, Hrun.
  - apply Hh.
Qed.

(** A [try] whose handler returns lets no exception out. *)
Lemma try_except_returns {A} (m : M S A) (handler : py_exn -> A) handling w :
  exists v w', try_except m (fun e => ret (handler e)) handling w = (Ok v, w').
Proof.
  unfold try_except. destruct (m handling w) as [[v|e] w1]; unfold ret; eauto.
Qed.

End RunLemmas.

(** One step through a computation: its calls are those of its parts. *)
Ltac makes_only_step :=
  lazymatch goal with
  | |- makes_only _ (bind_M _ _) => apply makes_only_bind; [|intros ?]
  | |- makes_only _ (try_except _ _) => apply makes_only_try; [|intros ?]
  | |- makes_only _ (ret _) => apply makes_only_ret
  | |- makes_only _ (raise _) => apply makes_only_raise
  | |- makes_only _ (lift _) => apply makes_only_lift
  | |- makes_only _ (first_columns _) => apply makes_only_first_columns
  | |- makes_only _ (perform _) => apply makes_only_perform
  | |- makes_only _ (match ?x with _ => _ end) => destruct x
  | |- makes_only _ (unit_call _) => unfold unit_call
  | |- makes_only _ (cursor_var _) => unfold cursor_var
  | |- makes_only _ (cursor_execute _ _ _) => unfold cursor_execute
  | |- makes_only _ (cursor_fetchone _) => unfold cursor_fetchone
  | |- makes_only _ (cursor_fetchall _) => unfold cursor_fetchall
  | |- makes_only _ clock_now => unfold clock_now
  | |- makes_only _ (query_one _ _) => unfold query_one
  | |- makes_only _ (read_both _ _) => unfold read_both
  | |- makes_only _ (subscript _ _) => unfold subscript
  | |- makes_only _ (first_column _) => unfold first_column
  | |- makes_only _ (size_or_zero _) => unfold size_or_zero
  end.

(** The parts of [perform_pdb_precheck]. *)
Ltac precheck_parts :=
  unfold perform_pdb_precheck, connect_to_both_cdbs, gather_instances,
    gather_pdb_sizes, check_version, check_charset, check_registry,
    check_source_pdb_status, check_target_pdb_status, check_tde, check_undo_mode,
    check_max_string_size, check_timezone, check_max_pdb_storage, read_source_limit,
    read_target_limit, perform_pdb_precheck_from_check_10, plug_compatibility_check,
    before_describe, describe, describe_attempts, after_describe,
    plug_compatibility_handler, gather_parameters, gather_source_pdb_parameters,
    gather_target_pdb_parameters.

(** The statements are compared as texts. *)
Ltac literal :=
  split; [|cbn]; apply (bool_decide_unpack _); vm_compute; exact I.

(** One step through a computation: what it returns is what its last
    part returns. *)
Ltac returns_step :=
  lazymatch goal with
  | |- returns _ (bind_M _ _) => eapply returns_bind; [apply returns_anything|intros ? _]
  | |- returns _ (try_except _ _) => apply returns_try; [|intros ?]
  | |- returns _ (ret _) => apply returns_ret
  | |- returns _ (raise _) => apply returns_raise
  | |- returns _ (match ?x with _ => _ end) => destruct x
  end.

(** The entry of a check that is decided: its name, and PASS or FAILED. *)
Ltac decided_entry :=
  cbn; split; [reflexivity|];
  try match goal with |- context [if ?b then _ else _] => destruct b end;
  auto.

Lemma not_elem_of_removelast {A} (x : A) (l : list A) : x ∉ l -> x ∉ removelast l.
Proof.
  intros Hx Hin. apply Hx. apply list_elem_of_In. apply list_elem_of_In in Hin.
  destruct l as [|y l]; [exact Hin|].
  assert (Hne : y :: l <> []) by discriminate.
  rewrite (app_removelast_last y Hne). apply in_or_app. now left.
Qed.

Section PrecheckRuns.

Context {S : Type} `{Environment S}.
Variable params : clone_params.
Variable repr_number : PyFloat.float -> string.

(** *** The statements *)

Lemma precheck_executes_literals :
  makes_only executes_a_literal (perform_pdb_precheck params repr_number).
Proof.
  precheck_parts.
  repeat makes_only_step; try exact I; literal.
Qed.

(** X5. Whatever the parameters and however the run ends, every statement
    the precheck executes is one of the literals of the source: no statement
    text is built from [params]. The names of the PDBs and the XML reach the
    database as bind values only, under the names [pdb_name] and
    [xml_input]. *)
Theorem precheck_executes_only_literals handling (w : world S) r w' :
  perform_pdb_precheck params repr_number handling w = (r, w') ->
  exists new, calls w' = calls w ++ new /\ Forall executes_a_literal new.
Proof. apply precheck_executes_literals. Qed.

(** *** The checklist *)

Lemma check_version_entry :
  returns (fun v => check v.1.1 = "Database Version and Patch Level"
                    /\ (status v.1.1 = "PASS" \/ status v.1.1 = "FAILED"))
          (check_version (S := S)).
Proof. unfold check_version. repeat returns_step. decided_entry. Qed.

Lemma check_charset_entry :
  returns (fun v => check v.1.1 = "Character Set Compatibility"
                    /\ (status v.1.1 = "PASS" \/ status v.1.1 = "FAILED"))
          (check_charset (S := S)).
Proof. unfold check_charset. repeat returns_step. decided_entry. Qed.

Lemma check_registry_entry :
  returns (fun v => check v.1.1 = "DB Registry Components"
                    /\ (status v.1.1 = "PASS" \/ status v.1.1 = "FAILED"))
          (check_registry (S := S)).
Proof. unfold check_registry. repeat returns_step. decided_entry. Qed.

Lemma check_source_pdb_status_entry :
  returns (fun v => check v.1 = "Source PDB Open Status"
                    /\ (status v.1 = "PASS" \/ status v.1 = "FAILED"))
          (check_source_pdb_status params).
Proof. unfold check_source_pdb_status. repeat returns_step; decided_entry. Qed.

Lemma check_target_pdb_status_entry :
  returns (fun v => check v.1 = "Target PDB Does Exist" /\ status v.1 = "PASS")
          (check_target_pdb_status params).
Proof.
  unfold check_target_pdb_status. repeat returns_step; split; reflexivity.
Qed.

Lemma check_tde_entry :
  returns (fun v => check v.1.1 = "TDE Configuration Method"
                    /\ (status v.1.1 = "PASS" \/ status v.1.1 = "FAILED"))
          (check_tde (S := S)).
Proof. unfold check_tde. repeat returns_step. decided_entry. Qed.

Lemma check_undo_mode_entry :
  returns (fun v => check v.1.1 = "Local Undo Mode"
                    /\ (status v.1.1 = "PASS" \/ status v.1.1 = "FAILED"))
          (check_undo_mode (S := S)).
Proof. unfold check_undo_mode. repeat returns_step. decided_entry. Qed.

Lemma check_max_string_size_entry :
  returns (fun v => check v.1.1 = "MAX_STRING_SIZE Compatibility"
                    /\ (status v.1.1 = "PASS" \/ status v.1.1 = "FAILED"))
          (check_max_string_size (S := S)).
Proof. unfold check_max_string_size. repeat returns_step. decided_entry. Qed.

Lemma check_timezone_entry :
  returns (fun v => check v.1.1 = "Timezone Setting Compatibility"
                    /\ (status v.1.1 = "PASS" \/ status v.1.1 = "FAILED"))
          (check_timezone (S := S)).
Proof. unfold check_timezone. repeat returns_step. decided_entry. Qed.

Lemma check_max_pdb_storage_entry size mode :
  returns (fun v => check v.1 = "MAX_PDB_STORAGE Limit"
                    /\ (status v.1 = "PASS" \/ status v.1 = "FAILED"
                        \/ status v.1 = "SKIPPED"))
          (check_max_pdb_storage params repr_number size mode).
Proof.
  unfold check_max_pdb_storage. repeat returns_step.
  - cbn. split; [reflexivity|]. destruct (compare_with_source_size _ _ _ _).1; auto.
  - cbn. auto.
Qed.

Lemma plug_compatibility_check_entry :
  returns (fun r => check r = "DBMS_PDB Plug Compatibility"
                    /\ (status r = "PASS" \/ status r = "FAILED"
                        \/ status r = "SKIPPED"))
          (plug_compatibility_check params).
Proof.
  unfold plug_compatibility_check, after_describe, plug_compatibility_handler.
  repeat returns_step; cbn; (split; [reflexivity|]); auto.
  all: destruct (bool_decide _); auto.
Qed.

(** The gathering hands the entries on as they are, and keeps
    ['pdb_mode']. *)
Lemma gather_parameters_keeps validation_results source_data target_data :
  returns (fun r => r.1.1 = validation_results
                    /\ pdb_mode r.1.2 = pdb_mode source_data
                    /\ pdb_mode r.2 = pdb_mode target_data)
          (gather_parameters params validation_results source_data target_data).
Proof. unfold gather_parameters. repeat returns_step. cbn. auto. Qed.

Lemma from_check_10_entries validation_results source_data target_data :
  returns (fun r => (exists c10, r.1.1 = validation_results ++ [c10]
                       /\ check c10 = "DBMS_PDB Plug Compatibility"
                       /\ (status c10 = "PASS" \/ status c10 = "FAILED"
                           \/ status c10 = "SKIPPED"))
                    /\ pdb_mode r.2 = pdb_mode target_data)
          (perform_pdb_precheck_from_check_10 params validation_results
             source_data target_data).
Proof.
  unfold perform_pdb_precheck_from_check_10.
  eapply returns_bind; [apply plug_compatibility_check_entry|].
  intros c10 [Hname Hstatus] handling w r w' Hrun.
  apply gather_parameters_keeps in Hrun as (Hentries & _ & Hmode).
  split; [|exact Hmode]. exists c10. auto.
Qed.

(** X1. A precheck that returns hands back eleven entries, named as the
    checklist of the report and in its order; each is PASS or FAILED, but
    the MAX_PDB_STORAGE and plug compatibility checks, which may also be
    SKIPPED; and the entry on the existence of the target PDB is always
    PASS. *)
Theorem precheck_checklist_shape handling (w : world S) results source_data
    target_data w' :
  perform_pdb_precheck params repr_number handling w
  = (Ok (results, source_data, target_data), w') ->
  map check results = precheck_checklist
  /\ (forall r, r ∈ results ->
        status r = "PASS" \/ status r = "FAILED"
        \/ (status r = "SKIPPED"
            /\ (check r = "MAX_PDB_STORAGE Limit"
                \/ check r = "DBMS_PDB Plug Compatibility")))
  /\ (forall r, r ∈ results -> check r = "Target PDB Does Exist" -> status r = "PASS").
Proof.
  intros Hrun.
  enough (Hshape : returns
            (fun v => map check v.1.1 = precheck_checklist
               /\ (forall r, r ∈ v.1.1 ->
                     status r = "PASS" \/ status r = "FAILED"
                     \/ (status r = "SKIPPED"
                         /\ (check r = "MAX_PDB_STORAGE Limit"
                             \/ check r = "DBMS_PDB Plug Compatibility")))
               /\ (forall r, r ∈ v.1.1 -> check r = "Target PDB Does Exist" ->
                     status r = "PASS"))
            (perform_pdb_precheck params repr_number))
    by exact (Hshape _ _ _ _ Hrun).
  clear. unfold perform_pdb_precheck.
  do 3 (eapply returns_bind; [apply returns_anything|intros ? _]).
  eapply returns_bind; [apply check_version_entry|intros c1 [N1 S1]].
  eapply returns_bind; [apply check_charset_entry|intros c2 [N2 S2]].
  eapply returns_bind; [apply check_registry_entry|intros c3 [N3 S3]].
  eapply returns_bind; [apply check_source_pdb_status_entry|intros c4 [N4 S4]].
  eapply returns_bind; [apply check_target_pdb_status_entry|intros c4b [N4b S4b]].
  eapply returns_bind; [apply check_tde_entry|intros c5 [N5 S5]].
  eapply returns_bind; [apply check_undo_mode_entry|intros c6 [N6 S6]].
  eapply returns_bind; [apply check_max_string_size_entry|intros c7 [N7 S7]].
  eapply returns_bind; [apply check_timezone_entry|intros c8 [N8 S8]].
  eapply returns_bind; [apply check_max_pdb_storage_entry|intros c9 [N9 S9]].
  eapply returns_bind; [apply from_check_10_entries|].
  intros r [(c10 & -> & N10 & S10) _].
  apply returns_ret. cbn [fst snd app map].
  split; [|split].
  - rewrite N1, N2, N3, N4, N4b, N5, N6, N7, N8, N9, N10. reflexivity.
  - intros entry Hin.
    repeat (apply elem_of_cons in Hin as [->|Hin]); [..|inversion Hin];
      try (rewrite S4b; now left);
      match goal with
      | Hs : status ?e = _ \/ status ?e = _ |- status ?e = _ \/ _ =>
          destruct Hs as [->| ->]; auto
      | Hs : status ?e = _ \/ status ?e = _ \/ status ?e = _ |- status ?e = _ \/ _ =>
          destruct Hs as [->|[->|Hs]]; auto
      end.
  - intros entry Hin Hname.
    repeat (apply elem_of_cons in Hin as [->|Hin]); [..|inversion Hin];
      try exact S4b;
      match goal with
      | Hn : check ?e = _, Hn' : check ?e = _ |- _ =>
          rewrite Hn in Hn'; discriminate
      end.
Qed.

(** *** The optional parts *)

(** X2. Check 9 never raises: whatever the databases do, it ends with one
    entry named MAX_PDB_STORAGE Limit. The entry is SKIPPED exactly when
    [target_data] gets no ['max_pdb_storage'] key, that is when something
    raised inside the check; and likewise the parameters of the two PDBs are
    gathered without ever raising. *)
Theorem optional_parts_never_raise size mode handling (w : world S) :
  (exists r limit w',
     check_max_pdb_storage params repr_number size mode handling w = (Ok (r, limit), w')
     /\ check r = "MAX_PDB_STORAGE Limit"
     /\ (status r = "SKIPPED" <-> limit = None))
  /\ (exists rows w', gather_source_pdb_parameters params handling w = (Ok rows, w'))
  /\ (exists rows w', gather_target_pdb_parameters params handling w = (Ok rows, w')).
Proof.
  split; [|split].
  - unfold check_max_pdb_storage, try_except.
    match goal with
    | |- context [match ?body handling w with _ => _ end] =>
        destruct (body handling w) as [[[r limit]|e] w1] eqn:Hbody
    end.
    + exists r, limit, w1. split; [reflexivity|].
      repeat (apply bind_M_Ok in Hbody as (? & ? & _ & Hbody)).
      unfold ret in Hbody. injection Hbody as <- <- _.
      cbn. split; [reflexivity|].
      destruct (compare_with_source_size _ _ _ _).1; split; discriminate.
    + unfold ret. eexists _, _, _. split; [reflexivity|]. cbn. tauto.
  - apply try_except_returns.
  - apply try_except_returns.
Qed.

(** *** The target PDB *)

Lemma makes_only_when_bind {A B} (C : B -> Prop) (P : call -> Prop)
    (m : M S A) (k : A -> M S B) :
  makes_only P m -> (forall v, makes_only_when C P (k v)) ->
  makes_only_when C P (bind_M m k).
Proof.
  intros Hm Hk handling w r w' Hrun HC.
  apply bind_M_Ok in Hrun as (v & w1 & Hrun1 & Hrun2).
  destruct (Hm _ _ _ _ Hrun1) as (new1 & Hc1 & HP1).
  destruct (Hk v _ _ _ _ Hrun2 HC) as (new2 & Hc2 & HP2).
  exists (new1 ++ new2). split.
  - now rewrite Hc2, Hc1, <- app_assoc.
  - now apply Forall_app.
Qed.

Lemma makes_only_unconditionally {A} (C : A -> Prop) (P : call -> Prop) (m : M S A) :
  makes_only P m -> makes_only_when C P m.
Proof. intros Hm handling w v w' Hrun _. eapply Hm, Hrun. Qed.

Lemma makes_only_when_excluded {A} (C : A -> Prop) (P : call -> Prop) (m : M S A) :
  returns (fun v => ~ C v) m -> makes_only_when C P m.
Proof. intros Hm handling w v w' Hrun HC. now apply Hm in Hrun. Qed.

Lemma target_pdb_exists_pdb_mode (a b : gathered) :
  pdb_mode a = pdb_mode b -> target_pdb_exists a = target_pdb_exists b.
Proof. unfold target_pdb_exists. now intros ->. Qed.

Lemma gather_parameters_target validation_results source_data target_data :
  returns (fun r => target_pdb_exists r.2 = false -> pdb_parameters r.2 = [])
          (gather_parameters params validation_results source_data target_data).
Proof.
  unfold gather_parameters.
  do 5 (eapply returns_bind; [apply returns_anything|intros ? _]).
  eapply (returns_bind
            (fun rows => target_pdb_exists target_data = false -> rows = [])).
  - destruct (target_pdb_exists target_data).
    + now intros ? ? ? ? _.
    + now apply returns_ret.
  - intros rows Hrows. repeat returns_step. exact Hrows.
Qed.

Lemma precheck_target_parameters :
  returns (fun v => target_pdb_exists v.2.2 = false -> pdb_parameters v.2.2 = [])
          (perform_pdb_precheck params repr_number).
Proof.
  unfold perform_pdb_precheck, perform_pdb_precheck_from_check_10.
  do 13 (eapply returns_bind; [apply returns_anything|intros ? _]).
  eapply returns_bind.
  - eapply returns_bind; [apply returns_anything|intros ? _].
    apply gather_parameters_target.
  - intros r Hr. apply returns_ret. exact Hr.
Qed.

Lemma precheck_target_calls :
  makes_only_when (fun v => target_pdb_exists v.2.2 = false)
    (fun c => connection_of c <> Some TargetPdbConn)
    (perform_pdb_precheck params repr_number).
Proof.
  unfold perform_pdb_precheck.
  do 8 (apply makes_only_when_bind;
        [precheck_parts; repeat makes_only_step; discriminate|intros ?]).
  match goal with
  | v : validation_result * option string |- _ =>
      destruct (target_pdb_exists (Gathered v.2 [] [])) eqn:Hexists
  end.
  - apply makes_only_when_excluded.
    do 5 (eapply returns_bind; [apply returns_anything|intros ? _]).
    eapply returns_bind; [apply from_check_10_entries|].
    intros r [_ Hmode]. apply returns_ret. cbn [fst snd].
    rewrite (target_pdb_exists_pdb_mode _ _ Hmode), Hexists. discriminate.
  - apply makes_only_unconditionally.
    precheck_parts. rewrite Hexists.
    repeat makes_only_step; discriminate.
Qed.

(** X3. When the precheck finds no target PDB, it never goes to it: no
    connection to the target PDB is opened and no call is made on one, in
    check 9 as in the gathering of the parameters; and the list of the
    parameters of the target PDB is empty. *)
Theorem no_target_pdb_no_connection handling (w : world S) results source_data
    target_data w' :
  perform_pdb_precheck params repr_number handling w
  = (Ok (results, source_data, target_data), w') ->
  target_pdb_exists target_data.2 = false ->
  (exists new, calls w' = calls w ++ new
               /\ Forall (fun c => connection_of c <> Some TargetPdbConn) new)
  /\ pdb_parameters target_data.2 = [].
Proof.
  intros Hrun Hnone. split.
  - exact (precheck_target_calls _ _ _ _ Hrun Hnone).
  - exact (precheck_target_parameters _ _ _ _ Hrun Hnone).
Qed.

(** *** The end of the function *)

Lemma traces_bind {A B} (Q1 Q2 Q : bool -> list call -> Prop)
    (m : M S A) (k : A -> M S B) :
  traces Q1 m -> (forall v, traces Q2 (k v)) ->
  (forall t, Q1 false t -> Q false t) ->
  (forall b t1 t2, Q1 true t1 -> Q2 b t2 -> Q b (t1 ++ t2)) ->
  traces Q (bind_M m k).
Proof.
  intros Hm Hk Hfail Hseq handling w r w'. unfold bind_M.
  destruct (m handling w) as [[v|e] w1] eqn:Hrun;
    destruct (Hm _ _ _ _ Hrun) as (new1 & Hc1 & HQ1).
  - intros Hrest. destruct (Hk v _ _ _ _ Hrest) as (new2 & Hc2 & HQ2).
    exists (new1 ++ new2). split.
    + now rewrite Hc2, Hc1, <- app_assoc.
    + now apply Hseq.
  - intros [= <- <-]. exists new1. split; [exact Hc1|]. now apply Hfail.
Qed.

Lemma traces_of_makes_only {A} (P : call -> Prop) (m : M S A) :
  makes_only P m -> traces (fun _ t => Forall P t) m.
Proof. intros Hm handling w r w' Hrun. eapply Hm, Hrun. Qed.

Lemma traces_weaken_shape {A} (Q Q' : bool -> list call -> Prop) (m : M S A) :
  (forall b t, Q b t -> Q' b t) -> traces Q m -> traces Q' m.
Proof.
  intros HQ Hm handling w r w' Hrun.
  destruct (Hm _ _ _ _ Hrun) as (new & Hcalls & Hnew). eauto.
Qed.

Lemma traces_ret {A} (Q : bool -> list call -> Prop) (v : A) :
  Q true [] -> traces Q (ret v : M S A).
Proof.
  intros HQ handling w r w' [= <- <-]. exists []. now rewrite app_nil_r.
Qed.

Lemma traces_unit_call (c : call) : traces (fun _ t => t = [c]) (unit_call c).
Proof.
  intros handling w r w'. unfold unit_call, bind_M.
  destruct (perform c handling w) as [[rep|e] w1] eqn:Hp;
    apply perform_trace in Hp.
  - destruct rep; unfold ret, raise; intros [= <- <-]; eauto.
  - intros [= <- <-]. eauto.
Qed.

(** [c] first, then [k]. *)
Lemma traces_after_call {B} (Q : bool -> list call -> Prop) (c : call) (k : M S B) :
  Q false [c] -> traces (fun b t => Q b (c :: t)) k ->
  traces Q (bind_M (unit_call c) (fun _ => k)).
Proof.
  intros Hfail Hk.
  eapply traces_bind; [apply traces_unit_call|intros _; exact Hk|..].
  - now intros t ->.
  - now intros b t1 t2 ->.
Qed.

(** Calls that satisfy [P] first, then [k]. *)
Lemma traces_after {A B} (P : call -> Prop) (Q : bool -> list call -> Prop)
    (m : M S A) (k : A -> M S B) :
  makes_only P m -> (forall v, traces Q (k v)) ->
  (forall t, Forall P t -> Q false t) ->
  (forall b t1 t2, Forall P t1 -> Q b t2 -> Q b (t1 ++ t2)) ->
  traces Q (bind_M m k).
Proof.
  intros Hm Hk Hfail Hseq.
  eapply traces_bind; [apply traces_of_makes_only, Hm|exact Hk|..]; assumption.
Qed.

(** What is returned afterwards makes no call. *)
Lemma traces_then_ret {A B} (Q : bool -> list call -> Prop) (m : M S A) (f : A -> B) :
  traces Q m -> traces Q (bind_M m (fun v => ret (f v))).
Proof.
  intros Hm.
  eapply traces_bind; [exact Hm|intros v; apply (traces_ret (fun b t => b = true /\ t = []))|..].
  - now split.
  - auto.
  - intros b t1 t2 HQ [-> ->]. now rewrite app_nil_r.
Qed.

Lemma released_at_the_end_before t :
  Forall (fun c => c ∉ cdb_closes) t -> released_at_the_end false t.
Proof.
  intros Ht.
  assert (Hnot : forall c, c ∈ cdb_closes -> c ∉ removelast t).
  { intros c Hc. apply not_elem_of_removelast. intros Hin.
    rewrite Forall_forall in Ht. exact (Ht c Hin Hc). }
  split.
  - apply Hnot. unfold cdb_closes. set_solver.
  - intros Hin. exfalso. revert Hin. apply Hnot. unfold cdb_closes. set_solver.
Qed.

Lemma released_at_the_end_app b t1 t2 :
  Forall (fun c => c ∉ cdb_closes) t1 ->
  released_at_the_end b t2 -> released_at_the_end b (t1 ++ t2).
Proof.
  intros Ht1. destruct b; cbn.
  - intros (before & -> & Hbefore). exists (t1 ++ before).
    split; [now rewrite app_assoc|now apply Forall_app].
  - destruct t2 as [|c t2].
    + intros _. rewrite app_nil_r. now apply released_at_the_end_before.
    + assert (Hne : c :: t2 <> []) by discriminate.
      rewrite (removelast_app t1 Hne), last_app_cons.
      assert (Hnot : forall d, d ∈ cdb_closes -> d ∉ t1).
      { intros d Hd Hin. rewrite Forall_forall in Ht1. exact (Ht1 d Hin Hd). }
      intros [Htarget Hsource]. split.
      * rewrite elem_of_app. intros [Hin|Hin]; [|now apply Htarget].
        revert Hin. apply Hnot. unfold cdb_closes. set_solver.
      * rewrite elem_of_app. intros [Hin|Hin]; [|now apply Hsource].
        exfalso. revert Hin. apply Hnot. unfold cdb_closes. set_solver.
Qed.

(** A call that is none of the closing ones. *)
Ltac not_a_close :=
  let Hin := fresh "Hin" in
  intros Hin; unfold cdb_closes in Hin;
  repeat (apply elem_of_cons in Hin as [Hin|Hin]; [discriminate Hin|]);
  inversion Hin.

Lemma precheck_released_at_the_end :
  traces released_at_the_end (perform_pdb_precheck params repr_number).
Proof.
  unfold perform_pdb_precheck.
  do 13 (eapply (traces_after (fun c => c ∉ cdb_closes));
         [precheck_parts; repeat makes_only_step; not_a_close
         |intros ?
         |apply released_at_the_end_before
         |apply released_at_the_end_app]).
  apply traces_then_ret.
  unfold perform_pdb_precheck_from_check_10, gather_parameters.
  do 7 (eapply (traces_after (fun c => c ∉ cdb_closes));
        [precheck_parts; repeat makes_only_step; not_a_close
        |intros ?
        |apply released_at_the_end_before
        |apply released_at_the_end_app]).
  apply traces_after_call; [|apply traces_after_call; [|apply traces_after_call;
    [|apply traces_after_call; [|apply traces_ret]]]].
  - split; cbn; [not_a_close|]. intros Hin. inversion Hin.
  - split; cbn; [not_a_close|]. intros Hin.
    apply elem_of_cons in Hin as [Hin|Hin]; [discriminate|inversion Hin].
  - split; cbn; [not_a_close|]. intros Hin.
    repeat (apply elem_of_cons in Hin as [Hin|Hin]; [discriminate|]). inversion Hin.
  - split; cbn; [not_a_close|]. reflexivity.
  - exists []. split; [reflexivity|constructor].
Qed.

(** X4. The precheck releases the two CDBs at its very end and nowhere
    else. A run that returns ends with the four closing calls (source
    cursor, target cursor, source connection, target connection) and makes
    none of them before. A run that raises never closed the target CDB
    connection, and closed the source one only if closing the target is
    what raised: a failure anywhere before leaves both connections open. *)
Theorem precheck_releases_at_the_end handling (w : world S) r w' :
  perform_pdb_precheck params repr_number handling w = (r, w') ->
  exists new, calls w' = calls w ++ new /\ released_at_the_end (returned r) new.
Proof. apply precheck_released_at_the_end. Qed.

End PrecheckRuns.

(** The first component of a run decides which run it is. *)
Lemma run_of_fst {S A} (run : outcome A * world S) (r : outcome A) :
  run.1 = r -> run = (r, run.2).
Proof. intros <-. now destruct run. Qed.

(** The precheck of the clone of SALES, from the start. *)
Abbreviation precheck_of_sales target_pdb_there refused :=
  (perform_pdb_precheck Oracle.sales_clone PyFloat.format_2f None
     (Scripted.start (Scripted.sales target_pdb_there refused))) (only parsing).

Lemma precheck_checklist_shape_witness :
  exists results source_data target_data,
    (precheck_of_sales false Scripted.nothing).1
    = Ok (results, source_data, target_data)
    /\ map check results = precheck_checklist.
Proof.
  eexists _, _, _. split; [vm_compute; reflexivity|].
  refine (proj1 (precheck_checklist_shape Oracle.sales_clone PyFloat.format_2f None
                   (Scripted.start (Scripted.sales false Scripted.nothing))
                   _ _ _ (precheck_of_sales false Scripted.nothing).2 _)).
  apply (run_of_fst (precheck_of_sales false Scripted.nothing)).
  vm_compute. reflexivity.
Defined.

Lemma no_target_pdb_no_connection_witness :
  exists results source_data target_data,
    (precheck_of_sales false Scripted.nothing).1
    = Ok (results, source_data, target_data)
    /\ target_pdb_exists target_data.2 = false
    /\ (exists new, calls (precheck_of_sales false Scripted.nothing).2 = [] ++ new
                    /\ Forall (fun c => connection_of c <> Some TargetPdbConn) new)
    /\ pdb_parameters target_data.2 = [].
Proof.
  eexists _, _, _. split; [vm_compute; reflexivity|].
  split; [vm_compute; reflexivity|].
  refine (no_target_pdb_no_connection Oracle.sales_clone PyFloat.format_2f None
            (Scripted.start (Scripted.sales false Scripted.nothing)) _ _ _
            (precheck_of_sales false Scripted.nothing).2 _ _).
  - apply (run_of_fst (precheck_of_sales false Scripted.nothing)).
    vm_compute. reflexivity.
  - vm_compute. reflexivity.
Defined.

Lemma precheck_releases_at_the_end_witness :
  returned (precheck_of_sales false Scripted.no_access_to_instance_view).1 = false
  /\ exists new,
       calls (precheck_of_sales false Scripted.no_access_to_instance_view).2
       = [] ++ new
       /\ released_at_the_end false new.
Proof.
  split; [vm_compute; reflexivity|].
  refine (precheck_releases_at_the_end Oracle.sales_clone PyFloat.format_2f None
            (Scripted.start (Scripted.sales false Scripted.no_access_to_instance_view))
            (Raise _)
            (precheck_of_sales false Scripted.no_access_to_instance_view).2 _).
  apply (run_of_fst (precheck_of_sales false Scripted.no_access_to_instance_view)).
  vm_compute. reflexivity.
Defined.

Lemma precheck_executes_only_literals_witness :
  exists new,
    calls (precheck_of_sales true Scripted.no_source_pdb_service).2 = [] ++ new
    /\ Forall executes_a_literal new.
Proof.
  refine (precheck_executes_only_literals Oracle.sales_clone PyFloat.format_2f None
            (Scripted.start (Scripted.sales true Scripted.no_source_pdb_service))
            (precheck_of_sales true Scripted.no_source_pdb_service).1
            (precheck_of_sales true Scripted.no_source_pdb_service).2 _).
  apply surjective_pairing.
Defined.

(** ** [utils/db_connection.py] *)

Lemma params_get_truthy (params : connection_params) key default_value v :
  params_get params key None = v -> truthy v = true ->
  params_get params key default_value = v.
Proof.
  unfold params_get. destruct (params !! key) as [x|]; cbn; [auto|].
  intros <-. discriminate.
Qed.

Section DbConnectionRuns.

Context {S : Type} `{Environment S}.
Variable conn : connection.
Variable cur : cursor.

Lemma traces_cursor_execute c statement binds :
  traces (fun _ t => t = [Execute c statement binds])
         (cursor_execute (S := S) c statement binds).
Proof.
  intros handling w r w' Hrun. apply cursor_execute_trace in Hrun. eauto.
Qed.

Lemma traces_cursor_fetchone c :
  traces (fun _ t => t = [Fetchone c]) (cursor_fetchone (S := S) c).
Proof.
  intros handling w r w'. unfold cursor_fetchone, bind_M.
  destruct (perform (Fetchone c) handling w) as [[rep|e] w1] eqn:Hp;
    apply perform_trace in Hp.
  - destruct rep; unfold ret, raise; intros [= <- <-]; eauto.
  - intros [= <- <-]. eauto.
Qed.

(** One call first, then [k]. *)
Lemma traces_call_then {A B} (Q : bool -> list call -> Prop) (c : call)
    (m : M S A) (k : A -> M S B) :
  traces (fun _ t => t = [c]) m ->
  Q false [c] -> (forall v, traces (fun b t => Q b (c :: t)) (k v)) ->
  traces Q (bind_M m k).
Proof.
  intros Hm Hfail Hk.
  eapply traces_bind; [exact Hm|exact Hk|..].
  - now intros t ->.
  - now intros b t1 t2 ->.
Qed.

(** X6. [create_connection] either raises a [ValueError] before any call
    to the driver, or makes exactly one call: it connects, to the address
    that [get_connection_string] gives for the same parameters, and with
    external authentication exactly in the external_auth mode. *)
Theorem create_connection_uses_connection_string (params : connection_params)
    handling (w : world S) r w' :
  create_connection conn params handling w = (r, w') ->
  (exists e, r = Raise e /\ exn_kind_of e = ValueError /\ w' = w)
  \/ (exists dsn credentials,
        calls w' = calls w ++ [Connect conn dsn credentials]
        /\ get_connection_string params = Some dsn
        /\ (credentials = None
            <-> params_get params "connection_mode" (Some "external_auth")
                = Some "external_auth")).
Proof.
  unfold create_connection, get_connection_string.
  assert (Hraise : forall msg (h : option py_exn),
            exn_kind_of (with_context h (PyExn ValueError msg None)) = ValueError).
  { intros msg [[]|]; reflexivity. }
  destruct (bool_decide _) eqn:Hmode.
  - apply bool_decide_eq_true in Hmode.
    destruct (params_get params "db_name" None) as [alias|] eqn:Hname;
      [destruct (PyStr.falsy alias) eqn:Halias|].
    + intros [= <- <-]. left. eauto.
    + assert (Hname' : params_get params "db_name" (Some "") = Some alias).
      { apply params_get_truthy; [exact Hname|]. cbn. now rewrite Halias. }
      rewrite Hname'.
      destruct (truthy (params_get params "hostname" None)); intros Hrun;
        destruct (traces_unit_call _ _ _ _ _ Hrun) as (new & Hcalls & ->);
        right; eexists _, None; (split; [exact Hcalls|]); split; tauto.
    + intros [= <- <-]. left. eauto.
  - apply bool_decide_eq_false in Hmode.
    destruct (forallb truthy _) eqn:Hall; cbn [negb].
    + cbn [forallb] in Hall. apply andb_prop in Hall as [Hhost Hall].
      apply andb_prop in Hall as [Hservice _].
      rewrite (params_get_truthy params "hostname" (Some "") _ eq_refl Hhost).
      rewrite (params_get_truthy params "service" (Some "") _ eq_refl Hservice).
      intros Hrun. destruct (traces_unit_call _ _ _ _ _ Hrun) as (new & Hcalls & ->).
      right. eexists _, (Some _). split; [exact Hcalls|]. split; [reflexivity|].
      split; [discriminate|]. intros Hext. now destruct Hmode.
    + intros [= <- <-]. left. eauto.
Qed.

Lemma DatabaseConnection_close_run handling (w : world S) :
  exists w', DatabaseConnection_close conn handling w = (Ok tt, w')
             /\ calls w' = calls w ++ [Close (OfConnection conn)].
Proof.
  unfold DatabaseConnection_close, try_except.
  destruct (unit_call (Close (OfConnection conn)) handling w) as [[[]|e] w1] eqn:Hrun;
    destruct (traces_unit_call _ _ _ _ _ Hrun) as (new & Hcalls & ->); unfold ret; eauto.
Qed.

Lemma with_connection_traces {A} (Q : bool -> list call -> Prop) (body : M S A) :
  traces Q body ->
  traces (fun b t => exists t0, Q b t0 /\ t = t0 ++ [Close (OfConnection conn)])
         (with_connection conn body).
Proof.
  intros Hbody handling w r w'. unfold with_connection.
  destruct (body handling w) as [[v|e] w1] eqn:Hrun;
    destruct (Hbody _ _ _ _ Hrun) as (t0 & Hcalls & HQ).
  - destruct (DatabaseConnection_close_run handling w1) as (w2 & -> & Hclose).
    intros [= <- <-]. exists (t0 ++ [Close (OfConnection conn)]).
    split; [now rewrite Hclose, Hcalls, <- app_assoc|eauto].
  - destruct (DatabaseConnection_close_run (Some e) w1) as (w2 & -> & Hclose).
    intros [= <- <-]. exists (t0 ++ [Close (OfConnection conn)]).
    split; [now rewrite Hclose, Hcalls, <- app_assoc|eauto].
Qed.

(** X7. [test_connection] never raises, and it closes what it opens. It
    makes no call at all (the parameters are refused), or only the connect
    (which failed), or else the first [n] of its five calls, connect, cursor,
    statement, fetch, close of the cursor, and then closes the connection,
    once and last, wherever the test stopped; it reports success only after
    all five came back. *)
Theorem test_connection_closes_what_it_opens (params : connection_params)
    handling (w : world S) :
  exists r w' new,
    test_connection conn cur params handling w = (Ok r, w')
    /\ calls w' = calls w ++ new
    /\ ((new = [] /\ r.1 = false)
        \/ (exists dsn credentials, new = [Connect conn dsn credentials] /\ r.1 = false)
        \/ (exists dsn credentials n,
              (2 <= n <= 5)%nat
              /\ new = take n (test_calls conn cur dsn credentials)
                       ++ [Close (OfConnection conn)]
              /\ (r.1 = true -> n = 5%nat))).
Proof.
  unfold test_connection, try_except.
  match goal with
  | |- context [match ?inner handling w with _ => _ end] =>
      assert (Hinner : traces
                (fun b t =>
                   (t = [] /\ b = false)
                   \/ (exists dsn credentials,
                         t = [Connect conn dsn credentials] /\ b = false)
                   \/ (exists dsn credentials n,
                         (2 <= n <= 5)%nat
                         /\ t = take n (test_calls conn cur dsn credentials)
                                ++ [Close (OfConnection conn)]
                         /\ (b = true -> n = 5%nat)))
                inner);
      [|destruct (inner handling w) as [[r|e] w1] eqn:Hrun;
        destruct (Hinner _ _ _ _ Hrun) as (new & Hcalls & Hshape)]
  end.
  - eapply (traces_bind
              (fun b t => (t = [] /\ b = false)
                          \/ exists dsn credentials, t = [Connect conn dsn credentials])
              (fun b t => exists n, (1 <= n <= 4)%nat
                          /\ t = take n [OpenCursor conn cur;
                                         Execute cur test_statement [];
                                         Fetchone cur; Close (OfCursor cur)]
                                 ++ [Close (OfConnection conn)]
                          /\ (b = true -> n = 4%nat))).
    + intros h0 w0 r0 w0' Hrun.
      destruct (create_connection_uses_connection_string _ _ _ _ _ Hrun)
        as [(e & -> & _ & ->)|(dsn & credentials & Hcalls & _)].
      * exists []. split; [now rewrite app_nil_r|]. now left.
      * eexists. split; [exact Hcalls|]. right. eauto.
    + intros _.
      eapply traces_weaken_shape;
        [|apply (with_connection_traces
                   (fun b t => exists n, (1 <= n <= 4)%nat
                               /\ t = take n [OpenCursor conn cur;
                                              Execute cur test_statement [];
                                              Fetchone cur; Close (OfCursor cur)]
                               /\ (b = true -> n = 4%nat)))].
      * intros b t (t0 & (n & Hn & -> & Hb) & ->). eauto.
      * unfold get_cursor.
        eapply traces_call_then; [apply traces_unit_call| |intros _].
        { exists 1%nat. split; [lia|]. split; [reflexivity|]. intros [=]. }
        eapply traces_call_then; [apply traces_cursor_execute| |intros _].
        { exists 2%nat. split; [lia|]. split; [reflexivity|]. intros [=]. }
        eapply traces_call_then; [apply traces_cursor_fetchone| |intros result].
        { exists 3%nat. split; [lia|]. split; [reflexivity|]. intros [=]. }
        eapply traces_call_then; [apply traces_unit_call| |intros _].
        { exists 4%nat. split; [lia|]. split; [reflexivity|]. intros [=]. }
        apply traces_ret. exists 4%nat. split; [lia|]. split; reflexivity.
    + intros t [[-> _]|(dsn & credentials & ->)]; [now left|right; left; eauto].
    + intros b t1 t2 [[-> Hb]|(dsn & credentials & ->)] (n & Hn & -> & Hfull);
        [discriminate|].
      right. right. exists dsn, credentials, (Datatypes.S n).
      split; [lia|]. split; [reflexivity|]. intros Hb. specialize (Hfull Hb). lia.
  - exists r, w1, new. split; [reflexivity|]. split; [exact Hcalls|].
    cbn [returned] in Hshape.
    destruct Hshape as [[_ [=]]|[(? & ? & _ & [=])|(dsn & credentials & n & Hn & -> & Hfull)]].
    right. right. exists dsn, credentials, n. split; [exact Hn|]. split; [reflexivity|].
    intros _. now apply Hfull.
  - unfold ret. eexists _, w1, new. split; [reflexivity|]. split; [exact Hcalls|].
    cbn [returned fst] in *.
    destruct Hshape as [[-> _]|[(dsn & credentials & -> & _)
                               |(dsn & credentials & n & Hn & -> & _)]].
    + now left.
    + right. left. eauto.
    + right. right. exists dsn, credentials, n. split; [exact Hn|].
      split; [reflexivity|discriminate].
Qed.

End DbConnectionRuns.

Lemma create_connection_uses_connection_string_witness :
  get_connection_string sales_login = Some "src-scan:1521/SALES"
  /\ ((exists e,
         (create_connection SourceConn sales_login None
            (Scripted.start (Scripted.sales true Scripted.nothing))).1 = Raise e
         /\ exn_kind_of e = ValueError
         /\ (create_connection SourceConn sales_login None
               (Scripted.start (Scripted.sales true Scripted.nothing))).2
            = Scripted.start (Scripted.sales true Scripted.nothing))
      \/ (exists dsn credentials,
            calls (create_connection SourceConn sales_login None
                     (Scripted.start (Scripted.sales true Scripted.nothing))).2
            = [] ++ [Connect SourceConn dsn credentials]
            /\ get_connection_string sales_login = Some dsn
            /\ (credentials = None
                <-> params_get sales_login "connection_mode"
                      (Some "external_auth") = Some "external_auth"))).
Proof.
  split; [vm_compute; reflexivity|].
  exact (create_connection_uses_connection_string SourceConn sales_login None
           (Scripted.start (Scripted.sales true Scripted.nothing)) _ _
           (surjective_pairing _)).
Defined.

(** ** The clone, the client library and the worker *)

Section Programs.

Context {C R S : Type} `{Service C R S}.

Lemma prog_traces_pure {A} (Q : bool -> list C -> Prop) (v : A) :
  Q true [] -> prog_traces Q (pure v : prog C S A).
Proof.
  intros HQ st r st' [= <- <-]. exists []. now rewrite app_nil_r.
Qed.

Lemma invoke_run (c : C) st r st' :
  invoke c st = (r, st') -> st'.2 = st.2 ++ [c].
Proof. unfold invoke. destruct (serve c st.1). now intros [= <- <-]. Qed.

(** One call first, then [k]. *)
Lemma prog_traces_invoke_then {B} (Q : bool -> list C -> Prop) (c : C)
    (k : R -> prog C S B) :
  Q false [c] -> (forall v, prog_traces (fun b t => Q b (c :: t)) (k v)) ->
  prog_traces Q (bind_prog (invoke c) k).
Proof.
  intros Hfail Hk st r st'. unfold bind_prog.
  destruct (invoke c st) as [[v|e] st1] eqn:Hcall; apply invoke_run in Hcall.
  - intros Hrest. destruct (Hk v _ _ _ Hrest) as (new & Hnew & HQ).
    exists (c :: new). split; [|exact HQ].
    rewrite Hnew, Hcall, <- app_assoc. reflexivity.
  - intros [= <- <-]. exists [c]. split; [exact Hcall|exact Hfail].
Qed.

(** One call whose failure is ignored, then [k]. *)
Lemma prog_traces_try_invoke_then {B} (Q : bool -> list C -> Prop) (c : C)
    (v0 : R) (k : R -> prog C S B) :
  (forall v, prog_traces (fun b t => Q b (c :: t)) (k v)) ->
  prog_traces Q (bind_prog (catch (invoke c) (fun _ => pure v0)) k).
Proof.
  intros Hk st r st'. unfold bind_prog, catch.
  destruct (invoke c st) as [[v|e] st1] eqn:Hcall; apply invoke_run in Hcall;
    unfold pure; intros Hrest;
    destruct (Hk _ _ _ _ Hrest) as (new & Hnew & HQ);
    exists (c :: new); (split; [|exact HQ]);
    rewrite Hnew, Hcall, <- app_assoc; reflexivity.
Qed.

End Programs.

Section CloneRuns.

Context {S : Type} `{Service clone_call unit S}.
Variable params : clone_params.

(** X8. The clone makes its fifteen calls in one fixed order and stops at
    the first that fails: connect, cursor, DROP of the link, CREATE of the
    link, commit, CREATE PLUGGABLE DATABASE, commit, OPEN, commit, SAVE
    STATE, commit, DROP of the link, commit, and the two closes. It returns
    only after all fifteen; when it raises, what it made is the calls up to
    the failing one and nothing more, so neither the link is dropped nor
    the connection closed; and the failing call is never the first DROP,
    whose failure is ignored. *)
Theorem clone_stops_at_the_first_failure st r st' :
  perform_pdb_clone params st = (r, st') ->
  exists n,
    st'.2 = st.2 ++ take n (clone_calls params)
    /\ if returned r then n = 15%nat else (1 <= n <= 15)%nat /\ n <> 3%nat.
Proof.
  intros Hrun.
  enough (Htraces : prog_traces
            (fun b t => exists n, t = take n (clone_calls params)
                        /\ if b then n = 15%nat else (1 <= n <= 15)%nat /\ n <> 3%nat)
            (perform_pdb_clone params)).
  { destruct (Htraces _ _ _ Hrun) as (new & Hnew & n & -> & Hn). eauto. }
  clear. unfold perform_pdb_clone.
  apply prog_traces_invoke_then; [exists 1%nat; split; [reflexivity|lia]|intros _].
  apply prog_traces_invoke_then; [exists 2%nat; split; [reflexivity|lia]|intros _].
  apply prog_traces_try_invoke_then; intros _.
  apply prog_traces_invoke_then; [exists 4%nat; split; [reflexivity|lia]|intros _].
  apply prog_traces_invoke_then; [exists 5%nat; split; [reflexivity|lia]|intros _].
  apply prog_traces_invoke_then; [exists 6%nat; split; [reflexivity|lia]|intros _].
  apply prog_traces_invoke_then; [exists 7%nat; split; [reflexivity|lia]|intros _].
  apply prog_traces_invoke_then; [exists 8%nat; split; [reflexivity|lia]|intros _].
  apply prog_traces_invoke_then; [exists 9%nat; split; [reflexivity|lia]|intros _].
  apply prog_traces_invoke_then; [exists 10%nat; split; [reflexivity|lia]|intros _].
  apply prog_traces_invoke_then; [exists 11%nat; split; [reflexivity|lia]|intros _].
  apply prog_traces_invoke_then; [exists 12%nat; split; [reflexivity|lia]|intros _].
  apply prog_traces_invoke_then; [exists 13%nat; split; [reflexivity|lia]|intros _].
  apply prog_traces_invoke_then; [exists 14%nat; split; [reflexivity|lia]|intros _].
  apply prog_traces_invoke_then; [exists 15%nat; split; [reflexivity|lia]|intros _].
  apply prog_traces_pure. exists 15%nat. split; reflexivity.
Qed.

End CloneRuns.

Lemma clone_stops_at_the_first_failure_witness :
  returned (perform_pdb_clone Oracle.sales_clone (no_space_on_target, [])).1 = false
  /\ exists n,
       (perform_pdb_clone Oracle.sales_clone (no_space_on_target, [])).2.2
       = [] ++ take n (clone_calls Oracle.sales_clone)
       /\ if returned (perform_pdb_clone Oracle.sales_clone (no_space_on_target, [])).1
          then n = 15%nat else (1 <= n <= 15)%nat /\ n <> 3%nat.
Proof.
  split; [vm_compute; reflexivity|].
  exact (clone_stops_at_the_first_failure Oracle.sales_clone (no_space_on_target, [])
           _ _ (surjective_pairing _)).
Defined.

Section OracleClientRuns.

Context {S : Type} `{Service client_call unit S}.
Variable system : string.
Variable oracle_home : option string.
Variable path_join : string -> string -> string.

(** X9. With an explicit [lib_dir] the client library is initialised from
    that directory or not at all: one call is made, with that directory,
    on every platform, and the result tells if it came back; neither
    ORACLE_HOME nor the usual places nor auto-detection are tried after a
    failure. Without [lib_dir] and off Windows, the one call is the
    auto-detection. The function never raises. *)
Theorem explicit_lib_dir_is_the_only_attempt (lib_dir : option string)
    (st : S * list client_call) :
  (truthy lib_dir = true ->
   exists ok message s',
     init_oracle_client_thick_mode system oracle_home path_join lib_dir st
     = (Ok (ok, message), (s', st.2 ++ [InitOracleClient lib_dir]))
     /\ ok = returned (serve (InitOracleClient lib_dir) st.1).1)
  /\ (truthy lib_dir = false -> system <> "Windows" ->
      exists ok message s',
        init_oracle_client_thick_mode system oracle_home path_join lib_dir st
        = (Ok (ok, message), (s', st.2 ++ [InitOracleClient None]))
        /\ ok = returned (serve (InitOracleClient None) st.1).1).
Proof.
  unfold init_oracle_client_thick_mode. split.
  - intros ->. unfold catch, bind_prog, invoke, pure.
    destruct (serve (InitOracleClient lib_dir) st.1) as [[[]|e] s1]; cbn; eauto.
  - intros -> Hsystem. apply String.eqb_neq in Hsystem. rewrite Hsystem.
    unfold _init_oracle_client_unix, catch, bind_prog, invoke, pure.
    destruct (serve (InitOracleClient None) st.1) as [[[]|e] s1]; cbn; eauto.
Qed.

Lemma try_paths_attempts (works : client_call -> bool) :
  (forall c s, returned (serve c s).1 = works c) ->
  forall paths last_error (st : S * list client_call),
  exists ok message s',
    try_paths oracle_home paths last_error st
    = (Ok (ok, message), (s', st.2 ++ attempts works paths))
    /\ ok = existsb (fun lib_dir => works (client_call_of lib_dir)) paths.
Proof.
  intros Hworks paths.
  induction paths as [|lib_dir rest IH]; intros last_error st;
    cbn [try_paths attempts existsb].
  - unfold pure. rewrite app_nil_r. destruct st. eauto.
  - specialize (Hworks (client_call_of lib_dir) st.1).
    unfold client_call_of in *.
    destruct (truthy lib_dir) eqn:Htruthy;
      unfold catch, bind_prog, invoke, pure;
      match goal with
      | |- context [serve ?c st.1] =>
          destruct (serve c st.1) as [[[]|e] s1] eqn:Hserve
      end;
      cbn [returned fst] in Hworks; rewrite <- Hworks; cbn [orb];
      try (eexists _, _, _; split; reflexivity);
      match goal with
      | |- context [try_paths _ _ ?err ?st1] =>
          destruct (IH err st1) as (ok & message & s' & -> & ->)
      end;
      cbn [snd]; rewrite <- app_assoc; eexists _, _, _; split; reflexivity.
Qed.

(** X10. On Windows and without [lib_dir], the client library is
    initialised from the first place that works, tried in this order:
    ORACLE_HOME and its [bin] when the variable is set, the eight fixed
    directories, and auto-detection last. No place is tried after one that
    worked, every place is tried when none works, and the result tells if
    one did. The function never raises. (The library is taken to answer a
    call by the place alone.) *)
Theorem windows_takes_the_first_place_that_works (works : client_call -> bool)
    (lib_dir : option string) (st : S * list client_call) :
  (forall c s, returned (serve c s).1 = works c) ->
  truthy lib_dir = false ->
  system = "Windows" ->
  exists ok message s',
    init_oracle_client_thick_mode system oracle_home path_join lib_dir st
    = (Ok (ok, message),
       (s', st.2 ++ attempts works (possible_paths oracle_home path_join)))
    /\ ok = existsb (fun place => works (client_call_of place))
              (possible_paths oracle_home path_join).
Proof.
  intros Hworks Hnone ->. unfold init_oracle_client_thick_mode.
  rewrite Hnone, String.eqb_refl.
  unfold _init_oracle_client_windows, catch.
  destruct (try_paths_attempts works Hworks (possible_paths oracle_home path_join)
              None st) as (ok & message & s' & -> & ->).
  eauto.
Qed.

End OracleClientRuns.

Lemma explicit_lib_dir_is_the_only_attempt_witness :
  exists ok message s',
    init_oracle_client_thick_mode "Windows" (Some "C:\app\oracle")
      (fun a b => a +:+ "\" +:+ b) (Some "C:\oracle\instantclient_21_3")
      (instant_client_21_3, [])
    = (Ok (ok, message), (s', [] ++ [InitOracleClient (Some "C:\oracle\instantclient_21_3")]))
    /\ ok = returned
              (serve (InitOracleClient (Some "C:\oracle\instantclient_21_3"))
                 instant_client_21_3).1.
Proof.
  apply (explicit_lib_dir_is_the_only_attempt "Windows" (Some "C:\app\oracle")
           (fun a b => a +:+ "\" +:+ b) (Some "C:\oracle\instantclient_21_3")
           (instant_client_21_3, [])).
  reflexivity.
Defined.

Lemma windows_takes_the_first_place_that_works_witness :
  exists ok message s',
    init_oracle_client_thick_mode "Windows" (Some "C:\app\oracle")
      (fun a b => a +:+ "\" +:+ b) None (HostWithInstantClient_21_3, [])
    = (Ok (ok, message),
       (s', [ InitOracleClient (Some "C:\app\oracle");
              InitOracleClient (Some "C:\app\oracle\bin");
              InitOracleClient (Some "C:\oracle\instantclient_19_8");
              InitOracleClient (Some "C:\oracle\instantclient_21_3") ]))
    /\ ok = true.
Proof.
  apply (windows_takes_the_first_place_that_works "Windows" (Some "C:\app\oracle")
           (fun a b => a +:+ "\" +:+ b)
           (fun c => returned (instant_client_21_3 c)) None
           (HostWithInstantClient_21_3, [])).
  - reflexivity.
  - reflexivity.
  - reflexivity.
Defined.

Section DatabaseWorkerRuns.

Context {S : Type} `{Service worker_call worker_reply S}.
Variable format_exc : py_exn -> string.

(** X11. A worker whose signal can be emitted emits [finished] exactly
    once in every run, as its last call, and [run] never raises. Before it
    the worker calls the one method the operation is routed to, or nothing
    when the operation is unknown. The signal says success exactly when
    that method returned, and then carries what it returned. *)
Theorem worker_emits_finished_once (operation : string) (st : S * list worker_call) :
  (forall success message s, exists s', serve (EmitFinished success message) s
                                        = (Ok Emitted, s')) ->
  exists st' success message,
    run format_exc operation st = (Ok tt, st')
    /\ st'.2 = st.2 ++ match route operation with
                       | Some method => [method]
                       | None => []
                       end ++ [EmitFinished success message]
    /\ (success = true
        <-> exists method s1,
              route operation = Some method
              /\ serve method st.1 = (Ok (Result message), s1)).
Proof.
  intros Hemit.
  assert (Hrun : forall success message (st0 : S * list worker_call),
            exists s', emit_finished success message st0
                       = (Ok tt, (s', st0.2 ++ [EmitFinished success message]))).
  { intros success message st0. unfold emit_finished, bind_prog, invoke, pure.
    destruct (Hemit success message st0.1) as (s' & ->). eauto. }
  unfold run, catch.
  destruct (route operation) as [method|] eqn:Hroute.
  - unfold bind_prog, invoke.
    destruct (serve method st.1) as [[[result|]|e] s1] eqn:Hserve.
    + destruct (Hrun true result (s1, st.2 ++ [method])) as (s' & ->).
      eexists _, true, result. split; [reflexivity|].
      split; [cbn; now rewrite <- app_assoc|].
      split; [eauto|reflexivity].
    + unfold fail. cbv beta iota.
      match goal with
      | |- context [emit_finished false ?msg ?st0] =>
          destruct (Hrun false msg st0) as (s' & ->)
      end.
      eexists _, false, _. split; [reflexivity|].
      split; [cbn; now rewrite <- app_assoc|].
      split; [discriminate|]. intros (m & s2 & [= <-] & Hm).
      rewrite Hserve in Hm. discriminate.
    + match goal with
      | |- context [emit_finished false ?msg ?st0] =>
          destruct (Hrun false msg st0) as (s' & ->)
      end.
      eexists _, false, _. split; [reflexivity|].
      split; [cbn; now rewrite <- app_assoc|].
      split; [discriminate|]. intros (m & s2 & [= <-] & Hm).
      rewrite Hserve in Hm. discriminate.
  - destruct (Hrun false ("Unknown operation: " +:+ operation) st) as (s' & ->).
    eexists _, false, _. split; [reflexivity|]. split; [reflexivity|].
    split; [discriminate|]. intros (m & s2 & [=] & _).
Qed.

End DatabaseWorkerRuns.

Lemma worker_emits_finished_once_witness :
  exists st' success message,
    run (fun e => "Traceback (most recent call last): ...") "pdb_precheck"
      (HostOfWorker, [])
    = (Ok tt, st')
    /\ st'.2 = [] ++ [PerformPdbPrecheck] ++ [EmitFinished success message]
    /\ (success = true
        <-> exists method s1,
              route "pdb_precheck" = Some method
              /\ serve method HostOfWorker = (Ok (Result message), s1)).
Proof.
  apply (worker_emits_finished_once (fun e => "Traceback (most recent call last): ...")
           "pdb_precheck" (HostOfWorker, [])).
  intros success message []. eexists. reflexivity.
Defined.

(** ** The health check: MAX_PDB_STORAGE and the container of the session *)

Section HealthCheckRuns.

Context {S : Type} `{Environment S}.
Variable cur : cursor.
Variable round_2 : PyFloat.float -> PyFloat.float.

Lemma ensures_ret {A} (Q : outcome A -> list call -> Prop) (v : A) :
  Q (Ok v) [] -> ensures Q (ret v : M S A).
Proof.
  intros HQ handling w r w' [= <- <-]. exists []. now rewrite app_nil_r.
Qed.

(** One call first, then [k]. *)
Lemma ensures_call_then {A B} (Q : outcome B -> list call -> Prop) (c : call)
    (m : M S A) (k : A -> M S B) :
  traces (fun _ t => t = [c]) m ->
  (forall e, Q (Raise e) [c]) ->
  (forall v, ensures (fun r t => Q r (c :: t)) (k v)) ->
  ensures Q (bind_M m k).
Proof.
  intros Hm Hfail Hk handling w r w'. unfold bind_M.
  destruct (m handling w) as [[v|e] w1] eqn:Hrun;
    destruct (Hm _ _ _ _ Hrun) as (new1 & Hc1 & ->).
  - intros Hrest. destruct (Hk v _ _ _ _ Hrest) as (new2 & Hc2 & HQ).
    exists (c :: new2). split; [|exact HQ].
    now rewrite Hc2, Hc1, <- app_assoc.
  - intros [= <- <-]. exists [c]. split; [exact Hc1|apply Hfail].
Qed.

(** A pure step, then [k]. *)
Lemma ensures_lift_then {A B} (Q : outcome B -> list call -> Prop)
    (x : outcome A) (k : A -> M S B) :
  (forall e, Q (Raise e) []) ->
  (forall v, ensures Q (k v)) ->
  ensures Q (bind_M (lift x) k).
Proof.
  intros Hfail Hk handling w r w'. unfold bind_M, lift.
  destruct x as [v|e]; unfold ret, raise.
  - apply Hk.
  - intros [= <- <-]. exists []. split; [now rewrite app_nil_r|apply Hfail].
Qed.

(** X12. Metric 5 of the health check never raises, and it makes the
    first [n] of its eight calls, in order: is this a CDB, fetch, the first
    PDB, fetch, switch the session to that PDB, the property, fetch, switch
    back to CDB$ROOT. It stops after 2 calls on a non-CDB and after 4 when
    there is no PDB; it makes all 8 otherwise, unless something raises on
    the way. Whenever it stops elsewhere the metric is 'Unable to query':
    so a failure after the switch to the PDB (n = 6 or 7) ends the metric
    without the switch back, and the rest of the health check runs in the
    PDB. *)
Theorem health_check_container_switch (db_size_gb : PyFloat.float)
    handling (w : world S) :
  exists r w' n name,
    gather_max_pdb_storage cur round_2 db_size_gb handling w = (Ok r, w')
    /\ calls w' = calls w ++ take n (container_calls cur name)
    /\ (1 <= n <= 8)%nat
    /\ (r = ("Unable to query", None)
        \/ (n = 2%nat /\ r = ("N/A (Non-CDB)", None))
        \/ (n = 4%nat /\ r = ("N/A (No PDBs)", None))
        \/ n = 8%nat).
Proof.
  unfold gather_max_pdb_storage, try_except.
  match goal with
  | |- context [match ?body handling w with _ => _ end] =>
      assert (Hbody : ensures
                (fun r t => exists n name,
                   t = take n (container_calls cur name)
                   /\ (1 <= n <= 8)%nat
                   /\ match r with
                      | Ok v => (n = 2%nat /\ v = ("N/A (Non-CDB)", None))
                                \/ (n = 4%nat /\ v = ("N/A (No PDBs)", None))
                                \/ n = 8%nat
                      | Raise _ => True
                      end)
                body);
      [|destruct (body handling w) as [[r|e] w1] eqn:Hrun;
        destruct (Hbody _ _ _ _ Hrun) as (new & Hcalls & n & name & -> & Hn & Hr)]
  end.
  - eapply ensures_call_then; [apply traces_cursor_execute| |intros _].
    { intros e. exists 1%nat, None. split; [reflexivity|]. split; [lia|exact I]. }
    eapply ensures_call_then; [apply traces_cursor_fetchone| |intros is_cdb_result].
    { intros e. exists 2%nat, None. split; [reflexivity|]. split; [lia|exact I]. }
    destruct (first_column_is "YES" is_cdb_result).
    2:{ apply ensures_ret. exists 2%nat, None. split; [reflexivity|].
        split; [lia|]. auto. }
    eapply ensures_call_then; [apply traces_cursor_execute| |intros _].
    { intros e. exists 3%nat, None. split; [reflexivity|]. split; [lia|exact I]. }
    eapply ensures_call_then; [apply traces_cursor_fetchone| |intros first_pdb].
    { intros e. exists 4%nat, None. split; [reflexivity|]. split; [lia|exact I]. }
    destruct first_pdb as [[|name cells]|].
    1,3: apply ensures_ret; exists 4%nat, None; (split; [reflexivity|]);
         (split; [lia|]); auto.
    eapply ensures_call_then; [apply traces_cursor_execute| |intros _].
    { intros e. exists 5%nat, name. split; [reflexivity|]. split; [lia|exact I]. }
    eapply ensures_call_then; [apply traces_cursor_execute| |intros _].
    { intros e. exists 6%nat, name. split; [reflexivity|]. split; [lia|exact I]. }
    eapply ensures_call_then; [apply traces_cursor_fetchone| |intros max_pdb_result].
    { intros e. exists 7%nat, name. split; [reflexivity|]. split; [lia|exact I]. }
    apply ensures_lift_then; [|intros storage_pct].
    { intros e. exists 7%nat, name. split; [reflexivity|]. split; [lia|exact I]. }
    eapply ensures_call_then; [apply traces_cursor_execute| |intros _].
    { intros e. exists 8%nat, name. split; [reflexivity|]. split; [lia|exact I]. }
    apply ensures_ret. exists 8%nat, name. split; [reflexivity|]. split; [lia|]. auto.
  - exists r, w1, n, name. split; [reflexivity|]. split; [exact Hcalls|].
    split; [exact Hn|]. destruct Hr as [[-> ->]|[[-> ->]| ->]]; auto.
  - unfold ret. exists ("Unable to query", None), w1, n, name.
    split; [reflexivity|]. split; [exact Hcalls|]. split; [exact Hn|]. now left.
Qed.

End HealthCheckRuns.

(** ** The services check of the postcheck *)

Lemma size_list_to_set_fmap (f : option string -> option string)
    `{!Inj (=) (=) f} (l : list (option string)) :
  size (list_to_set (f <$> l) : gset (option string))
  = size (list_to_set l : gset (option string)).
Proof.
  assert (Hl : (list_to_set l : gset (option string)) = list_to_set (remove_dups l)).
  { apply set_eq. intros x. now rewrite !elem_of_list_to_set, elem_of_remove_dups. }
  assert (Hfl : (list_to_set (f <$> l) : gset (option string))
                = list_to_set (f <$> remove_dups l)).
  { apply set_eq. intros x. rewrite !elem_of_list_to_set, !list_elem_of_fmap.
    split; intros (y & -> & Hy); exists y; (split; [reflexivity|]);
      now apply elem_of_remove_dups. }
  rewrite Hl, Hfl, !size_list_to_set, length_fmap.
  - reflexivity.
  - apply NoDup_remove_dups.
  - apply NoDup_fmap_2; [assumption|apply NoDup_remove_dups].
Qed.

(** X13. The services check of the postcheck compares how many distinct
    service names each PDB has and nothing else: renaming the services of
    either side, one to one, leaves the whole entry as it is. The names
    themselves are never compared, so two PDBs with as many services pass
    whatever the services are called. *)
Theorem services_check_ignores_the_names (f g : option string -> option string)
    (source_names target_names : list (option string)) :
  Inj (=) (=) f -> Inj (=) (=) g ->
  services_result (f <$> source_names) (g <$> target_names)
  = services_result source_names target_names.
Proof.
  intros Hf Hg. unfold services_result.
  now rewrite !size_list_to_set_fmap.
Qed.

Lemma services_check_ignores_the_names_witness :
  services_result
    ((fun name : option string => name) <$> [Some "sales"; Some "sales_ro"; Some "sales"])
    ((fun name : option string => option_map (String "c"%char) name)
       <$> [Some "rm"; Some "rm_ro"])
  = services_result [Some "sales"; Some "sales_ro"; Some "sales"]
      [Some "rm"; Some "rm_ro"].
Proof.
  apply services_check_ignores_the_names.
  - intros x y Hxy. exact Hxy.
  - intros [a|] [b|] Hab; cbn in Hab; congruence.
Defined.

(** ** The rows of the checks in the reports *)

(** X14. A check that was skipped does not count against the overall
    status of the precheck report, yet its row is styled as a failure: when
    every entry is PASS or SKIPPED the heading says PASS with class 'pass',
    while each SKIPPED row has class 'fail'. *)
Theorem skipped_row_is_styled_as_failed (validation_results : list validation_result)
    (r : validation_result) :
  r ∈ validation_results ->
  status r = "SKIPPED" ->
  (forall r', r' ∈ validation_results -> status r' = "PASS" \/ status r' = "SKIPPED") ->
  overall_status validation_results = "PASS"
  /\ overall_class validation_results = "pass"
  /\ status_class r = "fail".
Proof.
  intros Hin Hskipped Hall.
  assert (Hpass : overall_pass validation_results = true).
  { unfold overall_pass. apply forallb_forall. intros r' Hr'.
    apply filter_In in Hr' as [Hr' Hnot].
    apply list_elem_of_In in Hr'. destruct (Hall r' Hr') as [->| Hs].
    - reflexivity.
    - rewrite Hs in Hnot. discriminate. }
  unfold overall_status, overall_class, status_class.
  rewrite Hpass, Hskipped. auto.
Qed.

Lemma skipped_row_is_styled_as_failed_witness :
  let skipped := ValidationResult "MAX_PDB_STORAGE Limit" "SKIPPED" "80.5 GB"
                   "Could not verify (connection issue)" None in
  let results := [ValidationResult "Local Undo Mode" "PASS" "TRUE" "TRUE" None; skipped] in
  overall_status results = "PASS"
  /\ overall_class results = "pass"
  /\ status_class skipped = "fail".
Proof.
  intros skipped results.
  apply (skipped_row_is_styled_as_failed results skipped).
  - apply elem_of_cons; right; apply elem_of_cons; now left.
  - reflexivity.
  - intros r' Hr'. apply elem_of_cons in Hr' as [->|Hr'].
    + now left.
    + apply elem_of_cons in Hr' as [->|Hr']; [now right|inversion Hr'].
Defined.

(** ** The three readers of a storage limit *)

















(** Behind a separator [parse_storage_value] finds the limit, the precheck
    and the health check do not. *)
Example storage_limit_behind_a_separator :
  parse_storage_value (String "031" "50G") = Ok (Some (PyFloat.of_Z 50))
  /\ convert_target_limit (String "031" "50G") = Ok (String "031" "50G", None)
  /\ forall round_2 db_size_gb,
       storage_pct_of round_2 db_size_gb (String "031" "50G") = Ok None.
Proof. split; [|split]; intros; vm_compute; reflexivity. Qed.
